(** * License Authority, Session Cache and Auth Coordinator of the
      Flow Motion licensing core: a shallow embedding of the JavaScript
      sources and the properties established about them.

    Sources embedded here:
    - [src/api/validate-license.js]: the serverless [validate-license]
      handler (lines 1-189), [simplifyUserAgent] (192-198) and the
      serverless [check-session] handler (203-350);
    - [src/unnamed/part_001]: [AuthManager] (5-233), the Express gate on
      [/lib] (330-340), the Express routes [/api/validate-license]
      (402-470) and [/api/check-session] (473-507);
    - [src/unnamed/part_000]: the [API] class (session cache);
    - [src/middleware.js] (1-41) and [src/unnamed/part_003]: the two edge
      gates in front of the engine assets;
    - [src/scripts/copy-ffmpeg.js] (40-165): the Netlify port of
      [validate-license]; [src/unnamed/part_001] (241-311): the Netlify
      [check-session];
    - [src/js/fingerprint.js]: [getDeviceId] (193-216), [detectBrowser]
      and [detectOS] (232-249);
    - [src/middleware.js]: [formatTimeRemaining] (65-74) and the
      [storage] helpers (192-227).

    Conventions.  JavaScript values read from JSON are modelled by
    [jsval]; numbers are the integer-valued doubles ([Z]) plus [NaN], and
    a sum is rounded as a double is; a string is the sequence of bytes
    of its UTF-8 encoding.  Time values are milliseconds since the epoch
    ([Z]).  What the sources take from the runtime and depends on it
    ([Date.parse], the conversion of a string to a number, the offset of
    local time, the Unicode tables behind [trim] and [toUpperCase]) are
    the fields of the class [Platform]. *)

From Stdlib Require Import ZArith List String Ascii Bool Lia DecimalString DecimalZ.
From stdpp Require Import base option list gmap strings.

Local Open Scope string_scope.
Local Open Scope Z_scope.

(** ** JavaScript values and coercions *)

Module Js.

Inductive jsval : Type :=
| VUndef
| VNull
| VBool (b : bool)
| VNum (n : Z)
| VNaN
| VStr (s : string).

#[global] Instance jsval_eq_dec : EqDecision jsval.
Proof. solve_decision. Defined.

(** ToBoolean *)
Definition truthy (v : jsval) : bool :=
  match v with
  | VUndef | VNull | VNaN => false
  | VBool b => b
  | VNum n => negb (n =? 0)
  | VStr s => negb (String.eqb s "")
  end.

(** [a || b] and [a && b] *)
Definition js_or (a b : jsval) : jsval := if truthy a then a else b.
Definition js_and (a b : jsval) : jsval := if truthy a then b else a.

(** [a === b] on primitives; [NaN] is equal to nothing. *)
Definition strict_eq (a b : jsval) : bool :=
  match a, b with
  | VUndef, VUndef => true
  | VNull, VNull => true
  | VBool x, VBool y => Bool.eqb x y
  | VNum x, VNum y => x =? y
  | VStr x, VStr y => String.eqb x y
  | _, _ => false
  end.

Definition strict_ne (a b : jsval) : bool := negb (strict_eq a b).

(** Number::toString for integer-valued numbers *)
Definition string_of_Z (n : Z) : string := NilZero.string_of_int (Z.to_int n).

(** ToString *)
Definition ToString (v : jsval) : string :=
  match v with
  | VUndef => "undefined"
  | VNull => "null"
  | VBool true => "true"
  | VBool false => "false"
  | VNum n => string_of_Z n
  | VNaN => "NaN"
  | VStr s => s
  end.

(** JavaScript numbers as far as they are needed: an integer or NaN. *)
Definition jsnum := option Z.

Definition num_val (n : jsnum) : jsval :=
  match n with Some z => VNum z | None => VNaN end.

(** [a < b] on numbers: false as soon as one side is NaN. *)
Definition num_lt (a b : jsnum) : bool :=
  match a, b with
  | Some x, Some y => x <? y
  | _, _ => false
  end.

Definition num_gt (a b : jsnum) : bool := num_lt b a.

Definition num_sub (a b : jsnum) : jsnum :=
  match a, b with
  | Some x, Some y => Some (x - y)
  | _, _ => None
  end.

(** Every integer up to 2^53 in absolute value is a double. *)
Definition two53 : Z := 9007199254740992.

(** The double nearest to the integer [z], ties going to the even
    significand: beyond 2^53 the 53 leading bits are kept and the [e]
    bits below them rounded away.  (A result of 2^1024 or more, which is
    [Infinity] for the code, needs two operands no source adds: none of
    a counter, a day of the month and a clock reading is that large.) *)
Definition round_to_double (z : Z) : Z :=
  if Z.abs z <=? two53 then z
  else
    let e := Z.log2 (Z.abs z) - 52 in
    let q := Z.abs z / 2 ^ e in
    let r := Z.abs z mod 2 ^ e in
    let half := 2 ^ (e - 1) in
    let q' := if (half <? r) || ((r =? half) && Z.odd q) then q + 1 else q in
    Z.sgn z * (q' * 2 ^ e).

Arguments round_to_double : simpl never.

(** ** Strings *)

(** The WhiteSpace and LineTerminator characters of ASCII. *)
Definition is_space (c : ascii) : bool :=
  let n := nat_of_ascii c in
  ((9 <=? n) && (n <=? 13) || (n =? 32))%nat.

Fixpoint trim_start (s : string) : string :=
  match s with
  | EmptyString => EmptyString
  | String c r => if is_space c then trim_start r else s
  end.

Fixpoint rev_string (acc s : string) : string :=
  match s with
  | EmptyString => acc
  | String c r => rev_string (String c acc) r
  end.

Definition trim_end (s : string) : string :=
  rev_string "" (trim_start (rev_string "" s)).

(** String.prototype.trim on a text of ASCII characters *)
Definition ascii_trim (s : string) : string := trim_end (trim_start s).

Definition upper_char (c : ascii) : ascii :=
  let n := nat_of_ascii c in
  if ((97 <=? n) && (n <=? 122))%nat then ascii_of_nat (n - 32) else c.

(** String.prototype.toUpperCase on a text of ASCII characters *)
Fixpoint ascii_toUpperCase (s : string) : string :=
  match s with
  | EmptyString => EmptyString
  | String c r => String (upper_char c) (ascii_toUpperCase r)
  end.

(** Every character of the text is an ASCII character. *)
Fixpoint is_ascii (s : string) : bool :=
  match s with
  | EmptyString => true
  | String c r => (nat_of_ascii c <? 128)%nat && is_ascii r
  end.

(** Every character of the text is at most U+00FF: its encoding has no
    byte from 0xC4 on.  These are the texts [btoa] encodes; on any other
    it throws. *)
Fixpoint latin1 (s : string) : bool :=
  match s with
  | EmptyString => true
  | String c r => (nat_of_ascii c <? 196)%nat && latin1 r
  end.

Fixpoint starts_with (p s : string) : bool :=
  match p, s with
  | EmptyString, _ => true
  | String a p', String b s' => if Ascii.eqb a b then starts_with p' s' else false
  | String _ _, EmptyString => false
  end.

(** [s.includes(sub)] *)
Fixpoint includes (s sub : string) : bool :=
  starts_with sub s ||
  match s with
  | EmptyString => false
  | String _ r => includes r sub
  end.

(** The UTF-16 code units of the characters that start in [s]: none for
    a continuation byte, two for the first byte of a character above
    U+FFFF, one for any other byte. *)
Fixpoint code_units (s : string) : Z :=
  match s with
  | EmptyString => 0
  | String c r =>
      let n := nat_of_ascii c in
      (if ((128 <=? n) && (n <? 192))%nat then 0
       else if (240 <=? n)%nat then 2 else 1)
      + code_units r
  end.

(** [s.length].  (A continuation byte that opens the text, which no
    encoding has, counts as a character.) *)
Definition str_length (s : string) : Z :=
  match s with
  | EmptyString => 0
  | String c r =>
      let n := nat_of_ascii c in
      (if ((128 <=? n) && (n <? 192))%nat then 1 else 0) + code_units s
  end.

End Js.

Export Js.

(** ** The platform *)

(** What the sources take from the JavaScript runtime and depends on
    it: [Date.parse] on a string ([None] is NaN),
    [Date.prototype.toISOString] on a valid time value, the numeric
    value of a string (ToNumber), the offset [LocalTZA(t, isUTC)] of
    local time from UTC in milliseconds, at the UTC time [t] or at the
    local time [t], and [String.prototype.trim] and [toUpperCase], which
    follow the Unicode tables of the runtime.  On a text of ASCII
    characters the last two are the same on every runtime. *)
Class Platform : Type := {
  Date_parse : string -> jsnum;
  toISOString : Z -> string;
  StringToNumber : string -> jsnum;
  LocalTZA : Z -> bool -> Z;
  trim : string -> string;
  toUpperCase : string -> string;
  trim_ascii : forall s, is_ascii s = true -> trim s = ascii_trim s;
  toUpperCase_ascii :
    forall s, is_ascii s = true -> toUpperCase s = ascii_toUpperCase s
}.

(** ** Dates: the ECMAScript time-value algorithms used by the handlers *)

Module JsDate.

Definition msPerDay : Z := 86400000.

(** TimeClip bound: 8.64e15 ms on either side of the epoch. *)
Definition maxTime : Z := 8640000000000000.

Definition TimeClip (t : Z) : jsnum :=
  if Z.abs t <=? maxTime then Some t else None.

Definition Day (t : Z) : Z := t / msPerDay.
Definition TimeWithinDay (t : Z) : Z := t mod msPerDay.

Definition leap_year (y : Z) : bool :=
  if negb (y mod 4 =? 0) then false
  else if negb (y mod 100 =? 0) then true
  else if negb (y mod 400 =? 0) then false
  else true.

Definition DaysInYear (y : Z) : Z := if leap_year y then 366 else 365.

Definition DayFromYear (y : Z) : Z :=
  365 * (y - 1970) + (y - 1969) / 4 - (y - 1901) / 100 + (y - 1601) / 400.

(** The largest [y] with [DayFromYear y <= d]: one of the three years
    around the estimate given by the 400-year cycle of 146097 days. *)
Definition YearFromDay (d : Z) : Z :=
  let y0 := 1970 + (d * 400) / 146097 in
  if DayFromYear (y0 + 1) <=? d then y0 + 1
  else if DayFromYear y0 <=? d then y0
  else y0 - 1.

Definition YearFromTime (t : Z) : Z := YearFromDay (Day t).

Definition InLeapYear (t : Z) : bool := leap_year (YearFromTime t).

Definition DayWithinYear (t : Z) : Z := Day t - DayFromYear (YearFromTime t).

(** Number of days of the year before month [m] (0 = January). *)
Definition month_start (m : Z) (leap : bool) : Z :=
  let l := if leap then 1 else 0 in
  match m with
  | 0 => 0
  | 1 => 31
  | 2 => 59 + l
  | 3 => 90 + l
  | 4 => 120 + l
  | 5 => 151 + l
  | 6 => 181 + l
  | 7 => 212 + l
  | 8 => 243 + l
  | 9 => 273 + l
  | 10 => 304 + l
  | _ => 334 + l
  end.

Definition MonthFromTime (t : Z) : Z :=
  let d := DayWithinYear t in
  let l := if InLeapYear t then 1 else 0 in
  if d <? 31 then 0
  else if d <? 59 + l then 1
  else if d <? 90 + l then 2
  else if d <? 120 + l then 3
  else if d <? 151 + l then 4
  else if d <? 181 + l then 5
  else if d <? 212 + l then 6
  else if d <? 243 + l then 7
  else if d <? 273 + l then 8
  else if d <? 304 + l then 9
  else if d <? 334 + l then 10
  else 11.

Definition DateFromTime (t : Z) : Z :=
  DayWithinYear t - month_start (MonthFromTime t) (InLeapYear t) + 1.

(** MakeDay(year, month, date): the day number of the first of the
    month, plus [date - 1]. *)
Definition MakeDay (year month date : Z) : Z :=
  let ym := year + month / 12 in
  let mn := month mod 12 in
  DayFromYear ym + month_start mn (leap_year ym) + date - 1.

Definition MakeDate (day time : Z) : Z := day * msPerDay + time.

Section WithPlatform.
Context {P : Platform}.

(** LocalTime(t) and UTC(t): the offset is the one in force at [t],
    taken as a UTC time and as a local time. *)
Definition LocalTime (t : Z) : Z := t + LocalTZA t true.
Definition UTC (t : Z) : Z := t - LocalTZA t false.

(** [d.getDate()] for a valid date [d] with time value [t] *)
Definition getDate (t : Z) : Z := DateFromTime (LocalTime t).

(** [d.setDate(dt)] for a valid date with time value [t]: the new time
    value, NaN when [dt] is NaN or the result is out of range. *)
Definition setDate (t : Z) (dt : jsnum) : jsnum :=
  match dt with
  | None => None
  | Some dt =>
      let lt := LocalTime t in
      let newDate :=
        MakeDate (MakeDay (YearFromTime lt) (MonthFromTime lt) dt) (TimeWithinDay lt) in
      TimeClip (UTC newDate)
  end.

(** ToNumber *)
Definition ToNumber (v : jsval) : jsnum :=
  match v with
  | VUndef => None
  | VNull => Some 0
  | VBool b => Some (if b then 1 else 0)
  | VNum n => Some n
  | VNaN => None
  | VStr s => StringToNumber s
  end.

(** [a + b]: concatenation as soon as one operand is a string, the sum
    of the numeric values otherwise, rounded to a double. *)
Definition js_plus (a b : jsval) : jsval :=
  match a, b with
  | VStr _, _ | _, VStr _ => VStr (ToString a ++ ToString b)
  | _, _ =>
      match ToNumber a, ToNumber b with
      | Some x, Some y => VNum (round_to_double (x + y))
      | _, _ => VNaN
      end
  end.

(** The time value of [new Date(v)] for a primitive [v]: a string is
    parsed, anything else is converted to a number and clipped. *)
Definition newDate (v : jsval) : jsnum :=
  match v with
  | VStr s => Date_parse s
  | _ => match ToNumber v with
         | Some n => TimeClip n
         | None => None
         end
  end.

(** [d.toISOString()]: throws a RangeError ([None]) on an invalid date. *)
Definition date_toISOString (t : jsnum) : option string :=
  match t with
  | Some t => Some (toISOString t)
  | None => None
  end.

End WithPlatform.

End JsDate.

Export JsDate.

(** ** The license store *)

Module Store.

(** A license record as the handlers read it from the store: every
    attribute may be absent ([VUndef]) or hold any JSON primitive. *)
Record license : Type := {
  key : jsval;
  plan : jsval;
  activated_on : jsval;
  device_hash : jsval;
  device_name : jsval;
  expires_at : jsval;
  duration_days : jsval;
  processed_videos : jsval;
  processedVideos : jsval;
  deviceName : jsval
}.

#[global] Instance license_eq_dec : EqDecision license.
Proof. solve_decision. Defined.

(** Assignments [license.f = v] *)
Definition set_activated_on (v : jsval) (l : license) : license :=
  {| key := key l; plan := plan l; activated_on := v;
     device_hash := device_hash l; device_name := device_name l;
     expires_at := expires_at l; duration_days := duration_days l;
     processed_videos := processed_videos l;
     processedVideos := processedVideos l; deviceName := deviceName l |}.

Definition set_device_hash (v : jsval) (l : license) : license :=
  {| key := key l; plan := plan l; activated_on := activated_on l;
     device_hash := v; device_name := device_name l;
     expires_at := expires_at l; duration_days := duration_days l;
     processed_videos := processed_videos l;
     processedVideos := processedVideos l; deviceName := deviceName l |}.

Definition set_device_name (v : jsval) (l : license) : license :=
  {| key := key l; plan := plan l; activated_on := activated_on l;
     device_hash := device_hash l; device_name := v;
     expires_at := expires_at l; duration_days := duration_days l;
     processed_videos := processed_videos l;
     processedVideos := processedVideos l; deviceName := deviceName l |}.

Definition set_expires_at (v : jsval) (l : license) : license :=
  {| key := key l; plan := plan l; activated_on := activated_on l;
     device_hash := device_hash l; device_name := device_name l;
     expires_at := v; duration_days := duration_days l;
     processed_videos := processed_videos l;
     processedVideos := processedVideos l; deviceName := deviceName l |}.

Definition set_processed_videos (v : jsval) (l : license) : license :=
  {| key := key l; plan := plan l; activated_on := activated_on l;
     device_hash := device_hash l; device_name := device_name l;
     expires_at := expires_at l; duration_days := duration_days l;
     processed_videos := v;
     processedVideos := processedVideos l; deviceName := deviceName l |}.

(** What [GET /b/<bin>/latest] answers, by the shapes the handlers tell
    apart ([data] is the parsed body):
    - [RecordArray]: [data.record] is an array;
    - [RecordLicenses]: [data.record.licenses] is an array;
    - [RootArray]: [data] itself is an array;
    - [RecordFirstValueArray]: [data.record] is an object whose first
      value is an array;
    - [RecordSingle]: [data.record] is any other object, taken as one
      license;
    - [NoRecord]: [data] is not an array and has no truthy [record];
    - [Nullish]: [data] is [null], so that [data.record] throws. *)
Inductive binData : Type :=
| RecordArray (ls : list license)
| RecordLicenses (ls : list license)
| RootArray (ls : list license)
| RecordFirstValueArray (ls : list license)
| RecordSingle (l : license)
| NoRecord
| Nullish.

(** The licenses a bin holds. *)
Definition records (db : binData) : list license :=
  match db with
  | RecordArray ls | RecordLicenses ls | RootArray ls | RecordFirstValueArray ls => ls
  | RecordSingle l => [l]
  | NoRecord | Nullish => []
  end.

(** JSON.stringify writes NaN as [null] (and omits absent attributes,
    which stay [VUndef]). *)
Definition json_val (v : jsval) : jsval :=
  match v with VNaN => VNull | _ => v end.

Definition json_license (l : license) : license :=
  {| key := json_val (key l); plan := json_val (plan l);
     activated_on := json_val (activated_on l);
     device_hash := json_val (device_hash l);
     device_name := json_val (device_name l);
     expires_at := json_val (expires_at l);
     duration_days := json_val (duration_days l);
     processed_videos := json_val (processed_videos l);
     processedVideos := json_val (processedVideos l);
     deviceName := json_val (deviceName l) |}.

(** The bin after [PUT /b/<bin>] with body [JSON.stringify({ licenses })] *)
Definition put_licenses (ls : list license) : binData :=
  RecordLicenses (map json_license ls).

(** How a request to the store ends. *)
Inductive netOutcome : Type :=
| NetOk          (** a response with [ok] true *)
| NetNotOk       (** a response with [ok] false *)
| NetRejects.    (** the promise rejects (or the body is not JSON) *)

#[global] Instance netOutcome_eq_dec : EqDecision netOutcome.
Proof. solve_decision. Defined.

Record net : Type := {
  get_outcome : netOutcome;
  put_outcome : netOutcome
}.

(** [process.env] *)
Record env : Type := {
  JSONBIN_API_KEY : jsval;
  JSONBIN_BIN_ID : jsval
}.

End Store.

Export Store.

(** ** Requests and responses *)

Module Http.

Record request : Type := {
  method : string;
  licenseKey : jsval;      (** [req.body.licenseKey] *)
  deviceId : jsval;        (** [req.body.deviceId] *)
  user_agent : jsval       (** [req.headers['user-agent']] *)
}.

(** The [license] object of a successful answer, which is also the
    snapshot the client caches. *)
Record snapshot : Type := {
  s_key : jsval;
  s_plan : jsval;
  expiresAt : jsval;
  activatedAt : jsval;
  s_processed_videos : jsval;
  s_processedVideos : jsval;
  s_device_name : jsval;
  s_deviceName : jsval;
  remainingDays : jsval;
  s_activated_on : jsval
}.

#[global] Instance snapshot_eq_dec : EqDecision snapshot.
Proof. solve_decision. Defined.

Inductive body : Type :=
| BError (error : string)                       (** [{ error }] *)
| BInvalid (error : option string) (message : option string)
                                                (** [{ valid: false, error, message }] *)
| BValid (license : snapshot)                   (** [{ valid: true, license }] *)
| BText (text : string).                        (** a plain-text body *)

(** The attributes [error], [message] and [valid] of an answer *)
Definition body_error (b : body) : jsval :=
  match b with
  | BError e => VStr e
  | BInvalid (Some e) _ => VStr e
  | _ => VUndef
  end.

Definition body_message (b : body) : jsval :=
  match b with
  | BInvalid _ (Some m) => VStr m
  | _ => VUndef
  end.

Definition body_valid (b : body) : jsval :=
  match b with
  | BValid _ => VBool true
  | BInvalid _ _ => VBool false
  | _ => VUndef
  end.

(** The [flowtik_token] cookie: its value is the base64 encoding of
    [token_text]; the (injective) encoding itself is not modelled. *)
Record cookie : Type := {
  token_text : string;
  max_age : Z
}.

Record response : Type := {
  status : Z;
  r_body : body;
  set_cookie : option cookie
}.

(** The readings of the clock during one request, in the order in which
    the handler takes them. *)
Record clock : Type := {
  clk_now : Z;       (** [const now = new Date()] *)
  clk_expiry : Z;    (** [const expiryDate = new Date()] (activation only) *)
  clk_token : Z;     (** [Date.now()] in the token *)
  clk_remaining : Z  (** the [new Date()] inside [remainingDays] (Express) *)
}.

(** Control flow of a handler body inside its [try] block: go on,
    [return] a response (with the bin as it then is), or throw. *)
Inductive flow (A : Type) : Type :=
| Next (a : A)
| Return (r : response * binData)
| Thrown.

Arguments Next {A} a.
Arguments Return {A} r.
Arguments Thrown {A}.

#[global] Instance flow_ret : MRet flow := fun A a => Next a.

#[global] Instance flow_bind : MBind flow := fun A B k m =>
  match m with
  | Next a => k a
  | Return r => Return r
  | Thrown => Thrown
  end.

(** [try { body } catch { return handler }] *)
Definition try_catch (m : flow (response * binData)) (caught : response * binData)
  : response * binData :=
  match m with
  | Next r => r
  | Return r => r
  | Thrown => caught
  end.

(** A value that must be there, or else the access throws. *)
Definition or_throw {A : Type} (o : option A) : flow A :=
  match o with Some a => Next a | None => Thrown end.

(** [if (c) return r;] *)
Definition return_if (c : bool) (r : response * binData) : flow unit :=
  if c then Return r else Next tt.

(** [if (c) throw ...;] *)
Definition throw_if (c : bool) : flow unit :=
  if c then Thrown else Next tt.

End Http.

Export Http.


(** ** License Authority: what the handlers share *)

Module Authority.

Section Keys.
Context {P : Platform}.

(** [const normalize = k => k ? k.trim().toUpperCase() : ''];
    [None] is the TypeError thrown when a truthy [k] is not a string. *)
Definition normalize (k : jsval) : option string :=
  if truthy k then
    match k with
    | VStr s => Some (toUpperCase (trim s))
    | _ => None
    end
  else Some "".

(** The two spellings of the search predicate.  [None] is the TypeError
    of [normalize].
    - [l => normalize(l.key) === inputKey], with [inputKey] normalised
      once before the search;
    - [l => normalize(l.key) === normalize(licenseKey)]. *)
Definition key_is (inputKey : string) (l : license) : option bool :=
  k ← normalize (key l); Some (String.eqb k inputKey).

Definition key_matches (licenseKey : jsval) (l : license) : option bool :=
  k ← normalize (key l); i ← normalize licenseKey; Some (String.eqb k i).

End Keys.

(** [licenses.findIndex(pred)], counting from [i]; the outer [None] is
    an exception thrown by [pred], the inner one the answer -1. *)
Fixpoint findIndex_from (i : nat) (pred : license -> option bool)
    (licenses : list license) : option (option nat) :=
  match licenses with
  | [] => Some None
  | l :: rest =>
      match pred l with
      | None => None
      | Some true => Some (Some i)
      | Some false => findIndex_from (S i) pred rest
      end
  end.

Definition findIndex := findIndex_from 0.

(** [licenses[licenseIndex]], [undefined] at index -1 *)
Definition at_index (licenses : list license) (i : option nat) : option license :=
  match i with
  | Some i => licenses !! i
  | None => None
  end.

(** [licenses.find(pred)] *)
Fixpoint find (pred : license -> option bool) (licenses : list license)
  : option (option license) :=
  match licenses with
  | [] => Some None
  | l :: rest =>
      match pred l with
      | None => None
      | Some true => Some (Some l)
      | Some false => find pred rest
      end
  end.

(** [simplifyUserAgent(ua)] *)
Definition simplifyUserAgent (ua : jsval) : string :=
  let ua := ToString ua in
  if includes ua "iPhone" || includes ua "iPad" || includes ua "iPod" then "Apple Device"
  else if includes ua "Android" then "Android Device"
  else if includes ua "Windows" then "Windows PC"
  else if includes ua "Mac" then "Mac Computer"
  else "Unknown Device".

(** The text [`${license.key}:${deviceId}:${Date.now()}`] *)
Definition token_of (k deviceId : jsval) (t : Z) : string :=
  ToString k ++ ":" ++ ToString deviceId ++ ":" ++ string_of_Z t.

(** [flowtik_token=...; Path=/; HttpOnly; SameSite=Strict; Max-Age=86400] *)
Definition session_cookie (k deviceId : jsval) (t : Z) : cookie :=
  {| token_text := token_of k deviceId t; max_age := 86400 |}.

(** [Math.ceil(x / d)] for a positive [d]: the ceiling of the exact
    quotient, which is what the double-precision division gives for the
    differences of time values met here (below 2^53 in absolute value,
    divided by the milliseconds of a day). *)
Definition ceil_div (x d : Z) : Z := - ((- x) / d).

(** [Math.ceil((expiresAt - now) / (1000 * 60 * 60 * 24))] *)
Definition days_between (expiresAt now : jsnum) : jsnum :=
  match num_sub expiresAt now with
  | Some diff => Some (ceil_div diff (1000 * 60 * 60 * 24))
  | None => None
  end.

Definition json (st : Z) (b : body) : response :=
  {| status := st; r_body := b; set_cookie := None |}.

Section WithPlatform.
Context {P : Platform}.

(** The activation block of [validate-license]:
    [license.activated_on = now.toISOString(); license.device_hash =
    deviceId; ...] and, when [duration_days] is truthy, the expiry
    computed with [setDate].  Throws when the computed date is invalid. *)
Definition activate (c : clock) (deviceId userAgent : jsval) (l : license)
  : flow license :=
  let now := clk_now c in
  let l := set_activated_on (VStr (toISOString now)) l in
  let l := set_device_hash deviceId l in
  let l := set_device_name (VStr (simplifyUserAgent userAgent)) l in
  let l := set_processed_videos (VNum 0) l in
  if truthy (duration_days l) then
    let expiryDate :=
      setDate (clk_expiry c)
              (ToNumber (js_plus (VNum (getDate now)) (duration_days l))) in
    iso ← or_throw (date_toISOString expiryDate);
    Next (set_expires_at (VStr iso) l)
  else Next l.

End WithPlatform.

End Authority.

Export Authority.

(** ** [src/api/validate-license.js], lines 1-189 *)

Module ValidateLicense.
Section WithPlatform.
Context {P : Platform}.

(** The licenses array read from [data], or the 500 answer for an
    unrecognised structure, or the TypeError on [null]. *)
Definition licenses_of (db : binData) : flow (list license) :=
  match db with
  | RecordArray ls => Next ls
  | RecordLicenses ls => Next ls
  | RootArray ls => Next ls
  | RecordFirstValueArray ls => Next ls
  | RecordSingle l => Next [l]
  | NoRecord =>
      Return ({| status := 500;
                 r_body := BInvalid (Some "server_error")
                                    (Some "Invalid data structure in database");
                 set_cookie := None |}, db)
  | Nullish => Thrown
  end.

Definition handler_try (e : env) (n : net) (c : clock) (req : request) (db : binData)
  : flow (response * binData) :=
  let licenseKey := licenseKey req in
  let deviceId := deviceId req in
  let userAgent := js_or (user_agent req) (VStr "Unknown Device") in
  return_if (negb (truthy licenseKey) || negb (truthy deviceId))
    (json 400 (BInvalid (Some "Missing license key or device ID") None), db);;
  return_if (negb (truthy (JSONBIN_API_KEY e)) || negb (truthy (JSONBIN_BIN_ID e)))
    (json 500 (BInvalid (Some "Server configuration error") None), db);;
  throw_if (bool_decide (get_outcome n = NetRejects));;
  throw_if (bool_decide (get_outcome n = NetNotOk));;
  licenses ← licenses_of db;
  inputKey ← or_throw (normalize licenseKey);
  licenseIndex ← or_throw (findIndex (key_is inputKey) licenses);
  match at_index licenses licenseIndex, licenseIndex with
  | Some license, Some i =>
      let now := clk_now c in
      let isActivated := truthy (activated_on license) in
      license ← (if negb isActivated then activate c deviceId userAgent license
                 else Next license);
      return_if (truthy (device_hash license) && strict_ne (device_hash license) deviceId)
        (json 200 (BInvalid (Some "deviceMismatch")
                            (Some "⛔️مفتـاح التفعيل مرتبط بجهاز اخر⛔️")), db);;
      return_if (truthy (expires_at license)
                 && num_lt (newDate (expires_at license)) (Some now))
        (json 200 (BInvalid (Some "expired") (Some "⛔️مفتاح الاشتراك منتهي الصلاحية ⛔️")), db);;
      let license :=
        set_processed_videos
          (js_plus (js_or (processed_videos license) (VNum 0)) (VNum 1)) license in
      let licenses := <[i := license]> licenses in
      throw_if (bool_decide (put_outcome n = NetRejects));;
      throw_if (bool_decide (put_outcome n = NetNotOk));;
      let db := put_licenses licenses in
      Return
        ({| status := 200;
            r_body := BValid
              {| s_key := key license;
                 s_plan := js_or (plan license) (VStr "Premium");
                 expiresAt := expires_at license;
                 activatedAt := activated_on license;
                 s_processed_videos := js_or (processed_videos license) (VNum 0);
                 s_processedVideos := VUndef;
                 s_device_name := js_or (device_name license)
                                        (VStr "Device not specified");
                 s_deviceName := VUndef;
                 remainingDays := VUndef;
                 s_activated_on := VUndef |};
            set_cookie := Some (session_cookie (key license) deviceId (clk_token c)) |},
         db)
  | _, _ =>
      Return (json 200 (BInvalid (Some "invalidLicense") (Some "لايوجد اشتراك")), db)
  end.

(** [export default async function handler(req, res)] *)
Definition handler (e : env) (n : net) (c : clock) (req : request) (db : binData)
  : response * binData :=
  if negb (String.eqb (method req) "POST") then
    (json 405 (BError "Method not allowed"), db)
  else
    try_catch (handler_try e n c req db)
      (json 500 (BInvalid (Some "network") (Some "Network error. Please try again.")), db).

End WithPlatform.
End ValidateLicense.

(** ** [src/api/validate-license.js], lines 203-350: check-session *)

Module CheckSession.
Section WithPlatform.
Context {P : Platform}.

Definition handler_try (e : env) (n : net) (c : clock) (req : request) (db : binData)
  : flow (response * binData) :=
  let licenseKey := licenseKey req in
  let deviceId := deviceId req in
  return_if (negb (truthy licenseKey) || negb (truthy deviceId))
    (json 400 (BInvalid (Some "Missing license key or device ID") None), db);;
  return_if (negb (truthy (JSONBIN_API_KEY e)) || negb (truthy (JSONBIN_BIN_ID e)))
    (json 500 (BInvalid (Some "Server configuration error") None), db);;
  throw_if (bool_decide (get_outcome n = NetRejects));;
  throw_if (bool_decide (get_outcome n = NetNotOk));;
  licenses ← ValidateLicense.licenses_of db;
  inputKey ← or_throw (normalize licenseKey);
  licenseIndex ← or_throw (findIndex (key_is inputKey) licenses);
  match at_index licenses licenseIndex with
  | None =>
      Return (json 200 (BInvalid (Some "deleted") (Some "License has been revoked")), db)
  | Some license =>
      return_if (strict_ne (device_hash license) deviceId)
        (json 200 (BInvalid (Some "deviceMismatch") (Some "Device mismatch")), db);;
      let expiresAt := newDate (expires_at license) in
      let now := Some (clk_now c) in
      return_if (num_lt expiresAt now)
        (json 200 (BInvalid (Some "expired") (Some "Subscription has expired")), db);;
      Return
        ({| status := 200;
            r_body := BValid
              {| s_key := key license;
                 s_plan := js_or (plan license) (VStr "Premium");
                 Http.expiresAt := expires_at license;
                 activatedAt := VUndef;
                 s_processed_videos :=
                   js_or (js_or (processed_videos license) (processedVideos license))
                         (VNum 0);
                 s_processedVideos := VUndef;
                 s_device_name :=
                   js_or (js_or (device_name license) (deviceName license))
                         (VStr "Device not specified");
                 s_deviceName := VUndef;
                 remainingDays := num_val (days_between expiresAt now);
                 s_activated_on := activated_on license |};
            set_cookie := Some (session_cookie (key license) deviceId (clk_token c)) |},
         db)
  end.

(** [export default async function handler(req, res)] *)
Definition handler (e : env) (n : net) (c : clock) (req : request) (db : binData)
  : response * binData :=
  if negb (String.eqb (method req) "POST") then
    (json 405 (BError "Method not allowed"), db)
  else
    try_catch (handler_try e n c req db)
      (json 500 (BInvalid (Some "network") (Some "Network error")), db).

End WithPlatform.
End CheckSession.

(** ** [src/unnamed/part_001], lines 313-517: the Express server *)

Module Express.
Section WithPlatform.
Context {P : Platform}.

(** [async function fetchLicenses()]: an unrecognised structure leaves
    [licenses] empty. *)
Definition fetchLicenses (e : env) (n : net) (db : binData) : flow (list license) :=
  throw_if (negb (truthy (JSONBIN_API_KEY e)) || negb (truthy (JSONBIN_BIN_ID e)));;
  throw_if (bool_decide (get_outcome n = NetRejects));;
  throw_if (bool_decide (get_outcome n = NetNotOk));;
  match db with
  | RecordArray ls => Next ls
  | RecordLicenses ls => Next ls
  | RootArray ls => Next ls
  | RecordFirstValueArray ls => Next ls
  | RecordSingle l => Next [l]
  | NoRecord => Next []
  | Nullish => Thrown
  end.

(** [res.cookie('flowtik_token', token, { httpOnly: true, sameSite:
    'strict', maxAge: 24 * 60 * 60 * 1000 })]: [maxAge] is in
    milliseconds, the cookie's Max-Age in seconds. *)
Definition res_cookie (k deviceId : jsval) (t : Z) : cookie :=
  {| token_text := token_of k deviceId t; max_age := (24 * 60 * 60 * 1000) / 1000 |}.

Definition validate_license_try (e : env) (n : net) (c : clock) (req : request)
    (db : binData) : flow (response * binData) :=
  let licenseKey := licenseKey req in
  let deviceId := deviceId req in
  let userAgent := js_or (user_agent req) (VStr "Server") in
  return_if (negb (truthy licenseKey) || negb (truthy deviceId))
    (json 400 (BInvalid (Some "Missing Data") None), db);;
  licenses ← fetchLicenses e n db;
  index ← or_throw (findIndex (key_matches licenseKey) licenses);
  match index with
  | None =>
      Return (json 200 (BInvalid (Some "invalidLicense") (Some "لايوجد اشتراك")), db)
  | Some i =>
      license ← or_throw (licenses !! i);
      let now := clk_now c in
      license ← (if negb (truthy (activated_on license))
                 then activate c deviceId userAgent license
                 else Next license);
      return_if (truthy (device_hash license) && strict_ne (device_hash license) deviceId)
        (json 200 (BInvalid (Some "deviceMismatch") (Some "⛔️ جهاز مختلف ⛔️")), db);;
      return_if (truthy (expires_at license)
                 && num_lt (newDate (expires_at license)) (Some now))
        (json 200 (BInvalid (Some "expired") (Some "⛔️ انتهى الاشتراك ⛔️")), db);;
      let license :=
        set_processed_videos
          (js_plus (js_or (processed_videos license) (VNum 0)) (VNum 1)) license in
      let licenses := <[i := license]> licenses in
      throw_if (bool_decide (put_outcome n = NetRejects));;
      let db := if bool_decide (put_outcome n = NetOk) then put_licenses licenses else db in
      Return
        ({| status := 200;
            r_body := BValid
              {| s_key := key license;
                 s_plan := plan license;
                 expiresAt := expires_at license;
                 activatedAt := activated_on license;
                 s_processed_videos := processed_videos license;
                 s_processedVideos := VUndef;
                 s_device_name := device_name license;
                 s_deviceName := VUndef;
                 remainingDays := VUndef;
                 s_activated_on := VUndef |};
            set_cookie := Some (res_cookie (key license) deviceId (clk_token c)) |},
         db)
  end.

(** [app.post('/api/validate-license', ...)] *)
Definition validate_license (e : env) (n : net) (c : clock) (req : request)
    (db : binData) : response * binData :=
  try_catch (validate_license_try e n c req db)
    (json 500 (BInvalid (Some "server_error") None), db).

Definition check_session_try (e : env) (n : net) (c : clock) (req : request)
    (db : binData) : flow (response * binData) :=
  let licenseKey := licenseKey req in
  let deviceId := deviceId req in
  return_if (negb (truthy licenseKey) || negb (truthy deviceId))
    (json 400 (BInvalid None None), db);;
  licenses ← fetchLicenses e n db;
  license ← or_throw (find (key_matches licenseKey) licenses);
  match license with
  | None => Return (json 200 (BInvalid (Some "deleted") None), db)
  | Some license =>
      return_if (strict_ne (device_hash license) deviceId)
        (json 200 (BInvalid (Some "deviceMismatch") None), db);;
      return_if (num_lt (newDate (expires_at license)) (Some (clk_now c)))
        (json 200 (BInvalid (Some "expired") None), db);;
      Return
        ({| status := 200;
            r_body := BValid
              {| s_key := key license;
                 s_plan := plan license;
                 expiresAt := expires_at license;
                 activatedAt := VUndef;
                 s_processed_videos := processed_videos license;
                 s_processedVideos := VUndef;
                 s_device_name := device_name license;
                 s_deviceName := VUndef;
                 remainingDays :=
                   num_val (days_between (newDate (expires_at license))
                                         (Some (clk_remaining c)));
                 s_activated_on := activated_on license |};
            set_cookie := Some (res_cookie (key license) deviceId (clk_token c)) |},
         db)
  end.

(** [app.post('/api/check-session', ...)] *)
Definition check_session (e : env) (n : net) (c : clock) (req : request)
    (db : binData) : response * binData :=
  try_catch (check_session_try e n c req db)
    (json 500 (BInvalid (Some "server_error") None), db).

End WithPlatform.
End Express.

(** ** [src/unnamed/part_001], lines 238-311: the Netlify check-session *)

Module Netlify.
Section WithPlatform.
Context {P : Platform}.

Definition licenses_of (db : binData) : flow (list license) :=
  match db with
  | RecordArray ls => Next ls
  | RecordLicenses ls => Next ls
  | RootArray ls => Next ls
  | RecordFirstValueArray ls => Next ls
  | RecordSingle l => Next [l]
  | NoRecord => Next []
  | Nullish => Thrown
  end.

(** The token is encoded by [btoa], which throws on a text with a
    character above U+00FF. *)
Definition handler_try (n : net) (c : clock) (req : request) (db : binData)
  : flow (response * binData) :=
  let licenseKey := licenseKey req in
  let deviceId := deviceId req in
  return_if (negb (truthy licenseKey) || negb (truthy deviceId))
    (json 400 (BInvalid (Some "Missing data") None), db);;
  throw_if (bool_decide (get_outcome n = NetRejects));;
  throw_if (bool_decide (get_outcome n = NetNotOk));;
  licenses ← licenses_of db;
  license ← or_throw (find (key_matches licenseKey) licenses);
  match license with
  | None => Return (json 200 (BInvalid (Some "deleted") None), db)
  | Some license =>
      return_if (strict_ne (device_hash license) deviceId)
        (json 200 (BInvalid (Some "deviceMismatch") None), db);;
      let now := Some (clk_now c) in
      return_if (num_lt (newDate (expires_at license)) now)
        (json 200 (BInvalid (Some "expired") None), db);;
      throw_if (negb (latin1 (token_of (key license) deviceId (clk_token c))));;
      Return
        ({| status := 200;
            r_body := BValid
              {| s_key := key license;
                 s_plan := js_or (plan license) (VStr "Premium");
                 expiresAt := expires_at license;
                 activatedAt := VUndef;
                 s_processed_videos := processed_videos license;
                 s_processedVideos := VUndef;
                 s_device_name := device_name license;
                 s_deviceName := VUndef;
                 remainingDays :=
                   num_val (days_between (newDate (expires_at license)) now);
                 s_activated_on := activated_on license |};
            set_cookie := Some (session_cookie (key license) deviceId (clk_token c)) |},
         db)
  end.

(** [export default async function handler(req)] *)
Definition handler (n : net) (c : clock) (req : request) (db : binData)
  : response * binData :=
  if negb (String.eqb (method req) "POST") then
    ({| status := 405; r_body := BText "Method Not Allowed"; set_cookie := None |}, db)
  else
    try_catch (handler_try n c req db)
      (json 500 (BInvalid (Some "network") None), db).

End WithPlatform.
End Netlify.

(** ** Requests that reach the license logic, and sequences of calls *)

Module Protocol.

(** The request is a POST with both fields, the server has its
    credentials, and the store answers the read. *)
Definition served (e : env) (n : net) (req : request) : Prop :=
  method req = "POST" /\
  truthy (licenseKey req) = true /\
  truthy (deviceId req) = true /\
  truthy (JSONBIN_API_KEY e) = true /\
  truthy (JSONBIN_BIN_ID e) = true /\
  get_outcome n = NetOk.

Section WithPlatform.
Context {P : Platform}.

(** The key of the request selects the record [l], at index [i] of the
    bin: it is the first one whose normalised key is the normalised
    key of the request. *)
Definition selects (req : request) (db : binData) (i : nat) (l : license) : Prop :=
  exists k,
    normalize (licenseKey req) = Some k /\
    findIndex (key_is k) (records db) = Some (Some i) /\
    records db !! i = Some l.

(** What a call may do to the store: leave it untouched, or write the
    licenses written back with one record replaced, whose key is the
    same and which, if it was activated, differs in its counter only. *)
Definition rewrites_one (db db' : binData) : Prop :=
  db' = db \/
  exists i l0 l',
    records db !! i = Some l0 /\
    db' = put_licenses (<[i := l']> (records db)) /\
    key l' = key l0 /\
    (truthy (activated_on l0) = true ->
     exists v, l' = set_processed_videos v l0).

(** The normalised keys of the bin, in order: what the search sees. *)
Definition norm_keys (db : binData) : list (option string) :=
  map (fun l => normalize (key l)) (records db).

(** The record at index [i] is activated and bound to the device [h]. *)
Definition locked (h : jsval) (i : nat) (db : binData) : Prop :=
  exists l,
    records db !! i = Some l /\
    truthy (activated_on l) = true /\
    device_hash l = h.

(** One call to the License Authority, on any of its deployments. *)
Inductive call : Type :=
| CallValidate (e : env) (n : net) (c : clock) (req : request)
| CallCheckSession (e : env) (n : net) (c : clock) (req : request)
| CallExpressValidate (e : env) (n : net) (c : clock) (req : request)
| CallExpressCheckSession (e : env) (n : net) (c : clock) (req : request)
| CallNetlifyCheckSession (n : net) (c : clock) (req : request).

Definition answer_of (op : call) (db : binData) : response * binData :=
  match op with
  | CallValidate e n c req => ValidateLicense.handler e n c req db
  | CallCheckSession e n c req => CheckSession.handler e n c req db
  | CallExpressValidate e n c req => Express.validate_license e n c req db
  | CallExpressCheckSession e n c req => Express.check_session e n c req db
  | CallNetlifyCheckSession n c req => Netlify.handler n c req db
  end.

(** The store after a sequence of calls. *)
Definition run (db : binData) (ops : list call) : binData :=
  foldl (fun db op => snd (answer_of op db)) db ops.

End WithPlatform.

End Protocol.

Export Protocol.

(** ** The gates in front of the engine assets *)

Module Gate.

(** A request for a static asset: the path, the raw [Cookie] header
    ([None] when the request has none), and the value of the
    [flowtik_token] cookie as the framework's cookie parser gives it. *)
Record asset_request : Type := {
  pathname : string;
  cookie_header : option string;
  cookie_token : jsval
}.

Inductive outcome : Type :=
| Forward                         (** the request goes on to the asset *)
| Reject (st : Z) (error : string).

(** [src/middleware.js], lines 5-41.  The body of the inner [if] holds
    nothing but comments, among them the commented-out 403 answer. *)
Definition middleware (request : asset_request) : outcome :=
  let url_pathname := pathname request in
  let _ :=
    if includes url_pathname "ffmpeg-core.wasm"
       || includes url_pathname "ffmpeg-core.worker.js"
    then
      let cookieHeader := default "" (cookie_header request) in
      if negb (includes cookieHeader "flowtik_token=") then tt else tt
    else tt in
  Forward.

(** [src/unnamed/part_003]: the edge function *)
Definition edge (request : asset_request) : outcome :=
  let url_pathname := pathname request in
  if includes url_pathname "ffmpeg-core.wasm"
     || includes url_pathname "ffmpeg-core.worker.js"
  then
    let token := cookie_token request in
    if negb (truthy token) then Reject 403 "Unauthorized" else Forward
  else Forward.

(** [src/unnamed/part_001], lines 330-340: [app.use('/lib', ...)];
    [pathname] is [req.path]. *)
Definition lib_gate (req : asset_request) : outcome :=
  if includes (pathname req) "ffmpeg-core.wasm"
     || includes (pathname req) "ffmpeg-core.worker.js"
  then
    let token := cookie_token req in
    if negb (truthy token) then Reject 403 "Unauthorized access to engine"
    else Forward
  else Forward.

End Gate.

(** ** Client side: configuration and persisted state *)

Module Config.

(** [CONFIG.APP.SESSION_DURATION] *)
Definition SESSION_DURATION : Z := 24 * 60 * 60 * 1000.

(** [CONFIG.STORAGE] *)
Definition LICENSE_KEY : string := "flowmotion_license".
Definition DEVICE_ID : string := "flowmotion_device".
Definition SESSION : string := "flowmotion_session".

End Config.

Module Client.

(** The session object built by [createSession]; [sd_license] is [None]
    when the [license] attribute is not an object. *)
Record sessionData : Type := {
  sd_license : option snapshot;
  sd_deviceId : jsval;
  sd_createdAt : jsval;
  sd_expiresAt : jsval
}.

(** What [JSON.parse] makes of a stored text. *)
Inductive doc : Type :=
| DNull                      (** [null]: reading an attribute throws *)
| DPrimitive                 (** a number, string or boolean *)
| DObject (sd : sessionData).

(** An entry of [localStorage]: a text that is not JSON ([Text], on
    which [JSON.parse] throws), or the JSON text of a document. *)
Inductive item : Type :=
| Text (s : string)
| JsonText (d : doc).

(** An entry is falsy when it is the empty string. *)
Definition item_truthy (i : item) : bool :=
  match i with
  | Text s => negb (String.eqb s "")
  | JsonText _ => true
  end.

(** [localStorage.getItem(k)] as a value: the stored text, [null] when
    there is none.  The text of a JSON entry is not modelled, only that
    it is some non-empty string. *)
Definition item_val (i : option item) : jsval :=
  match i with
  | Some (Text s) => VStr s
  | Some (JsonText _) => VStr "{}"
  | None => VNull
  end.

Definition json_snapshot (s : snapshot) : snapshot :=
  {| s_key := json_val (s_key s);
     s_plan := json_val (s_plan s);
     expiresAt := json_val (expiresAt s);
     activatedAt := json_val (activatedAt s);
     s_processed_videos := json_val (s_processed_videos s);
     s_processedVideos := json_val (s_processedVideos s);
     s_device_name := json_val (s_device_name s);
     s_deviceName := json_val (s_deviceName s);
     remainingDays := json_val (remainingDays s);
     s_activated_on := json_val (s_activated_on s) |}.

(** [JSON.parse(JSON.stringify(session))] *)
Definition json_session (sd : sessionData) : sessionData :=
  {| sd_license := json_snapshot <$> sd_license sd;
     sd_deviceId := json_val (sd_deviceId sd);
     sd_createdAt := json_val (sd_createdAt sd);
     sd_expiresAt := json_val (sd_expiresAt sd) |}.

(** The normalisation of the usage counter found in [checkSession] and
    in [createSession]: whichever of [processed_videos] and
    [processedVideos] is there is copied to the other when that one is
    [undefined]. *)
Definition normalize_counters (l : snapshot) : snapshot :=
  if strict_ne (s_processed_videos l) VUndef && strict_eq (s_processedVideos l) VUndef
  then
    {| s_key := s_key l; s_plan := s_plan l; expiresAt := expiresAt l;
       activatedAt := activatedAt l;
       s_processed_videos := s_processed_videos l;
       s_processedVideos := s_processed_videos l;
       s_device_name := s_device_name l; s_deviceName := s_deviceName l;
       remainingDays := remainingDays l; s_activated_on := s_activated_on l |}
  else if strict_ne (s_processedVideos l) VUndef && strict_eq (s_processed_videos l) VUndef
  then
    {| s_key := s_key l; s_plan := s_plan l; expiresAt := expiresAt l;
       activatedAt := activatedAt l;
       s_processed_videos := s_processedVideos l;
       s_processedVideos := s_processedVideos l;
       s_device_name := s_device_name l; s_deviceName := s_deviceName l;
       remainingDays := remainingDays l; s_activated_on := s_activated_on l |}
  else l.

End Client.

Export Client.

(** ** [src/unnamed/part_000]: the [API] class (session cache) *)

Module API.

Inductive check_result : Type :=
| Invalid (error : string)              (** [{ valid: false, error }] *)
| Valid (session : sessionData).        (** [{ valid: true, session }] *)


(** [destroySession()] *)
Definition destroySession (ls : gmap string item) : gmap string item :=
  delete Config.DEVICE_ID (delete Config.LICENSE_KEY (delete Config.SESSION ls)).

(** [createSession(licenseData, deviceId = null)], with the two readings
    [Date.now()] of the clock.  [licenseData] is [None] when the caller
    passes [null] or [undefined]; the second component is then [None],
    for the TypeError of [licenseData.key], thrown after the session
    entry has been written. *)
Definition createSession (created expires_base : Z)
    (licenseData : option snapshot) (deviceId : jsval) (ls : gmap string item)
  : gmap string item * option sessionData :=
  let ls :=
    if truthy deviceId then <[Config.DEVICE_ID := Text (ToString deviceId)]> ls else ls in
  let licenseData := normalize_counters <$> licenseData in
  let session :=
    {| sd_license := licenseData;
       sd_deviceId := js_or deviceId (item_val (ls !! Config.DEVICE_ID));
       sd_createdAt := VNum created;
       sd_expiresAt := VNum (expires_base + Config.SESSION_DURATION) |} in
  let ls := <[Config.SESSION := JsonText (DObject (json_session session))]> ls in
  match licenseData with
  | None => (ls, None)
  | Some l =>
      (<[Config.LICENSE_KEY := Text (ToString (s_key l))]> ls, Some session)
  end.

Section WithPlatform.
Context {P : Platform}.

(** [async checkSession()], with the readings [Date.now()] and
    [new Date()] of the clock. *)
Definition checkSession (now now' : Z) (ls : gmap string item)
  : gmap string item * check_result :=
  match ls !! Config.SESSION with
  | None => (ls, Invalid "no_session")
  | Some session =>
      if negb (item_truthy session) then (ls, Invalid "no_session")
      else
        match session with
        | Text _ => (destroySession ls, Invalid "invalid_data")
        | JsonText DNull => (destroySession ls, Invalid "invalid_data")
        | JsonText DPrimitive => (destroySession ls, Invalid "invalid_session_structure")
        | JsonText (DObject sessionData) =>
            match sd_license sessionData with
            | None => (destroySession ls, Invalid "invalid_session_structure")
            | Some license =>
                if negb (truthy (expiresAt license)) then
                  (destroySession ls, Invalid "invalid_session_structure")
                else if num_lt (ToNumber (sd_expiresAt sessionData)) (Some now) then
                  (ls, Invalid "session_expired")
                else if num_lt (newDate (expiresAt license)) (Some now') then
                  (ls, Invalid "subscription_expired")
                else
                  (ls, Valid {| sd_license := Some (normalize_counters license);
                                sd_deviceId := sd_deviceId sessionData;
                                sd_createdAt := sd_createdAt sessionData;
                                sd_expiresAt := sd_expiresAt sessionData |})
            end
        end
  end.

(** [getRemainingDays(expiresAt)] *)
Definition getRemainingDays (now : Z) (expiresAt : jsval) : jsval :=
  let expiry := newDate expiresAt in
  let diffTime := num_sub expiry (Some now) in
  let diffDays :=
    match diffTime with
    | Some d => Some (ceil_div d (1000 * 60 * 60 * 24))
    | None => None
    end in
  if num_gt diffDays (Some 0) then num_val diffDays else VNum 0.

(** How a [fetch] of the client ends: rejected, or answered. *)
Inductive fetched : Type :=
| FetchRejects
| Fetched (r : response).

(** [response.ok] *)
Definition ok (r : response) : bool := (200 <=? status r) && (status r <=? 299).

(** [await response.json()]: [None] when the body is not JSON. *)
Definition response_json (r : response) : option body :=
  match r_body r with
  | BText _ => None
  | BValid l => Some (BValid (json_snapshot l))
  | b => Some b
  end.

(** The answers [validateLicense] can give: the parsed body of the
    server, or an object [{ valid: false, error, message }] of its own. *)
Inductive validation : Type :=
| FromServer (b : body)
| Failure (error message : jsval).

(** [async validateLicense(licenseKey, deviceId)], given how the [fetch]
    of [this.apiEndpoint] ends. *)
Definition validateLicense (f : fetched) : validation :=
  match f with
  | FetchRejects => Failure (VStr "network") (VStr "Network error. Please try again.")
  | Fetched response =>
      if negb (ok response) then
        let errorData := response_json response in
        Failure
          (js_or (from_option body_error VUndef errorData) (VStr "api_error"))
          (js_or (from_option body_message VUndef errorData)
                 (VStr ("API Error: " ++ string_of_Z (status response))))
      else
        match response_json response with
        | Some b => FromServer b
        | None => Failure (VStr "network") (VStr "Network error. Please try again.")
        end
  end.

Definition validation_valid (v : validation) : jsval :=
  match v with
  | FromServer b => body_valid b
  | Failure _ _ => VBool false
  end.

Definition validation_error (v : validation) : jsval :=
  match v with
  | FromServer b => body_error b
  | Failure e _ => e
  end.

Definition validation_message (v : validation) : jsval :=
  match v with
  | FromServer b => body_message b
  | Failure _ m => m
  end.

Definition validation_license (v : validation) : option snapshot :=
  match v with
  | FromServer (BValid l) => Some l
  | _ => None
  end.

End WithPlatform.
End API.

(** ** [src/js/fingerprint.js], lines 193-216, and [AuthManager]
       ([src/unnamed/part_001], lines 5-233) *)

Module Auth.

(** [fingerprint.getDeviceId()], where [generated] is what
    [this.generate()] computes for this device. *)
Definition getDeviceId (generated : string) (ls : gmap string item)
  : string * gmap string item :=
  let deviceId := item_val (ls !! Config.DEVICE_ID) in
  if truthy deviceId then
    let newFingerprint := generated in
    if strict_eq deviceId (VStr newFingerprint) then (ToString deviceId, ls)
    else (newFingerprint, <[Config.DEVICE_ID := Text newFingerprint]> ls)
  else
    (generated, <[Config.DEVICE_ID := Text generated]> ls).

Record auth : Type := {
  isAuthenticated : bool;
  currentSession : option sessionData;
  a_deviceId : jsval
}.

(** [key.length] *)
Definition js_length (v : jsval) : jsval :=
  match v with
  | VStr s => VNum (str_length s)
  | _ => VUndef
  end.

(** [validateLicenseFormat(key) { return key && key.length > 0; }] *)
Definition validateLicenseFormat (key : jsval) : jsval :=
  js_and key
    (VBool match js_length key with
           | VNum n => 0 <? n
           | _ => false
           end).

(** [formatLicenseKey(input) { return input.trim().toUpperCase(); }] *)
Definition formatLicenseKey `{P : Platform} (input : string) : string :=
  toUpperCase (trim input).

(** [hasAccess()] *)
Definition hasAccess (a : auth) : bool :=
  isAuthenticated a && bool_decide (currentSession a <> None).

(** [logout()] *)
Definition logout (a : auth) (ls : gmap string item) : auth * gmap string item :=
  ({| isAuthenticated := false; currentSession := None; a_deviceId := VNull |},
   API.destroySession ls).

Inductive login_result : Type :=
| LoginFailure (error : jsval)          (** [{ success: false, error }] *)
| LoginSuccess (session : sessionData). (** [{ success: true, session }] *)

(** What [login] leaves behind: its answer, the manager, the storage and
    the requests it sent to the server. *)
Record login_outcome : Type := {
  answer : login_result;
  manager : auth;
  storage : gmap string item;
  sent : list request
}.

(** [async login(licenseKey)].  [generated] is the fingerprint of the
    device, [ua] the User-Agent of the browser, [server] how the request
    to [/api/validate-license] ends, [created] and [expires_base] the two
    readings of the clock in [createSession]. *)
Definition login (generated : string) (ua : jsval) (server : request -> API.fetched)
    (created expires_base : Z) (licenseKey : jsval)
    (a : auth) (ls : gmap string item) : login_outcome :=
  if negb (truthy (validateLicenseFormat licenseKey)) then
    {| answer := LoginFailure (VStr "Invalid license key format");
       manager := a; storage := ls; sent := [] |}
  else
    let '(deviceId, ls) := getDeviceId generated ls in
    let a := {| isAuthenticated := isAuthenticated a;
                currentSession := currentSession a;
                a_deviceId := VStr deviceId |} in
    let req := {| method := "POST"; licenseKey := licenseKey;
                  deviceId := VStr deviceId; user_agent := ua |} in
    let validation := API.validateLicense (server req) in
    if negb (truthy (API.validation_valid validation)) then
      {| answer := LoginFailure (js_or (API.validation_message validation)
                                       (VStr "Invalid license"));
         manager := a; storage := ls; sent := [req] |}
    else
      match API.createSession created expires_base
              (API.validation_license validation) (VStr deviceId) ls with
      | (ls, Some session) =>
          let session := {| sd_license := sd_license session;
                            sd_deviceId := VStr deviceId;
                            sd_createdAt := sd_createdAt session;
                            sd_expiresAt := sd_expiresAt session |} in
          {| answer := LoginSuccess session;
             manager := {| isAuthenticated := true;
                           currentSession := Some session;
                           a_deviceId := VStr deviceId |};
             storage := ls; sent := [req] |}
      | (ls, None) =>
          {| answer := LoginFailure (VStr "Login failed. Please try again.");
             manager := a; storage := ls; sent := [req] |}
      end.

End Auth.


(** ** A concrete platform

    An instance of [Platform] on which the handlers can be run: dates are
    written as their time value in decimal (instead of the ISO 8601
    text), strings convert to numbers when they are decimal integers,
    local time is UTC, and [trim] and [toUpperCase] know the ASCII
    characters only. *)

Module EpochPlatform.

Definition parse_decimal (s : string) : jsnum :=
  option_map Z.of_int (NilZero.int_of_string s).

#[global] Instance platform : Platform := {|
  Date_parse := parse_decimal;
  toISOString := string_of_Z;
  StringToNumber := parse_decimal;
  LocalTZA := fun _ _ => 0;
  trim := ascii_trim;
  toUpperCase := ascii_toUpperCase;
  trim_ascii := fun _ _ => eq_refl;
  toUpperCase_ascii := fun _ _ => eq_refl
|}.

End EpochPlatform.


(** ** Error codes *)

Module Codes.

(** The error codes as the interface description lists them. *)
Definition documented : list string :=
  ["invalidLicense"; "deviceMismatch"; "expired"; "network"; "server_error";
   "invalid_session_structure"; "no_session"].

(** The values of [error] in the answers of [validate-license] *)
Definition validate_license : list string :=
  ["Method not allowed"; "Missing license key or device ID";
   "Server configuration error"; "server_error"; "invalidLicense";
   "deviceMismatch"; "expired"; "network"].

(** The values of [error] in the answers of [check-session] *)
Definition check_session : list string :=
  ["Method not allowed"; "Missing license key or device ID";
   "Server configuration error"; "server_error"; "deleted";
   "deviceMismatch"; "expired"; "network"].

(** The values of [error] in the results of the client's [checkSession] *)
Definition session_cache : list string :=
  ["no_session"; "invalid_data"; "invalid_session_structure";
   "session_expired"; "subscription_expired"].

(** An answer is a success or carries one of the given codes. *)
Definition fails_with (codes : list string) (r : response) : Prop :=
  body_valid (r_body r) = VBool true \/
  exists code, body_error (r_body r) = VStr code /\ In code codes.

End Codes.

Export Codes.

(** ** Concrete requests and records *)

Module Scenario.

Definition env0 : env :=
  {| JSONBIN_API_KEY := VStr "master-key"; JSONBIN_BIN_ID := VStr "bin-id" |}.

Definition online : net := {| get_outcome := NetOk; put_outcome := NetOk |}.

(** A request handled within the millisecond [t]. *)
Definition at_time (t : Z) : clock :=
  {| clk_now := t; clk_expiry := t; clk_token := t; clk_remaining := t |}.

Definition post (k d : string) : request :=
  {| method := "POST"; licenseKey := VStr k; deviceId := VStr d;
     user_agent := VStr "Mozilla/5.0 (Windows NT 10.0; Win64; x64)" |}.

(** The record [{ key: k }] *)
Definition blank (k : string) : license :=
  {| key := VStr k; plan := VUndef; activated_on := VUndef; device_hash := VUndef;
     device_name := VUndef; expires_at := VUndef; duration_days := VUndef;
     processed_videos := VUndef; processedVideos := VUndef; deviceName := VUndef |}.

(** The record [{ key: k, duration_days: d }] of Scenario A *)
Definition unactivated (k : string) (d : Z) : license :=
  {| key := VStr k; plan := VUndef; activated_on := VUndef; device_hash := VUndef;
     device_name := VUndef; expires_at := VUndef; duration_days := VNum d;
     processed_videos := VUndef; processedVideos := VUndef; deviceName := VUndef |}.

(** An activated record bound to [dev], with the given dates. *)
Definition active (k dev : string) (activated expires : Z) : license :=
  {| key := VStr k; plan := VStr "Premium";
     activated_on := VStr (string_of_Z activated); device_hash := VStr dev;
     device_name := VStr "Windows PC"; expires_at := VStr (string_of_Z expires);
     duration_days := VNum 30;
     processed_videos := VNum 1; processedVideos := VUndef; deviceName := VUndef |}.

(** 14 November 2023, 22:13:20 UTC *)
Definition t0 : Z := 1700000000000.

(** A license activated at [t0] by the device [dev1], valid for 30 days *)
Definition abc1 : license := active "ABC-1" "dev1" t0 (t0 + 30 * msPerDay).

(** A store with an unactivated record and [abc1] *)
Definition two_records : binData := RecordLicenses [blank "XYZ-9"; abc1].

(** One second after the activation *)
Definition soon : clock := at_time (t0 + 1000).

(** A validation by the owner, an activation of the other record, and a
    session check by a stranger *)
Definition some_calls : list call :=
  [CallValidate env0 online soon (post "ABC-1" "dev1");
   CallValidate env0 online soon (post "xyz-9" "dev3");
   CallCheckSession env0 online soon (post "abc-1" "dev2")].

(** A record with a [device_hash] but no [activated_on] *)
Definition prebound : license := set_device_hash (VStr "dev1") (blank "ABC-1").

(** [prebound] with an expiry in 1970 *)
Definition prebound_expired : license := set_expires_at (VStr "86400000") prebound.

(** A request for the engine without any cookie *)
Definition anonymous_wasm : Gate.asset_request :=
  {| Gate.pathname := "/lib/ffmpeg-core.wasm";
     Gate.cookie_header := None;
     Gate.cookie_token := VUndef |}.

(** A manager that is not authenticated *)
Definition signed_out : Auth.auth :=
  {| Auth.isAuthenticated := false; Auth.currentSession := None;
     Auth.a_deviceId := VNull |}.

(** A server that cannot be reached *)
Definition unreachable (req : request) : API.fetched := API.FetchRejects.


(** The license of a record without expiry *)
Definition lifetime_snapshot : snapshot :=
  {| s_key := VStr "ABC-1"; s_plan := VStr "Premium";
     expiresAt := VUndef;
     activatedAt := VStr (string_of_Z t0);
     s_processed_videos := VNum 1; s_processedVideos := VUndef;
     s_device_name := VStr "Windows PC"; s_deviceName := VUndef;
     remainingDays := VUndef; s_activated_on := VUndef |}.

(** [abc1] a day after its expiry *)
Definition late : clock := at_time (t0 + 31 * msPerDay).

(** A request during which the clock passes midnight at the end of
    January 2024: the first reading is 2024-01-31T23:59:59.999Z, the
    later ones are 2024-02-01T00:00:00.000Z *)
Definition month_end : clock :=
  {| clk_now := 1706745599999; clk_expiry := 1706745600000;
     clk_token := 1706745600000; clk_remaining := 1706745600000 |}.

(** An unactivated record bound to [dev1], with an expiry in 1970 and a
    duration of 30 days *)
Definition stale : license :=
  set_expires_at (VStr "86400000")
    (set_device_hash (VStr "dev1") (unactivated "ABC-1" 30)).

End Scenario.

(** ** [src/unnamed/part_000], lines 50-98: strict verification *)

Module Strict.

(** The answers of [verifyActiveSession] *)
Inductive verification : Type :=
| Refused (reason : string) (message : string)
      (** [{ valid: false, reason, message }] *)
| Verified (license : snapshot).
      (** [{ valid: true, license }] *)

Section WithPlatform.
Context {P : Platform}.

(** [async verifyActiveSession(licenseKey, deviceId)], given how the
    [fetch] of [/api/check-session] ends and the reading [new Date()] of
    the clock.  Reading [data.license.expiresAt] throws when the answer
    has no [license]. *)
Definition verifyActiveSession (now : Z) (f : API.fetched) : verification :=
  match f with
  | API.FetchRejects => Refused "NETWORK_ERROR" "فشل الاتصال بالخادم"
  | API.Fetched response =>
      match API.response_json response with
      | None => Refused "NETWORK_ERROR" "فشل الاتصال بالخادم"
      | Some data =>
          if negb (truthy (body_valid data)) then
            Refused "INVALID_SESSION" "جلسة غير صالحة"
          else
            match data with
            | BValid license =>
                let expiry := newDate (expiresAt license) in
                if num_lt expiry (Some now) then Refused "EXPIRED" "الاشتراك منتهي"
                else Verified license
            | _ => Refused "NETWORK_ERROR" "فشل الاتصال بالخادم"
            end
      end
  end.

End WithPlatform.
End Strict.

(** ** [src/unnamed/part_001], lines 13-78 and 140-214: the rest of
       [AuthManager] *)

Module Coordinator.

(** What [verifyBeforeProcessing] resolves to; [Thrown] is the rejection
    of its promise by the TypeError of [this.currentSession.license.key]
    when the session has no license object. *)
Inductive verify_result : Type :=
| NotSignedIn                       (** [{ valid: false, message }] *)
| VerificationFailed (v : Strict.verification)
| Passed                            (** [{ valid: true }] *)
| VerifyThrown.

Record verify_outcome : Type := {
  v_answer : verify_result;
  v_manager : Auth.auth;
  v_storage : gmap string item;
  v_sent : list request
}.

Record init_outcome : Type := {
  i_answer : bool;
  i_manager : Auth.auth;
  i_storage : gmap string item;
  i_sent : list request
}.

(** The object [getSessionInfo] returns *)
Record session_info : Type := {
  info_licenseKey : jsval;
  info_plan : jsval;
  info_expiresAt : jsval;
  info_activatedAt : jsval;
  info_remainingDays : jsval;
  info_processedVideos : jsval;
  info_deviceName : jsval;
  info_deviceId : jsval
}.

(** [this.currentSession] together with its [license] object; [None]
    when there is no session or its [license] is [null] or [undefined],
    in which case reading an attribute of the license throws. *)
Definition currentSession_license (a : Auth.auth) : option (sessionData * snapshot) :=
  match Auth.currentSession a with
  | Some session =>
      match sd_license session with
      | Some license => Some (session, license)
      | None => None
      end
  | None => None
  end.

Section WithPlatform.
Context {P : Platform}.

(** [async verifyBeforeProcessing()].  [ua] is the User-Agent of the
    browser, [server] how the request to [/api/check-session] ends, [now]
    the reading of the clock in [verifyActiveSession], [created] and
    [expires_base] the two readings in [createSession].  The license
    object handed to [createSession] is the one just stored in
    [this.currentSession], so the manager sees its counters normalised. *)
Definition verifyBeforeProcessing (ua : jsval) (server : request -> API.fetched)
    (now created expires_base : Z) (a : Auth.auth) (ls : gmap string item)
  : verify_outcome :=
  if negb (Auth.hasAccess a) then
    {| v_answer := NotSignedIn; v_manager := a; v_storage := ls; v_sent := [] |}
  else
    match currentSession_license a with
    | None =>
        {| v_answer := VerifyThrown; v_manager := a; v_storage := ls; v_sent := [] |}
    | Some (session, license) =>
        let key := s_key license in
        let deviceId := Auth.a_deviceId a in
        let req := {| method := "POST"; licenseKey := key; deviceId := deviceId;
                      user_agent := ua |} in
        match Strict.verifyActiveSession now (server req) with
        | Strict.Refused reason message =>
            {| v_answer := VerificationFailed (Strict.Refused reason message);
               v_manager := a; v_storage := ls; v_sent := [req] |}
        | Strict.Verified fresh =>
            let '(ls, _) :=
              API.createSession created expires_base (Some fresh) deviceId ls in
            {| v_answer := Passed;
               v_manager :=
                 {| Auth.isAuthenticated := Auth.isAuthenticated a;
                    Auth.currentSession :=
                      Some {| sd_license := Some (normalize_counters fresh);
                              sd_deviceId := sd_deviceId session;
                              sd_createdAt := sd_createdAt session;
                              sd_expiresAt := sd_expiresAt session |};
                    Auth.a_deviceId := deviceId |};
               v_storage := ls; v_sent := [req] |}
        end
    end.

(** [async init()].  [generated] is the fingerprint of the device,
    [now] and [now'] the two readings of the clock in [checkSession].
    [getDeviceId] and [checkSession] do not throw, so the outer [catch]
    is never entered. *)
Definition init (generated : string) (ua : jsval) (server : request -> API.fetched)
    (now now' : Z) (a : Auth.auth) (ls : gmap string item) : init_outcome :=
  let '(deviceId, ls) := Auth.getDeviceId generated ls in
  let a := {| Auth.isAuthenticated := Auth.isAuthenticated a;
              Auth.currentSession := Auth.currentSession a;
              Auth.a_deviceId := VStr deviceId |} in
  match API.checkSession now now' ls with
  | (ls, API.Valid session) =>
      match sd_license session with
      | None => {| i_answer := false; i_manager := a; i_storage := ls; i_sent := [] |}
      | Some license =>
          let req := {| method := "POST"; licenseKey := s_key license;
                        deviceId := VStr deviceId; user_agent := ua |} in
          match server req with
          | API.FetchRejects =>
              {| i_answer := false; i_manager := a; i_storage := ls; i_sent := [req] |}
          | API.Fetched response =>
              match API.response_json response with
              | None =>
                  {| i_answer := false; i_manager := a; i_storage := ls;
                     i_sent := [req] |}
              | Some serverData =>
                  if negb (truthy (body_valid serverData)) then
                    let '(a, ls) := Auth.logout a ls in
                    {| i_answer := false; i_manager := a; i_storage := ls;
                       i_sent := [req] |}
                  else
                    {| i_answer := true;
                       i_manager :=
                         {| Auth.isAuthenticated := true;
                            Auth.currentSession := Some session;
                            Auth.a_deviceId :=
                              if truthy (sd_deviceId session) then sd_deviceId session
                              else VStr deviceId |};
                       i_storage := ls; i_sent := [req] |}
              end
          end
      end
  | (ls, API.Invalid _) =>
      {| i_answer := false;
         i_manager := {| Auth.isAuthenticated := false; Auth.currentSession := None;
                         Auth.a_deviceId := VStr deviceId |};
         i_storage := ls; i_sent := [] |}
  end.

(** [getSessionInfo()], with the reading of the clock in
    [getRemainingDays]: [Some None] is the answer [null], the outer
    [None] the TypeError on a session without license object. *)
Definition getSessionInfo (now : Z) (a : Auth.auth) : option (option session_info) :=
  match Auth.currentSession a with
  | None => Some None
  | Some session =>
      match sd_license session with
      | None => None
      | Some license =>
          let processedVideos :=
            js_or (js_or (s_processedVideos license) (s_processed_videos license))
                  (VNum 0) in
          let deviceName :=
            js_or (js_or (s_device_name license) (s_deviceName license))
                  (VStr "Device not specified") in
          Some (Some
            {| info_licenseKey := s_key license;
               info_plan := s_plan license;
               info_expiresAt := expiresAt license;
               info_activatedAt := activatedAt license;
               info_remainingDays := API.getRemainingDays now (expiresAt license);
               info_processedVideos := processedVideos;
               info_deviceName := deviceName;
               info_deviceId := Auth.a_deviceId a |})
      end
  end.

End WithPlatform.
End Coordinator.

(** ** [src/js/fingerprint.js], lines 232-249: reading the User-Agent *)

Module Fingerprint.

(** [detectBrowser(userAgent)] *)
Definition detectBrowser (userAgent : string) : string :=
  if includes userAgent "Firefox" then "Firefox"
  else if includes userAgent "Chrome" then "Chrome"
  else if includes userAgent "Safari" && negb (includes userAgent "Chrome") then "Safari"
  else if includes userAgent "Edge" then "Edge"
  else if includes userAgent "Opera" then "Opera"
  else "Unknown".

(** [detectOS(userAgent)] *)
Definition detectOS (userAgent : string) : string :=
  if includes userAgent "Windows" then "Windows"
  else if includes userAgent "Mac" then "macOS"
  else if includes userAgent "Linux" then "Linux"
  else if includes userAgent "Android" then "Android"
  else if includes userAgent "iPhone" || includes userAgent "iPad"
          || includes userAgent "iPod" then "iOS"
  else "Unknown".

End Fingerprint.

(** ** [src/middleware.js], lines 192-227: local storage with expiry *)

Module Utils.

(** The object [{ value, expiry }] kept under a key *)
Record boxed : Type := {
  b_value : jsval;
  b_expiry : jsval
}.

(** What [JSON.parse] makes of a stored text: [null], on which reading
    an attribute throws; a number, string or boolean, whose attributes
    are [undefined]; or an object with its [value] and [expiry]. *)
Inductive parsed : Type :=
| PNull
| PPrimitive
| PItem (b : boxed).

(** An entry of [localStorage]: a text that is not JSON, or the JSON
    text of a document. *)
Inductive entry : Type :=
| Raw (s : string)
| Json (p : parsed).

Definition entry_truthy (e : entry) : bool :=
  match e with
  | Raw s => negb (String.eqb s "")
  | Json _ => true
  end.

(** [storage.remove(key)] *)
Definition remove (key : string) (ls : gmap string entry) : gmap string entry :=
  delete key ls.

(** [storage.clear()] *)
Definition clear (ls : gmap string entry) : gmap string entry := ∅.

Section WithPlatform.
Context {P : Platform}.

(** [storage.set(key, value, expiryMs = null)], with the reading
    [Date.now()] of the clock; the item goes through [JSON.stringify]. *)
Definition set (now : Z) (key : string) (value expiryMs : jsval)
    (ls : gmap string entry) : gmap string entry :=
  let item :=
    {| b_value := value;
       b_expiry := if truthy expiryMs then js_plus (VNum now) expiryMs else VNull |} in
  <[key := Json (PItem {| b_value := json_val (b_value item);
                          b_expiry := json_val (b_expiry item) |})]> ls.

(** [storage.get(key)], with the reading [Date.now()] of the clock: the
    value and the storage it leaves. *)
Definition get (now : Z) (key : string) (ls : gmap string entry)
  : jsval * gmap string entry :=
  match ls !! key with
  | None => (VNull, ls)
  | Some itemStr =>
      if negb (entry_truthy itemStr) then (VNull, ls)
      else
        match itemStr with
        | Raw _ => (VNull, ls)
        | Json PNull => (VNull, ls)
        | Json PPrimitive => (VUndef, ls)
        | Json (PItem item) =>
            if truthy (b_expiry item) && num_gt (Some now) (ToNumber (b_expiry item))
            then (VNull, delete key ls)
            else (b_value item, ls)
        end
  end.

End WithPlatform.
End Utils.

(** ** More concrete cases *)

Module Cases.

(** A store that answers reads but refuses writes with an error status *)
Definition read_only : net := {| get_outcome := NetOk; put_outcome := NetNotOk |}.

(** The store of Scenario A *)
Definition fresh_store : binData := RecordLicenses [Scenario.unactivated "ABC-1" 30].

(** A session check by the owner and a validation by a stranger *)
Definition later_calls : list call :=
  [CallCheckSession Scenario.env0 Scenario.online Scenario.soon
     (Scenario.post "ABC-1" "dev1");
   CallExpressValidate Scenario.env0 Scenario.online Scenario.soon
     (Scenario.post "abc-1" "dev2")].

(** A store whose first record has no key, followed by [abc1] *)
Definition keyless_store : binData :=
  RecordLicenses
    [{| key := VUndef; plan := VStr "Premium"; activated_on := VUndef;
        device_hash := VUndef; device_name := VUndef; expires_at := VUndef;
        duration_days := VUndef; processed_videos := VUndef;
        processedVideos := VUndef; deviceName := VUndef |};
     Scenario.abc1].

(** [abc1] with [expires_at: null] *)
Definition abc1_forever : license := set_expires_at VNull Scenario.abc1.

(** A storage whose session entry is not JSON, beside a language entry *)
Definition corrupted : gmap string item :=
  <[Config.SESSION := Text "{not json"]>
    (<[Config.LICENSE_KEY := Text "ABC-1"]> (<["flowmotion_lang" := Text "ar"]> ∅)).

(** A server that answers every request with the given response *)
Definition answering (r : response) (req : request) : API.fetched := API.Fetched r.

(** The answer of [validate-license] for a license without expiry *)
Definition lifetime_answer : response :=
  {| status := 200; r_body := BValid Scenario.lifetime_snapshot;
     set_cookie := Some (session_cookie (VStr "ABC-1") (VStr "f00d") Scenario.t0) |}.

(** A device id with Greek letters, which are above U+00FF, and the
    record [abc1] bound to that device *)
Definition device_in_greek : string := "συσκευή-1".

Definition abc1_in_greek : license :=
  Scenario.active "ABC-1" device_in_greek Scenario.t0
    (Scenario.t0 + 30 * msPerDay).

Definition greek_store : binData := RecordLicenses [abc1_in_greek].

(** A runtime whose [Netlify.env] holds neither credential *)
Definition no_env : env := {| JSONBIN_API_KEY := VUndef; JSONBIN_BIN_ID := VUndef |}.

(** The serverless [validate-license] handler behind the network, on a
    given store and clock *)
Definition live_validate `{P : Platform} (c : clock) (db : binData) (req : request)
  : API.fetched :=
  API.Fetched (fst (ValidateLicense.handler Scenario.env0 Scenario.online c req db)).

(** The serverless [check-session] handler behind the network *)
Definition live_check `{P : Platform} (c : clock) (db : binData) (req : request)
  : API.fetched :=
  API.Fetched (fst (CheckSession.handler Scenario.env0 Scenario.online c req db)).

End Cases.

(** ** Notions used in the statements *)

Module Notions.

(** The answer sets the session cookie exactly when it is a success,
    and then with a Max-Age of 24 hours. *)
Definition cookie_on_success (r : response) : Prop :=
  (is_Some (set_cookie r) <-> body_valid (r_body r) = VBool true) /\
  (forall ck, set_cookie r = Some ck -> max_age ck = 86400).

(** [(license.processed_videos || 0) + 1] on numbers *)
Definition counted `{P : Platform} (l : license) : jsval :=
  js_plus (js_or (processed_videos l) (VNum 0)) (VNum 1).

(** What a call may do to the store, with the new counter made explicit:
    leave it untouched, or write the licenses back with one record
    replaced, whose key is the same and which, if it was activated, is the
    old record with its counter incremented. *)
Definition counts_one `{P : Platform} (db db' : binData) : Prop :=
  db' = db \/
  exists i l0 l',
    records db !! i = Some l0 /\
    db' = put_licenses (<[i := l']> (records db)) /\
    key l' = key l0 /\
    (truthy (activated_on l0) = true ->
     l' = set_processed_videos (counted l0) l0).

End Notions.

Export Notions.

(** ** [src/scripts/copy-ffmpeg.js], lines 38-165: the Netlify validate-license *)

Module NetlifyValidate.

(** [Netlify.env.get(name) || process.env[name]] for the two names *)
Definition credentials (netlify_env process_env : env) : env :=
  {| JSONBIN_API_KEY :=
       js_or (JSONBIN_API_KEY netlify_env) (JSONBIN_API_KEY process_env);
     JSONBIN_BIN_ID :=
       js_or (JSONBIN_BIN_ID netlify_env) (JSONBIN_BIN_ID process_env) |}.

Section WithPlatform.
Context {P : Platform}.

(** The token is encoded by [btoa] after the write: where [btoa] throws
    (a character above U+00FF in the key or the device id), the [catch]
    block answers, the store being as the write left it. *)
Definition handler_try (netlify_env process_env : env) (n : net) (c : clock)
    (req : request) (db : binData) : flow (response * binData) :=
  let licenseKey := licenseKey req in
  let deviceId := deviceId req in
  let userAgent := js_or (user_agent req) (VStr "Unknown Device") in
  return_if (negb (truthy licenseKey) || negb (truthy deviceId))
    (json 400 (BInvalid (Some "Missing license key or device ID") None), db);;
  let API_KEY := JSONBIN_API_KEY (credentials netlify_env process_env) in
  let BIN_ID := JSONBIN_BIN_ID (credentials netlify_env process_env) in
  return_if (negb (truthy API_KEY) || negb (truthy BIN_ID))
    (json 500 (BInvalid (Some "Server configuration error") None), db);;
  throw_if (bool_decide (get_outcome n = NetRejects));;
  throw_if (bool_decide (get_outcome n = NetNotOk));;
  licenses ← Netlify.licenses_of db;
  inputKey ← or_throw (normalize licenseKey);
  licenseIndex ← or_throw (findIndex (key_is inputKey) licenses);
  match at_index licenses licenseIndex, licenseIndex with
  | Some license, Some i =>
      let now := clk_now c in
      license ← (if negb (truthy (activated_on license))
                 then activate c deviceId userAgent license
                 else Next license);
      return_if (truthy (device_hash license) && strict_ne (device_hash license) deviceId)
        (json 200 (BInvalid (Some "deviceMismatch")
                            (Some "⛔️مفتـاح التفعيل مرتبط بجهاز اخر⛔️")), db);;
      return_if (truthy (expires_at license)
                 && num_lt (newDate (expires_at license)) (Some now))
        (json 200 (BInvalid (Some "expired") (Some "⛔️مفتاح الاشتراك منتهي الصلاحية ⛔️")), db);;
      let license :=
        set_processed_videos
          (js_plus (js_or (processed_videos license) (VNum 0)) (VNum 1)) license in
      let licenses := <[i := license]> licenses in
      throw_if (bool_decide (put_outcome n = NetRejects));;
      let db := if bool_decide (put_outcome n = NetOk) then put_licenses licenses else db in
      return_if (negb (latin1 (token_of (key license) deviceId (clk_token c))))
        (json 500 (BInvalid (Some "network") None), db);;
      Return
        ({| status := 200;
            r_body := BValid
              {| s_key := key license;
                 s_plan := js_or (plan license) (VStr "Premium");
                 expiresAt := expires_at license;
                 activatedAt := activated_on license;
                 s_processed_videos := processed_videos license;
                 s_processedVideos := VUndef;
                 s_device_name := device_name license;
                 s_deviceName := VUndef;
                 remainingDays := VUndef;
                 s_activated_on := VUndef |};
            set_cookie := Some (session_cookie (key license) deviceId (clk_token c)) |},
         db)
  | _, _ =>
      Return (json 200 (BInvalid (Some "invalidLicense") (Some "لايوجد اشتراك")), db)
  end.

(** [export default async function handler(req, context)] *)
Definition handler (netlify_env process_env : env) (n : net) (c : clock)
    (req : request) (db : binData) : response * binData :=
  if negb (String.eqb (method req) "POST") then
    ({| status := 405; r_body := BText "Method Not Allowed"; set_cookie := None |}, db)
  else
    try_catch (handler_try netlify_env process_env n c req db)
      (json 500 (BInvalid (Some "network") None), db).

End WithPlatform.
End NetlifyValidate.

(** ** Calls to any handler of the repository *)

Module Deployments.

(** One call to the License Authority: one of the five handlers of
    [Protocol.call], or the Netlify [validate-license]. *)
Inductive any_call : Type :=
| Ported (op : call)
| CallNetlifyValidate (netlify_env process_env : env) (n : net) (c : clock)
    (req : request).

Section WithPlatform.
Context {P : Platform}.

Definition any_answer (op : any_call) (db : binData) : response * binData :=
  match op with
  | Ported op => answer_of op db
  | CallNetlifyValidate netlify_env process_env n c req =>
      NetlifyValidate.handler netlify_env process_env n c req db
  end.

(** The store after a sequence of calls. *)
Definition run_all (db : binData) (ops : list any_call) : binData :=
  foldl (fun db op => snd (any_answer op db)) db ops.

End WithPlatform.

(** Calls on every deployment: the owner validates on Netlify, a
    stranger tries Netlify and Express, the owner checks the session *)
Definition calls_everywhere : list any_call :=
  [CallNetlifyValidate Cases.no_env Scenario.env0 Scenario.online Scenario.soon
     (Scenario.post "ABC-1" "dev1");
   CallNetlifyValidate Cases.no_env Scenario.env0 Cases.read_only Scenario.soon
     (Scenario.post "abc-1" "dev3");
   Ported (CallExpressValidate Scenario.env0 Scenario.online Scenario.soon
     (Scenario.post "abc-1" "dev3"));
   Ported (CallNetlifyCheckSession Scenario.online Scenario.soon
     (Scenario.post "abc-1" "dev1"))].

End Deployments.

(** ** [src/middleware.js], lines 65-74: the remaining time in words *)

Module Format.

(** [formatTimeRemaining(days)] for an integral number of days;
    [Math.floor] of the quotient of two such numbers is the integer
    quotient. *)
Definition formatTimeRemaining (days : Z) : string :=
  if days =? 0 then "Expires today"
  else if days =? 1 then "1 day remaining"
  else if days <? 30 then string_of_Z days ++ " days remaining"
  else if days <? 365 then
    let months := days / 30 in
    string_of_Z months ++ " " ++ (if months =? 1 then "month" else "months")
      ++ " remaining"
  else
    let years := days / 365 in
    string_of_Z years ++ " " ++ (if years =? 1 then "year" else "years")
      ++ " remaining".

End Format.

(** * Properties *)

(** ** Values *)

Lemma truthy_json_val v : truthy (json_val v) = truthy v.
Proof. by destruct v. Qed.

Lemma json_val_truthy v : truthy v = true -> json_val v = v.
Proof. by destruct v. Qed.

Lemma strict_eq_true a b : strict_eq a b = true -> a = b.
Proof.
  destruct a, b; simpl; try done.
  - intros H. f_equal. by apply Bool.eqb_prop.
  - intros H. f_equal. by apply Z.eqb_eq.
  - intros H. f_equal. by apply String.eqb_eq.
Qed.

Lemma strict_ne_falsy_truthy a b :
  truthy a = false -> truthy b = true -> strict_ne a b = true.
Proof.
  intros Ha Hb. unfold strict_ne.
  destruct (strict_eq a b) eqn:E; [|done].
  apply strict_eq_true in E. congruence.
Qed.

Lemma strict_eq_refl_truthy v : truthy v = true -> strict_eq v v = true.
Proof.
  destruct v; simpl; try done; intros _.
  - by destruct b.
  - apply Z.eqb_refl.
  - apply String.eqb_refl.
Qed.

Lemma normalize_json_val `{P : Platform} v : normalize (json_val v) = normalize v.
Proof. by destruct v. Qed.

(** ** Searching the licenses *)

Lemma findIndex_from_ext i (p q : license -> option bool) ls ls' :
  map p ls = map q ls' ->
  findIndex_from i p ls = findIndex_from i q ls'.
Proof.
  revert i ls'. induction ls as [|l ls IH]; intros i [|l' ls'] H; simpl in *; try done.
  injection H as H1 H2. rewrite H1.
  destruct (q l') as [[|]|]; auto.
Qed.

Lemma key_matches_key_is `{P : Platform} licenseKey k l :
  normalize licenseKey = Some k -> key_matches licenseKey l = key_is k l.
Proof.
  intros H. unfold key_matches, key_is. rewrite H.
  by destruct (normalize (key l)).
Qed.

Lemma findIndex_key_matches `{P : Platform} licenseKey k ls :
  normalize licenseKey = Some k ->
  findIndex (key_matches licenseKey) ls = findIndex (key_is k) ls.
Proof.
  intros H. apply findIndex_from_ext. apply map_ext. intros l.
  by apply key_matches_key_is.
Qed.

Lemma find_findIndex_from p ls i :
  find p ls =
  match findIndex_from i p ls with
  | Some (Some j) => Some (ls !! (j - i)%nat)
  | Some None => Some None
  | None => None
  end.
Proof.
  revert i. induction ls as [|l ls IH]; intros i; simpl; [done|].
  destruct (p l) as [[|]|]; [|  |done].
  - by rewrite Nat.sub_diag.
  - rewrite (IH (S i)).
    assert (Hge : forall j, findIndex_from (S i) p ls = Some (Some j) -> (S i <= j)%nat).
    { clear. generalize (S i). induction ls as [|l ls IH]; intros m j; simpl; [done|].
      destruct (p l) as [[|]|]; try done.
      - intros [= ->]. lia.
      - intros H. apply IH in H. lia. }
    destruct (findIndex_from (S i) p ls) as [[j|]|] eqn:E; try done.
    specialize (Hge j eq_refl).
    replace (j - i)%nat with (S (j - S i)) by lia. done.
Qed.

Lemma find_findIndex p ls i l :
  findIndex p ls = Some (Some i) -> ls !! i = Some l -> find p ls = Some (Some l).
Proof.
  intros H Hl. rewrite (find_findIndex_from p ls 0). unfold findIndex in H.
  rewrite H, Nat.sub_0_r. by rewrite Hl.
Qed.

Lemma find_absent p ls :
  findIndex p ls = Some None -> find p ls = Some None.
Proof.
  intros H. rewrite (find_findIndex_from p ls 0). unfold findIndex in H. by rewrite H.
Qed.

(** ** What a call does to the store *)

(** Case analysis on the condition at the head of a handler body *)
Ltac case_if :=
  match goal with
  | |- context [try_catch (mbind _ (if ?b then _ else _)) _] => destruct b eqn:?
  | |- context [try_catch (if ?b then _ else _) _] => destruct b eqn:?
  end.

Section Handlers.
Context {P : Platform}.

Lemma selects_licenses_of req db i l :
  selects req db i l -> ValidateLicense.licenses_of db = Next (records db).
Proof. intros (k & _ & _ & Hl). by destruct db. Qed.

Lemma selects_fetchLicenses e n req db i l :
  served e n req -> selects req db i l ->
  Express.fetchLicenses e n db = Next (records db).
Proof.
  intros (_ & _ & _ & He1 & He2 & Hg) (k & _ & _ & Hl).
  unfold Express.fetchLicenses. rewrite He1, He2, Hg. by destruct db.
Qed.

Lemma selects_netlify_licenses_of req db i l :
  selects req db i l -> Netlify.licenses_of db = Next (records db).
Proof. intros (k & _ & _ & Hl). by destruct db. Qed.

Lemma activate_key c d ua l l' :
  activate c d ua l = Next l' -> key l' = key l.
Proof.
  unfold activate. simpl.
  destruct (truthy (duration_days l)); simpl.
  - destruct (date_toISOString _); simpl; [|done]. by intros [= <-].
  - by intros [= <-].
Qed.

Lemma activate_fields c d ua l l' :
  activate c d ua l = Next l' ->
  key l' = key l /\
  activated_on l' = VStr (toISOString (clk_now c)) /\
  device_hash l' = d /\
  device_name l' = VStr (simplifyUserAgent ua) /\
  processed_videos l' = VNum 0.
Proof.
  unfold activate. simpl.
  destruct (truthy (duration_days l)); simpl.
  - destruct (date_toISOString _); simpl; [|done]. by intros [= <-].
  - by intros [= <-].
Qed.

Lemma activate_not_return c d ua l r : activate c d ua l <> Return r.
Proof.
  unfold activate. simpl.
  destruct (truthy (duration_days l)); simpl; [|done].
  by destruct (date_toISOString _).
Qed.


Lemma validate_rewrites_one e n c req db :
  rewrites_one db (snd (ValidateLicense.handler e n c req db)).
Proof.
  unfold ValidateLicense.handler, ValidateLicense.handler_try.
  destruct (negb (method req =? "POST")%string); [by left|].
  unfold return_if, throw_if.
  case_if; simpl; [by left|].
  case_if; simpl; [by left|].
  case_if; simpl; [by left|].
  case_if; simpl; [by left|].
  destruct (ValidateLicense.licenses_of db) as [ls| |] eqn:Hls; simpl;
    [| destruct db; simpl in Hls; try done; injection Hls as <-; by left | by left].
  assert (Hrec : ls = records db) by (destruct db; simpl in Hls; by simplify_eq).
  destruct (normalize (licenseKey req)) as [k|]; simpl; [|by left].
  destruct (findIndex (key_is k) ls) as [[i|]|]; simpl; [| by left | by left].
  destruct (ls !! i) as [l0|] eqn:Hl0; simpl; [|by left].
  destruct (truthy (activated_on l0)) eqn:Ha; simpl.
  - case_if; simpl; [by left|].
    case_if; simpl; [by left|].
    case_if; simpl; [by left|].
    case_if; simpl; [by left|].
    right. exists i, l0. eexists. subst ls. repeat split; eauto.
  - destruct (activate c (deviceId req) _ l0) as [l1|r|] eqn:Hact; simpl;
      [| by apply activate_not_return in Hact | by left].
    case_if; simpl; [by left|].
    case_if; simpl; [by left|].
    case_if; simpl; [by left|].
    case_if; simpl; [by left|].
    right. exists i, l0. eexists. subst ls. repeat split; eauto.
    + simpl. by eapply activate_key.
    + congruence.
Qed.

Lemma fetchLicenses_cases e n db :
  Express.fetchLicenses e n db = Next (records db) \/
  Express.fetchLicenses e n db = Thrown.
Proof.
  unfold Express.fetchLicenses, throw_if.
  destruct (negb (truthy (JSONBIN_API_KEY e)) || negb (truthy (JSONBIN_BIN_ID e)));
    simpl; [by right|].
  destruct (bool_decide (get_outcome n = NetRejects)); simpl; [by right|].
  destruct (bool_decide (get_outcome n = NetNotOk)); simpl; [by right|].
  destruct db; simpl; auto.
Qed.

Lemma express_validate_rewrites_one e n c req db :
  rewrites_one db (snd (Express.validate_license e n c req db)).
Proof.
  unfold Express.validate_license, Express.validate_license_try.
  unfold return_if, throw_if.
  case_if; simpl; [by left|].
  destruct (fetchLicenses_cases e n db) as [-> | ->]; simpl; [|by left].
  set (ls := records db).
  destruct (findIndex (key_matches (licenseKey req)) ls) as [[i|]|]; simpl;
    [| by left | by left].
  destruct (ls !! i) as [l0|] eqn:Hl0; simpl; [|by left].
  destruct (truthy (activated_on l0)) eqn:Ha; simpl.
  - case_if; simpl; [by left|].
    case_if; simpl; [by left|].
    case_if; simpl; [by left|].
    destruct (bool_decide (put_outcome n = NetOk)); [|by left].
    right. exists i, l0. eexists. subst ls. repeat split; eauto.
  - destruct (activate c (deviceId req) _ l0) as [l1|r|] eqn:Hact; simpl;
      [| by apply activate_not_return in Hact | by left].
    case_if; simpl; [by left|].
    case_if; simpl; [by left|].
    case_if; simpl; [by left|].
    destruct (bool_decide (put_outcome n = NetOk)); [|by left].
    right. exists i, l0. eexists. repeat split; eauto.
    + simpl. by eapply activate_key.
    + congruence.
Qed.

Lemma check_session_store e n c req db :
  snd (CheckSession.handler e n c req db) = db.
Proof.
  unfold CheckSession.handler, CheckSession.handler_try.
  destruct (negb (method req =? "POST")%string); [done|].
  unfold return_if, throw_if.
  repeat (case_if; simpl; [done|]).
  destruct (ValidateLicense.licenses_of db) as [ls|r|] eqn:Hls; simpl;
    [| destruct db; simpl in Hls; by simplify_eq | done].
  destruct (normalize (licenseKey req)) as [k|]; simpl; [|done].
  destruct (findIndex (key_is k) ls) as [i|]; simpl; [|done].
  destruct (at_index ls i) as [l|]; simpl; [|done].
  repeat (case_if; simpl; [done|]). done.
Qed.

Lemma express_check_session_store e n c req db :
  snd (Express.check_session e n c req db) = db.
Proof.
  unfold Express.check_session, Express.check_session_try.
  unfold return_if, throw_if.
  case_if; simpl; [done|].
  destruct (fetchLicenses_cases e n db) as [-> | ->]; simpl; [|done].
  destruct (find (key_matches (licenseKey req)) (records db)) as [[l|]|]; simpl; [| done | done].
  repeat (case_if; simpl; [done|]). done.
Qed.

Lemma netlify_check_session_store n c req db :
  snd (Netlify.handler n c req db) = db.
Proof.
  unfold Netlify.handler, Netlify.handler_try.
  destruct (negb (method req =? "POST")%string); [done|].
  unfold return_if, throw_if.
  repeat (case_if; simpl; [done|]).
  destruct (Netlify.licenses_of db) as [ls|r|] eqn:Hls; simpl;
    [| by destruct db | done].
  destruct (find (key_matches (licenseKey req)) ls) as [[l|]|]; simpl; [| done | done].
  repeat (case_if; simpl; [done|]). done.
Qed.

Lemma answer_rewrites_one op db : rewrites_one db (snd (answer_of op db)).
Proof.
  destruct op; simpl.
  - apply validate_rewrites_one.
  - left. apply check_session_store.
  - apply express_validate_rewrites_one.
  - left. apply express_check_session_store.
  - left. apply netlify_check_session_store.
Qed.
End Handlers.

(** ** Invariants of the store under any sequence of calls *)

Section Invariants.
Context {P : Platform}.

Lemma rewrites_one_norm_keys db db' :
  rewrites_one db db' -> norm_keys db' = norm_keys db.
Proof.
  intros [-> | (i & l0 & l' & Hl0 & -> & Hk & _)]; [done|].
  unfold norm_keys. simpl. rewrite map_map.
  erewrite (map_ext _ (fun l => normalize (key l)));
    [| intros l; simpl; apply normalize_json_val].
  change (map ?f ?l) with (f <$> l).
  rewrite list_fmap_insert, Hk. apply list_insert_id.
  by rewrite list_lookup_fmap, Hl0.
Qed.

Lemma rewrites_one_locked h i db db' :
  truthy h = true -> rewrites_one db db' -> locked h i db -> locked h i db'.
Proof.
  intros Hh [-> | (j & l0 & l' & Hl0 & -> & Hk & Hact)] (l & Hl & Ha & Hd); [by exists l|].
  unfold locked. simpl.
  change (map ?f ?l) with (f <$> l). rewrite list_lookup_fmap.
  destruct (decide (j = i)) as [-> | Hne].
  - rewrite list_lookup_insert_eq by (by eapply lookup_lt_Some).
    assert (l0 = l) as -> by congruence.
    destruct (Hact Ha) as (v & ->). eexists. split; [done|]. simpl.
    rewrite truthy_json_val, Ha, Hd. split; [done|]. by apply json_val_truthy.
  - rewrite list_lookup_insert_ne by done. rewrite Hl. eexists. split; [done|]. simpl.
    rewrite truthy_json_val, Ha, Hd. split; [done|]. by apply json_val_truthy.
Qed.

Lemma run_norm_keys ops db : norm_keys (run db ops) = norm_keys db.
Proof.
  revert db. induction ops as [|op ops IH]; intros db; [done|].
  unfold run in *. simpl. rewrite IH.
  apply rewrites_one_norm_keys, answer_rewrites_one.
Qed.

Lemma run_locked h i ops db :
  truthy h = true -> locked h i db -> locked h i (run db ops).
Proof.
  intros Hh. revert db. induction ops as [|op ops IH]; intros db Hl; [done|].
  unfold run in *. simpl. apply IH.
  eapply rewrites_one_locked; eauto using answer_rewrites_one.
Qed.

Lemma selects_norm_keys req db db' i l l' :
  norm_keys db' = norm_keys db ->
  selects req db i l -> records db' !! i = Some l' -> selects req db' i l'.
Proof.
  intros Hk (k & Hn & Hf & _) Hl'. exists k. split; [done|]. split; [|done].
  rewrite <- Hf. apply findIndex_from_ext.
  unfold norm_keys in Hk.
  assert (Hmap : forall ls, map (key_is k) ls
            = map (fun o : option string => x ← o; Some (String.eqb x k))
                  (map (fun l => normalize (key l)) ls)).
  { intros ls. rewrite map_map. done. }
  by rewrite !Hmap, Hk.
Qed.

(** ** The two guards, on a record selected by the request *)

Lemma validate_mismatch e n c req db i l :
  served e n req -> selects req db i l ->
  truthy (activated_on l) = true ->
  truthy (device_hash l) = true ->
  strict_ne (device_hash l) (deviceId req) = true ->
  ValidateLicense.handler e n c req db =
    (json 200 (BInvalid (Some "deviceMismatch")
                        (Some "⛔️مفتـاح التفعيل مرتبط بجهاز اخر⛔️")), db).
Proof.
  intros (Hm & Hk & Hd & He1 & He2 & Hg) Hsel Ha Hh Hne.
  pose proof (selects_licenses_of _ _ _ _ Hsel) as Hls.
  destruct Hsel as (k & Hn & Hf & Hl).
  unfold ValidateLicense.handler, ValidateLicense.handler_try.
  rewrite Hm, Hk, Hd, He1, He2, Hg, Hls. simpl.
  rewrite Hn. simpl. rewrite Hf. simpl. rewrite Hl, Ha. simpl.
  by rewrite Hh, Hne.
Qed.

Lemma check_session_mismatch e n c req db i l :
  served e n req -> selects req db i l ->
  strict_ne (device_hash l) (deviceId req) = true ->
  CheckSession.handler e n c req db =
    (json 200 (BInvalid (Some "deviceMismatch") (Some "Device mismatch")), db).
Proof.
  intros (Hm & Hk & Hd & He1 & He2 & Hg) Hsel Hne.
  pose proof (selects_licenses_of _ _ _ _ Hsel) as Hls.
  destruct Hsel as (k & Hn & Hf & Hl).
  unfold CheckSession.handler, CheckSession.handler_try.
  rewrite Hm, Hk, Hd, He1, He2, Hg, Hls. simpl.
  rewrite Hn. simpl. rewrite Hf. simpl. rewrite Hl. simpl.
  by rewrite Hne.
Qed.

Lemma express_validate_mismatch e n c req db i l :
  served e n req -> selects req db i l ->
  truthy (activated_on l) = true ->
  truthy (device_hash l) = true ->
  strict_ne (device_hash l) (deviceId req) = true ->
  Express.validate_license e n c req db =
    (json 200 (BInvalid (Some "deviceMismatch") (Some "⛔️ جهاز مختلف ⛔️")), db).
Proof.
  intros Hs Hsel Ha Hh Hne.
  pose proof (selects_fetchLicenses _ _ _ _ _ _ Hs Hsel) as Hls.
  destruct Hs as (Hm & Hk & Hd & He1 & He2 & Hg).
  destruct Hsel as (k & Hn & Hf & Hl).
  unfold Express.validate_license, Express.validate_license_try.
  rewrite Hk, Hd, Hls. simpl.
  rewrite (findIndex_key_matches _ k) by done. rewrite Hf. simpl. rewrite Hl. simpl.
  rewrite Ha. simpl. by rewrite Hh, Hne.
Qed.

Lemma express_check_session_mismatch e n c req db i l :
  served e n req -> selects req db i l ->
  strict_ne (device_hash l) (deviceId req) = true ->
  Express.check_session e n c req db =
    (json 200 (BInvalid (Some "deviceMismatch") None), db).
Proof.
  intros Hs Hsel Hne.
  pose proof (selects_fetchLicenses _ _ _ _ _ _ Hs Hsel) as Hls.
  destruct Hs as (Hm & Hk & Hd & He1 & He2 & Hg).
  destruct Hsel as (k & Hn & Hf & Hl).
  unfold Express.check_session, Express.check_session_try.
  rewrite Hk, Hd, Hls. simpl.
  rewrite (find_findIndex _ _ i l); [| by rewrite (findIndex_key_matches _ k) | done].
  simpl. by rewrite Hne.
Qed.

End Invariants.

(** ** Device lock *)

Section DeviceLock.
Context {P : Platform}.

Lemma validate_expired e n c req db i l :
  served e n req -> selects req db i l ->
  truthy (activated_on l) = true ->
  strict_eq (device_hash l) (deviceId req) = true ->
  truthy (expires_at l) = true ->
  num_lt (newDate (expires_at l)) (Some (clk_now c)) = true ->
  ValidateLicense.handler e n c req db =
    (json 200 (BInvalid (Some "expired")
                        (Some "⛔️مفتاح الاشتراك منتهي الصلاحية ⛔️")), db).
Proof.
  intros (Hm & Hk & Hd & He1 & He2 & Hg) Hsel Ha Heq Hx Hlt.
  pose proof (selects_licenses_of _ _ _ _ Hsel) as Hls.
  destruct Hsel as (k & Hn & Hf & Hl).
  unfold ValidateLicense.handler, ValidateLicense.handler_try.
  rewrite Hm, Hk, Hd, He1, He2, Hg, Hls. simpl.
  rewrite Hn. simpl. rewrite Hf. simpl. rewrite Hl, Ha. simpl.
  unfold strict_ne. rewrite Heq, andb_false_r. simpl.
  by rewrite Hx, Hlt.
Qed.

Lemma check_session_expired e n c req db i l :
  served e n req -> selects req db i l ->
  strict_eq (device_hash l) (deviceId req) = true ->
  num_lt (newDate (expires_at l)) (Some (clk_now c)) = true ->
  CheckSession.handler e n c req db =
    (json 200 (BInvalid (Some "expired") (Some "Subscription has expired")), db).
Proof.
  intros (Hm & Hk & Hd & He1 & He2 & Hg) Hsel Heq Hlt.
  pose proof (selects_licenses_of _ _ _ _ Hsel) as Hls.
  destruct Hsel as (k & Hn & Hf & Hl).
  unfold CheckSession.handler, CheckSession.handler_try.
  rewrite Hm, Hk, Hd, He1, He2, Hg, Hls. simpl.
  rewrite Hn. simpl. rewrite Hf. simpl. rewrite Hl. simpl.
  unfold strict_ne. rewrite Heq. simpl. by rewrite Hlt.
Qed.

(** A record that is not activated and has no [duration_days] keeps its
    [expires_at] through the activation block. *)
Lemma activate_without_duration c d ua l :
  truthy (duration_days l) = false ->
  exists l', activate c d ua l = Next l' /\ expires_at l' = expires_at l.
Proof.
  intros Hdur. eexists. split.
  - unfold activate. cbn [duration_days set_processed_videos set_device_name
                          set_device_hash set_activated_on].
    rewrite Hdur. reflexivity.
  - reflexivity.
Qed.

(** A record that is not activated is tested for expiry as the activation
    block leaves it. *)
Lemma validate_expired_on_activation e n c req db i l l' :
  served e n req -> selects req db i l ->
  truthy (activated_on l) = false ->
  activate c (deviceId req) (js_or (user_agent req) (VStr "Unknown Device")) l
    = Next l' ->
  truthy (expires_at l') = true ->
  num_lt (newDate (expires_at l')) (Some (clk_now c)) = true ->
  ValidateLicense.handler e n c req db =
    (json 200 (BInvalid (Some "expired")
                        (Some "⛔️مفتاح الاشتراك منتهي الصلاحية ⛔️")), db).
Proof.
  intros (Hm & Hk & Hd & He1 & He2 & Hg) Hsel Ha Hact Hx Hlt.
  pose proof (selects_licenses_of _ _ _ _ Hsel) as Hls.
  destruct Hsel as (k & Hn & Hf & Hl).
  destruct (activate_fields _ _ _ _ _ Hact) as (_ & _ & Hdev & _).
  unfold ValidateLicense.handler, ValidateLicense.handler_try.
  rewrite Hm, Hk, Hd, He1, He2, Hg, Hls, Hn.
  cbn [String.eqb Ascii.eqb Bool.eqb negb orb return_if throw_if mbind flow_bind
       or_throw bool_decide decide_rel].
  rewrite Hf. cbn [mbind flow_bind or_throw at_index]. rewrite Hl, Ha.
  cbn [negb]. rewrite Hact.
  cbn [mbind flow_bind return_if]. rewrite Hdev.
  unfold strict_ne. rewrite (strict_eq_refl_truthy _ Hd), andb_false_r.
  cbn [return_if mbind flow_bind]. by rewrite Hx, Hlt.
Qed.

End DeviceLock.

(** C1 (as amended).  Take a record that is activated and whose
    [device_hash] is set, and a request for it from another device.  After
    any sequence of calls to the License Authority, whatever their
    arguments and outcomes, the record is still activated and bound to the
    same [device_hash], and both [validate-license] and [check-session]
    answer the request with [deviceMismatch] and leave the store as it
    is. *)
Theorem device_lock_is_permanent `{P : Platform} ops e n c req db i l :
  served e n req ->
  selects req db i l ->
  truthy (activated_on l) = true ->
  truthy (device_hash l) = true ->
  strict_ne (device_hash l) (deviceId req) = true ->
  locked (device_hash l) i (run db ops) /\
  ValidateLicense.handler e n c req (run db ops) =
    (json 200 (BInvalid (Some "deviceMismatch")
                        (Some "⛔️مفتـاح التفعيل مرتبط بجهاز اخر⛔️")), run db ops) /\
  CheckSession.handler e n c req (run db ops) =
    (json 200 (BInvalid (Some "deviceMismatch") (Some "Device mismatch")), run db ops).
Proof.
  intros Hs Hsel Ha Hh Hne.
  assert (Hlock : locked (device_hash l) i (run db ops)).
  { apply run_locked; [done|]. destruct Hsel as (k & _ & _ & Hl). by exists l. }
  split; [done|].
  destruct Hlock as (l' & Hl' & Ha' & Hd').
  assert (Hsel' : selects req (run db ops) i l').
  { eapply selects_norm_keys; eauto using run_norm_keys. }
  split.
  - eapply validate_mismatch; eauto; by rewrite Hd'.
  - eapply check_session_mismatch; eauto; by rewrite Hd'.
Qed.

Lemma device_lock_is_permanent_witness :
  (served Scenario.env0 Scenario.online (Scenario.post "abc-1" "dev2") /\
   selects (Scenario.post "abc-1" "dev2") Scenario.two_records 1 Scenario.abc1 /\
   truthy (activated_on Scenario.abc1) = true /\
   truthy (device_hash Scenario.abc1) = true /\
   strict_ne (device_hash Scenario.abc1) (VStr "dev2") = true) /\
  locked (VStr "dev1") 1 (run Scenario.two_records Scenario.some_calls) /\
  ValidateLicense.handler Scenario.env0 Scenario.online Scenario.soon
      (Scenario.post "abc-1" "dev2") (run Scenario.two_records Scenario.some_calls) =
    (json 200 (BInvalid (Some "deviceMismatch")
                        (Some "⛔️مفتـاح التفعيل مرتبط بجهاز اخر⛔️")),
     run Scenario.two_records Scenario.some_calls) /\
  CheckSession.handler Scenario.env0 Scenario.online Scenario.soon
      (Scenario.post "abc-1" "dev2") (run Scenario.two_records Scenario.some_calls) =
    (json 200 (BInvalid (Some "deviceMismatch") (Some "Device mismatch")),
     run Scenario.two_records Scenario.some_calls).
Proof.
  assert (Hs : served Scenario.env0 Scenario.online (Scenario.post "abc-1" "dev2"))
    by (repeat split; reflexivity).
  assert (Hsel : selects (Scenario.post "abc-1" "dev2") Scenario.two_records 1
                   Scenario.abc1)
    by (exists "ABC-1"; repeat split; reflexivity).
  split; [repeat split; try reflexivity; assumption|].
  apply (device_lock_is_permanent Scenario.some_calls Scenario.env0 Scenario.online
           Scenario.soon (Scenario.post "abc-1" "dev2") Scenario.two_records 1%nat
           Scenario.abc1 Hs Hsel); reflexivity.
Defined.

(** C1, as stated, fails on a record whose [device_hash] is set while
    [activated_on] is not: [validate-license] called from another device
    activates the record, binds it to that device and succeeds. *)
Lemma device_hash_of_unactivated_record_is_overwritten :
  truthy (device_hash Scenario.prebound) = true /\
  strict_ne (device_hash Scenario.prebound) (VStr "dev2") = true /\
  served Scenario.env0 Scenario.online (Scenario.post "ABC-1" "dev2") /\
  selects (Scenario.post "ABC-1" "dev2") (RecordLicenses [Scenario.prebound]) 0
    Scenario.prebound /\
  body_valid (r_body (fst (ValidateLicense.handler Scenario.env0 Scenario.online
     (Scenario.at_time Scenario.t0) (Scenario.post "ABC-1" "dev2")
     (RecordLicenses [Scenario.prebound])))) = VBool true /\
  device_hash <$> records (snd (ValidateLicense.handler Scenario.env0 Scenario.online
     (Scenario.at_time Scenario.t0) (Scenario.post "ABC-1" "dev2")
     (RecordLicenses [Scenario.prebound]))) !! 0%nat = Some (VStr "dev2").
Proof.
  repeat split; try reflexivity.
  exists "ABC-1". repeat split; reflexivity.
Qed.

(** ** Expiry *)

(** C2 (as amended).  For a record whose [expires_at] is set and denotes
    a time before now, and whose [device_hash] is the device of the
    request, [check-session] answers [expired] and leaves the store as it
    is.  So does [validate-license], which then writes nothing back and
    does not increment [processed_videos], in each of these cases: the
    record is already activated; it has no [duration_days]; the
    activation block, run on it, gives a record whose [expires_at] is
    again set and before now. *)
Theorem expired_license_is_rejected_and_untouched `{P : Platform}
    e n c req db i l x :
  served e n req ->
  selects req db i l ->
  strict_eq (device_hash l) (deviceId req) = true ->
  truthy (expires_at l) = true ->
  newDate (expires_at l) = Some x ->
  x < clk_now c ->
  CheckSession.handler e n c req db =
    (json 200 (BInvalid (Some "expired") (Some "Subscription has expired")), db) /\
  (truthy (activated_on l) = true \/
   truthy (duration_days l) = false \/
   (exists l' x',
      activate c (deviceId req) (js_or (user_agent req) (VStr "Unknown Device")) l
        = Next l' /\
      truthy (expires_at l') = true /\
      newDate (expires_at l') = Some x' /\
      x' < clk_now c) ->
   ValidateLicense.handler e n c req db =
     (json 200 (BInvalid (Some "expired")
                         (Some "⛔️مفتاح الاشتراك منتهي الصلاحية ⛔️")), db)).
Proof.
  intros Hs Hsel Heq Hx Hd Hlt.
  assert (Hn : num_lt (newDate (expires_at l)) (Some (clk_now c)) = true).
  { rewrite Hd. simpl. by apply Z.ltb_lt. }
  split; [by eapply check_session_expired|].
  destruct (truthy (activated_on l)) eqn:Ha.
  - intros _. by eapply validate_expired.
  - intros [|[Hdur|(l' & x' & Hact & Hx' & Hd' & Hlt')]]; [done| |].
    + destruct (activate_without_duration c (deviceId req)
                  (js_or (user_agent req) (VStr "Unknown Device")) l Hdur)
        as (l' & Hact & He).
      eapply validate_expired_on_activation; eauto; by rewrite He.
    + eapply validate_expired_on_activation; eauto.
      rewrite Hd'. simpl. by apply Z.ltb_lt.
Qed.

Lemma expired_license_is_rejected_and_untouched_witness :
  (served Scenario.env0 Scenario.online (Scenario.post "abc-1" "dev1") /\
   selects (Scenario.post "abc-1" "dev1") Scenario.two_records 1 Scenario.abc1 /\
   strict_eq (device_hash Scenario.abc1) (VStr "dev1") = true /\
   truthy (expires_at Scenario.abc1) = true /\
   newDate (expires_at Scenario.abc1) = Some (Scenario.t0 + 30 * msPerDay) /\
   Scenario.t0 + 30 * msPerDay < clk_now Scenario.late /\
   truthy (activated_on Scenario.abc1) = true) /\
  CheckSession.handler Scenario.env0 Scenario.online Scenario.late
      (Scenario.post "abc-1" "dev1") Scenario.two_records =
    (json 200 (BInvalid (Some "expired") (Some "Subscription has expired")),
     Scenario.two_records) /\
  ValidateLicense.handler Scenario.env0 Scenario.online Scenario.late
      (Scenario.post "abc-1" "dev1") Scenario.two_records =
    (json 200 (BInvalid (Some "expired")
                        (Some "⛔️مفتاح الاشتراك منتهي الصلاحية ⛔️")),
     Scenario.two_records).
Proof.
  assert (Hs : served Scenario.env0 Scenario.online (Scenario.post "abc-1" "dev1"))
    by (repeat split; reflexivity).
  assert (Hsel : selects (Scenario.post "abc-1" "dev1") Scenario.two_records 1
                   Scenario.abc1)
    by (exists "ABC-1"; repeat split; reflexivity).
  split; [repeat split; try reflexivity; assumption|].
  destruct (expired_license_is_rejected_and_untouched Scenario.env0 Scenario.online
              Scenario.late (Scenario.post "abc-1" "dev1") Scenario.two_records
              1%nat Scenario.abc1 (Scenario.t0 + 30 * msPerDay) Hs Hsel
              eq_refl eq_refl eq_refl eq_refl) as [Hc Hv].
  split; [exact Hc|]. apply Hv. left. reflexivity.
Defined.

(** C2, as stated, fails on a record that is not yet activated and has
    a [duration_days]: with an [expires_at] in the past,
    [validate-license] activates the record, computes a new expiry,
    counts the call and writes the store. *)
Lemma expired_unactivated_record_is_activated :
  served Scenario.env0 Scenario.online (Scenario.post "ABC-1" "dev1") /\
  selects (Scenario.post "ABC-1" "dev1") (RecordLicenses [Scenario.stale]) 0
    Scenario.stale /\
  truthy (activated_on Scenario.stale) = false /\
  truthy (duration_days Scenario.stale) = true /\
  strict_eq (device_hash Scenario.stale) (VStr "dev1") = true /\
  truthy (expires_at Scenario.stale) = true /\
  newDate (expires_at Scenario.stale) = Some msPerDay /\
  msPerDay < clk_now (Scenario.at_time Scenario.t0) /\
  body_valid (r_body (fst (ValidateLicense.handler Scenario.env0 Scenario.online
     (Scenario.at_time Scenario.t0) (Scenario.post "ABC-1" "dev1")
     (RecordLicenses [Scenario.stale])))) = VBool true /\
  processed_videos <$> records (snd (ValidateLicense.handler Scenario.env0
     Scenario.online (Scenario.at_time Scenario.t0) (Scenario.post "ABC-1" "dev1")
     (RecordLicenses [Scenario.stale]))) !! 0%nat = Some (VNum 1) /\
  snd (ValidateLicense.handler Scenario.env0 Scenario.online
     (Scenario.at_time Scenario.t0) (Scenario.post "ABC-1" "dev1")
     (RecordLicenses [Scenario.stale])) <> RecordLicenses [Scenario.stale].
Proof.
  repeat split; try reflexivity.
  - exists "ABC-1". repeat split; reflexivity.
  - vm_compute. discriminate.
Qed.

(** ** Order of the guards *)

(** C5 (as amended).  For a record whose [device_hash] is set to a
    device other than the one of the request, and past its expiry,
    [check-session] answers [deviceMismatch], not [expired], and so does
    [validate-license] when the record is activated: the device guard
    comes first.  The same holds on the Express routes. *)
Theorem device_guard_precedes_expiry_guard `{P : Platform}
    e n c req db i l x :
  served e n req ->
  selects req db i l ->
  truthy (device_hash l) = true ->
  strict_ne (device_hash l) (deviceId req) = true ->
  truthy (expires_at l) = true ->
  newDate (expires_at l) = Some x ->
  x < clk_now c ->
  body_error (r_body (fst (CheckSession.handler e n c req db)))
    = VStr "deviceMismatch" /\
  body_error (r_body (fst (Express.check_session e n c req db)))
    = VStr "deviceMismatch" /\
  (truthy (activated_on l) = true ->
   body_error (r_body (fst (ValidateLicense.handler e n c req db)))
     = VStr "deviceMismatch" /\
   body_error (r_body (fst (Express.validate_license e n c req db)))
     = VStr "deviceMismatch").
Proof.
  intros Hs Hsel Hh Hne _ _ _.
  erewrite check_session_mismatch, express_check_session_mismatch; eauto.
  split; [done|]. split; [done|]. intros Ha.
  erewrite validate_mismatch, express_validate_mismatch; eauto.
Qed.

Lemma device_guard_precedes_expiry_guard_witness :
  (served Scenario.env0 Scenario.online (Scenario.post "abc-1" "dev2") /\
   selects (Scenario.post "abc-1" "dev2") Scenario.two_records 1 Scenario.abc1 /\
   truthy (device_hash Scenario.abc1) = true /\
   strict_ne (device_hash Scenario.abc1) (VStr "dev2") = true /\
   truthy (expires_at Scenario.abc1) = true /\
   newDate (expires_at Scenario.abc1) = Some (Scenario.t0 + 30 * msPerDay) /\
   Scenario.t0 + 30 * msPerDay < clk_now Scenario.late) /\
  body_error (r_body (fst (CheckSession.handler Scenario.env0 Scenario.online
     Scenario.late (Scenario.post "abc-1" "dev2") Scenario.two_records)))
    = VStr "deviceMismatch" /\
  body_error (r_body (fst (Express.check_session Scenario.env0 Scenario.online
     Scenario.late (Scenario.post "abc-1" "dev2") Scenario.two_records)))
    = VStr "deviceMismatch" /\
  (truthy (activated_on Scenario.abc1) = true ->
   body_error (r_body (fst (ValidateLicense.handler Scenario.env0 Scenario.online
      Scenario.late (Scenario.post "abc-1" "dev2") Scenario.two_records)))
     = VStr "deviceMismatch" /\
   body_error (r_body (fst (Express.validate_license Scenario.env0 Scenario.online
      Scenario.late (Scenario.post "abc-1" "dev2") Scenario.two_records)))
     = VStr "deviceMismatch").
Proof.
  assert (Hs : served Scenario.env0 Scenario.online (Scenario.post "abc-1" "dev2"))
    by (repeat split; reflexivity).
  assert (Hsel : selects (Scenario.post "abc-1" "dev2") Scenario.two_records 1
                   Scenario.abc1)
    by (exists "ABC-1"; repeat split; reflexivity).
  split; [repeat split; try reflexivity; assumption|].
  apply (device_guard_precedes_expiry_guard Scenario.env0 Scenario.online
           Scenario.late (Scenario.post "abc-1" "dev2") Scenario.two_records 1%nat
           Scenario.abc1 (Scenario.t0 + 30 * msPerDay) Hs Hsel); reflexivity.
Defined.

(** C5, as stated, fails for [validate-license] on a record that is
    bound to a device but not activated: the activation block binds the
    record to the caller before the guards are evaluated, so that a
    request from another device, past the expiry, is answered [expired],
    on the serverless handler and on the Express route. *)
Lemma bound_unactivated_record_reports_expired :
  served Scenario.env0 Scenario.online (Scenario.post "ABC-1" "dev2") /\
  selects (Scenario.post "ABC-1" "dev2")
    (RecordLicenses [Scenario.prebound_expired]) 0 Scenario.prebound_expired /\
  device_hash Scenario.prebound_expired = VStr "dev1" /\
  strict_ne (device_hash Scenario.prebound_expired) (VStr "dev2") = true /\
  truthy (expires_at Scenario.prebound_expired) = true /\
  newDate (expires_at Scenario.prebound_expired) = Some msPerDay /\
  msPerDay < clk_now (Scenario.at_time Scenario.t0) /\
  ValidateLicense.handler Scenario.env0 Scenario.online
    (Scenario.at_time Scenario.t0) (Scenario.post "ABC-1" "dev2")
    (RecordLicenses [Scenario.prebound_expired])
  = (json 200 (BInvalid (Some "expired")
                        (Some "⛔️مفتاح الاشتراك منتهي الصلاحية ⛔️")),
     RecordLicenses [Scenario.prebound_expired]) /\
  body_error (r_body (fst (Express.validate_license Scenario.env0 Scenario.online
    (Scenario.at_time Scenario.t0) (Scenario.post "ABC-1" "dev2")
    (RecordLicenses [Scenario.prebound_expired])))) = VStr "expired".
Proof.
  repeat split; try reflexivity.
  exists "ABC-1". repeat split; reflexivity.
Qed.

(** ** Session checks leave the store alone *)

Section CheckOnly.
Context {P : Platform}.

Lemma run_check_sessions db (cs : list (env * net * clock * request)) :
  run db (map (fun '(e, n, c, req) => CallCheckSession e n c req) cs) = db.
Proof.
  revert db. induction cs as [|[[[e n] c] req] cs IH]; intros db; [done|].
  unfold run in *. simpl. rewrite check_session_store. apply IH.
Qed.

Lemma run_express_check_sessions db (cs : list (env * net * clock * request)) :
  run db (map (fun '(e, n, c, req) => CallExpressCheckSession e n c req) cs) = db.
Proof.
  revert db. induction cs as [|[[[e n] c] req] cs IH]; intros db; [done|].
  unfold run in *. simpl. rewrite express_check_session_store. apply IH.
Qed.

End CheckOnly.

(** C3.  [check-session] never writes to the store, on the serverless
    handler and on the Express route alike; hence any number of session
    checks, whatever their arguments, leaves every record, and its
    [processed_videos], as it was.  On a record that is not activated and
    has no device bound (a falsy [device_hash]) the check does not
    activate anything: it fails with [deviceMismatch]. *)
Theorem check_session_never_mutates `{P : Platform}
    e n c req db i l (cs : list (env * net * clock * request)) :
  served e n req ->
  selects req db i l ->
  truthy (activated_on l) = false ->
  truthy (device_hash l) = false ->
  (forall e' n' c' req' db',
     snd (CheckSession.handler e' n' c' req' db') = db' /\
     snd (Express.check_session e' n' c' req' db') = db') /\
  run db (map (fun '(e, n, c, req) => CallCheckSession e n c req) cs) = db /\
  run db (map (fun '(e, n, c, req) => CallExpressCheckSession e n c req) cs) = db /\
  CheckSession.handler e n c req db =
    (json 200 (BInvalid (Some "deviceMismatch") (Some "Device mismatch")), db) /\
  Express.check_session e n c req db =
    (json 200 (BInvalid (Some "deviceMismatch") None), db).
Proof.
  intros Hs Hsel Ha Hh.
  assert (Hne : strict_ne (device_hash l) (deviceId req) = true).
  { apply strict_ne_falsy_truthy; [done|]. by destruct Hs as (_ & _ & ? & _). }
  split; [|split; [|split; [|split]]].
  - intros. split; [apply check_session_store | apply express_check_session_store].
  - apply run_check_sessions.
  - apply run_express_check_sessions.
  - by eapply check_session_mismatch.
  - by eapply express_check_session_mismatch.
Qed.

Lemma check_session_never_mutates_witness :
  (served Scenario.env0 Scenario.online (Scenario.post "xyz-9" "dev3") /\
   selects (Scenario.post "xyz-9" "dev3") Scenario.two_records 0
     (Scenario.blank "XYZ-9") /\
   truthy (activated_on (Scenario.blank "XYZ-9")) = false /\
   truthy (device_hash (Scenario.blank "XYZ-9")) = false) /\
  (forall e' n' c' req' db',
     snd (CheckSession.handler e' n' c' req' db') = db' /\
     snd (Express.check_session e' n' c' req' db') = db') /\
  run Scenario.two_records
      (map (fun '(e, n, c, req) => CallCheckSession e n c req)
           [(Scenario.env0, Scenario.online, Scenario.soon, Scenario.post "abc-1" "dev1");
            (Scenario.env0, Scenario.online, Scenario.late, Scenario.post "abc-1" "dev1")])
    = Scenario.two_records /\
  run Scenario.two_records
      (map (fun '(e, n, c, req) => CallExpressCheckSession e n c req)
           [(Scenario.env0, Scenario.online, Scenario.soon, Scenario.post "abc-1" "dev1");
            (Scenario.env0, Scenario.online, Scenario.late, Scenario.post "abc-1" "dev1")])
    = Scenario.two_records /\
  CheckSession.handler Scenario.env0 Scenario.online Scenario.soon
      (Scenario.post "xyz-9" "dev3") Scenario.two_records =
    (json 200 (BInvalid (Some "deviceMismatch") (Some "Device mismatch")),
     Scenario.two_records) /\
  Express.check_session Scenario.env0 Scenario.online Scenario.soon
      (Scenario.post "xyz-9" "dev3") Scenario.two_records =
    (json 200 (BInvalid (Some "deviceMismatch") None), Scenario.two_records).
Proof.
  assert (Hs : served Scenario.env0 Scenario.online (Scenario.post "xyz-9" "dev3"))
    by (repeat split; reflexivity).
  assert (Hsel : selects (Scenario.post "xyz-9" "dev3") Scenario.two_records 0
                   (Scenario.blank "XYZ-9"))
    by (exists "XYZ-9"; repeat split; reflexivity).
  split; [repeat split; try reflexivity; assumption|].
  apply (check_session_never_mutates Scenario.env0 Scenario.online Scenario.soon
           (Scenario.post "xyz-9" "dev3") Scenario.two_records 0%nat
           (Scenario.blank "XYZ-9") _ Hs Hsel); reflexivity.
Defined.

(** ** Dates *)

Lemma MonthFromTime_range t : 0 <= MonthFromTime t <= 11.
Proof.
  unfold MonthFromTime.
  repeat match goal with
         | |- context [if ?b then _ else _] => destruct b
         end; lia.
Qed.

Lemma MakeDay_in_month y m dt :
  0 <= m <= 11 ->
  MakeDay y m dt = DayFromYear y + month_start m (leap_year y) + dt - 1.
Proof.
  intros Hm. unfold MakeDay.
  rewrite (Z.div_small m 12), (Z.mod_small m 12) by lia.
  by rewrite Z.add_0_r.
Qed.

(** The first of the month of [t], plus the day of the month, is the
    day of [t]. *)
Lemma MakeDay_DateFromTime t d :
  MakeDay (YearFromTime t) (MonthFromTime t) (DateFromTime t + d) = Day t + d.
Proof.
  rewrite MakeDay_in_month by apply MonthFromTime_range.
  unfold DateFromTime, DayWithinYear, InLeapYear. lia.
Qed.

Lemma Day_TimeWithinDay t : MakeDate (Day t) (TimeWithinDay t) = t.
Proof.
  unfold MakeDate, Day, TimeWithinDay.
  pose proof (Z.div_mod t msPerDay). unfold msPerDay in *. lia.
Qed.

Section SetDate.
Context {P : Platform}.

(** [d.setDate(now.getDate() + n)] moves the local time of [d] by [n]
    days and by as many days as the day of the month of [now] is ahead of
    that of [d]. *)
Lemma setDate_getDate t1 t2 n :
  setDate t2 (Some (getDate t1 + n)) =
  TimeClip (UTC (LocalTime t2 + (getDate t1 - getDate t2 + n) * msPerDay)).
Proof.
  unfold setDate, getDate. do 2 f_equal.
  replace (DateFromTime (LocalTime t1) + n)
    with (DateFromTime (LocalTime t2)
          + (DateFromTime (LocalTime t1) - DateFromTime (LocalTime t2) + n)) by lia.
  rewrite MakeDay_DateFromTime.
  pose proof (Day_TimeWithinDay (LocalTime t2)) as H. unfold MakeDate in *. lia.
Qed.

(** Two times on the same local day have the same day of the month. *)
Lemma getDate_same_day t1 t2 :
  Day (LocalTime t1) = Day (LocalTime t2) -> getDate t1 = getDate t2.
Proof.
  intros Hday.
  unfold getDate, DateFromTime, MonthFromTime, DayWithinYear, InLeapYear, YearFromTime.
  by rewrite Hday.
Qed.

End SetDate.

Lemma epoch_roundtrip t : EpochPlatform.parse_decimal (string_of_Z t) = Some t.
Proof.
  unfold EpochPlatform.parse_decimal, string_of_Z.
  rewrite NilZero.isi.
  - simpl. by rewrite DecimalZ.of_to.
  - destruct t; simpl; try done.
    intros [= H]. by apply DecimalPos.Unsigned.to_uint_nonnil in H.
  - destruct t; simpl; try done.
    intros [= H]. by apply DecimalPos.Unsigned.to_uint_nonnil in H.
Qed.

(** ** Remaining days *)

Lemma ceil_div_spec x d :
  0 < d -> (ceil_div x d - 1) * d < x <= ceil_div x d * d.
Proof.
  intros Hd. unfold ceil_div.
  pose proof (Z.div_mod (- x) d). pose proof (Z.mod_pos_bound (- x) d). nia.
Qed.

(** C10.  Whatever [expiresAt] is, [getRemainingDays(expiresAt)] is a
    number that is not negative: when [expiresAt] denotes the time [e],
    it is the ceiling [q] of [(e - now) / 1 day] if that is positive and 0
    otherwise, so 0 as soon as [e] is not after [now]; when [expiresAt]
    is not a date it is 0.  The formula of the server, without the guard,
    gives -2 two days after the expiry. *)
Theorem getRemainingDays_is_never_negative `{P : Platform} now expiresAt :
  exists n,
    API.getRemainingDays now expiresAt = VNum n /\
    0 <= n /\
    match newDate expiresAt with
    | Some e =>
        let q := ceil_div (e - now) msPerDay in
        (q - 1) * msPerDay < e - now <= q * msPerDay /\
        n = Z.max 0 q /\
        (e <= now -> n = 0)
    | None => n = 0
    end /\
    days_between (Some (now - 2 * msPerDay)) (Some now) = Some (-2).
Proof.
  unfold API.getRemainingDays, days_between.
  change (1000 * 60 * 60 * 24) with msPerDay.
  assert (Hraw : num_sub (Some (now - 2 * msPerDay)) (Some now) = Some (- 2 * msPerDay)).
  { simpl. f_equal. lia. }
  rewrite Hraw.
  assert (Hm2 : ceil_div (- 2 * msPerDay) msPerDay = -2) by reflexivity.
  rewrite Hm2.
  destruct (newDate expiresAt) as [e|]; simpl.
  - pose proof (ceil_div_spec (e - now) msPerDay eq_refl) as Hq.
    destruct (0 <? ceil_div (e - now) msPerDay) eqn:E.
    + apply Z.ltb_lt in E. eexists. split; [reflexivity|].
      repeat split; try lia. intros Hle. unfold msPerDay in *. lia.
    + apply Z.ltb_ge in E. exists 0. repeat split; try lia.
  - exists 0. repeat split; lia.
Qed.

(** ** The gates *)

Lemma middleware_always_forwards request : Gate.middleware request = Gate.Forward.
Proof. reflexivity. Qed.

Lemma edge_rejects_without_token request :
  includes (Gate.pathname request) "ffmpeg-core.wasm"
  || includes (Gate.pathname request) "ffmpeg-core.worker.js" = true ->
  truthy (Gate.cookie_token request) = false ->
  Gate.edge request = Gate.Reject 403 "Unauthorized".
Proof. intros Hp Ht. unfold Gate.edge. by rewrite Hp, Ht. Qed.

Lemma lib_gate_rejects_without_token req :
  includes (Gate.pathname req) "ffmpeg-core.wasm"
  || includes (Gate.pathname req) "ffmpeg-core.worker.js" = true ->
  truthy (Gate.cookie_token req) = false ->
  Gate.lib_gate req = Gate.Reject 403 "Unauthorized access to engine".
Proof. intros Hp Ht. unfold Gate.lib_gate. by rewrite Hp, Ht. Qed.

(** C8.  The middleware of [src/middleware.js] lets a request for
    [/lib/ffmpeg-core.wasm] without any cookie through to the asset, where
    the claim wants it rejected; the edge function and the Express gate
    answer the same request with 403. *)
Theorem middleware_serves_engine_without_cookie :
  Gate.middleware Scenario.anonymous_wasm = Gate.Forward /\
  includes (Gate.pathname Scenario.anonymous_wasm) "ffmpeg-core.wasm" = true /\
  Gate.cookie_header Scenario.anonymous_wasm = None /\
  Gate.edge Scenario.anonymous_wasm = Gate.Reject 403 "Unauthorized" /\
  Gate.lib_gate Scenario.anonymous_wasm = Gate.Reject 403 "Unauthorized access to engine".
Proof. repeat split; reflexivity. Qed.

(** ** Error codes *)

Section ErrorCodes.
Context {P : Platform}.

Ltac code_in := right; eexists; split; [reflexivity | simpl; tauto].

Lemma validate_codes e n c req db :
  fails_with Codes.validate_license (fst (ValidateLicense.handler e n c req db)).
Proof.
  unfold ValidateLicense.handler, ValidateLicense.handler_try.
  destruct (negb (method req =? "POST")%string); [code_in|].
  unfold return_if, throw_if.
  do 4 (case_if; simpl; [code_in|]).
  destruct (ValidateLicense.licenses_of db) as [ls|r|] eqn:Hls; simpl;
    [| destruct db; simpl in Hls; try done; injection Hls as <-; code_in | code_in].
  destruct (normalize (licenseKey req)) as [k|]; simpl; [|code_in].
  destruct (findIndex (key_is k) ls) as [[i|]|]; simpl; [| code_in | code_in].
  destruct (ls !! i) as [l0|] eqn:Hl0; simpl; [|code_in].
  destruct (negb (truthy (activated_on l0))); simpl.
  - destruct (activate c (deviceId req) _ l0) as [l1|r|] eqn:Hact; simpl;
      [| by apply activate_not_return in Hact | code_in].
    do 4 (case_if; simpl; [code_in|]). by left.
  - do 4 (case_if; simpl; [code_in|]). by left.
Qed.

Lemma check_session_codes e n c req db :
  fails_with Codes.check_session (fst (CheckSession.handler e n c req db)).
Proof.
  unfold CheckSession.handler, CheckSession.handler_try.
  destruct (negb (method req =? "POST")%string); [code_in|].
  unfold return_if, throw_if.
  do 4 (case_if; simpl; [code_in|]).
  destruct (ValidateLicense.licenses_of db) as [ls|r|] eqn:Hls; simpl;
    [| destruct db; simpl in Hls; try done; injection Hls as <-; code_in | code_in].
  destruct (normalize (licenseKey req)) as [k|]; simpl; [|code_in].
  destruct (findIndex (key_is k) ls) as [i|]; simpl; [|code_in].
  destruct (at_index ls i) as [l|]; simpl; [|code_in].
  do 2 (case_if; simpl; [code_in|]). by left.
Qed.

Lemma session_cache_codes now now' ls :
  match snd (API.checkSession now now' ls) with
  | API.Valid _ => True
  | API.Invalid code => In code Codes.session_cache
  end.
Proof.
  unfold API.checkSession.
  destruct (ls !! Config.SESSION) as [session|]; [|simpl; tauto].
  destruct (negb (item_truthy session)); [simpl; tauto|].
  destruct session as [s|[| |sessionData]]; try (simpl; tauto).
  destruct (sd_license sessionData) as [license|]; [|simpl; tauto].
  destruct (negb (truthy (expiresAt license))); [simpl; tauto|].
  destruct (num_lt (ToNumber (sd_expiresAt sessionData)) (Some now)); [simpl; tauto|].
  destruct (num_lt (newDate (expiresAt license)) (Some now')); simpl; tauto.
Qed.

Lemma validate_missing_key e n c req db k :
  served e n req ->
  ValidateLicense.licenses_of db = Next (records db) ->
  normalize (licenseKey req) = Some k ->
  findIndex (key_is k) (records db) = Some None ->
  ValidateLicense.handler e n c req db =
    (json 200 (BInvalid (Some "invalidLicense") (Some "لايوجد اشتراك")), db).
Proof.
  intros (Hm & Hk & Hd & He1 & He2 & Hg) Hls Hn Hf.
  unfold ValidateLicense.handler, ValidateLicense.handler_try.
  rewrite Hm, Hk, Hd, He1, He2, Hg, Hls. simpl.
  rewrite Hn. simpl. by rewrite Hf.
Qed.

Lemma check_session_missing_key e n c req db k :
  served e n req ->
  ValidateLicense.licenses_of db = Next (records db) ->
  normalize (licenseKey req) = Some k ->
  findIndex (key_is k) (records db) = Some None ->
  CheckSession.handler e n c req db =
    (json 200 (BInvalid (Some "deleted") (Some "License has been revoked")), db).
Proof.
  intros (Hm & Hk & Hd & He1 & He2 & Hg) Hls Hn Hf.
  unfold CheckSession.handler, CheckSession.handler_try.
  rewrite Hm, Hk, Hd, He1, He2, Hg, Hls. simpl.
  rewrite Hn. simpl. by rewrite Hf.
Qed.

End ErrorCodes.

(** C9 (as amended).  Every answer of [validate-license] that is not a
    success carries one of the codes [Codes.validate_license], every such
    answer of [check-session] one of [Codes.check_session], and every
    failure of the client's [checkSession] one of [Codes.session_cache].
    A license key that is missing from the store is reported as
    [invalidLicense] by [validate-license] and as [deleted] by
    [check-session]. *)
Theorem failure_codes_of_the_authority `{P : Platform}
    e n c req db k now now' ls :
  served e n req ->
  ValidateLicense.licenses_of db = Next (records db) ->
  normalize (licenseKey req) = Some k ->
  findIndex (key_is k) (records db) = Some None ->
  (forall e' n' c' req' db',
     fails_with Codes.validate_license
       (fst (ValidateLicense.handler e' n' c' req' db')) /\
     fails_with Codes.check_session
       (fst (CheckSession.handler e' n' c' req' db'))) /\
  match snd (API.checkSession now now' ls) with
  | API.Valid _ => True
  | API.Invalid code => In code Codes.session_cache
  end /\
  body_error (r_body (fst (ValidateLicense.handler e n c req db)))
    = VStr "invalidLicense" /\
  body_error (r_body (fst (CheckSession.handler e n c req db)))
    = VStr "deleted".
Proof.
  intros Hs Hls Hn Hf. split; [|split; [|split]].
  - intros. split; [apply validate_codes | apply check_session_codes].
  - apply session_cache_codes.
  - by erewrite validate_missing_key.
  - by erewrite check_session_missing_key.
Qed.

Lemma failure_codes_of_the_authority_witness :
  (served Scenario.env0 Scenario.online (Scenario.post "nope" "dev1") /\
   ValidateLicense.licenses_of Scenario.two_records
     = Next (records Scenario.two_records) /\
   normalize (VStr "nope") = Some "NOPE" /\
   findIndex (key_is "NOPE") (records Scenario.two_records) = Some None) /\
  (forall e' n' c' req' db',
     fails_with Codes.validate_license
       (fst (ValidateLicense.handler e' n' c' req' db')) /\
     fails_with Codes.check_session
       (fst (CheckSession.handler e' n' c' req' db'))) /\
  match snd (API.checkSession Scenario.t0 Scenario.t0 ∅) with
  | API.Valid _ => True
  | API.Invalid code => In code Codes.session_cache
  end /\
  body_error (r_body (fst (ValidateLicense.handler Scenario.env0 Scenario.online
     Scenario.soon (Scenario.post "nope" "dev1") Scenario.two_records)))
    = VStr "invalidLicense" /\
  body_error (r_body (fst (CheckSession.handler Scenario.env0 Scenario.online
     Scenario.soon (Scenario.post "nope" "dev1") Scenario.two_records)))
    = VStr "deleted".
Proof.
  assert (Hs : served Scenario.env0 Scenario.online (Scenario.post "nope" "dev1"))
    by (repeat split; reflexivity).
  split; [repeat split; try reflexivity; assumption|].
  apply (failure_codes_of_the_authority Scenario.env0 Scenario.online Scenario.soon
           (Scenario.post "nope" "dev1") Scenario.two_records "NOPE"
           Scenario.t0 Scenario.t0 ∅ Hs); reflexivity.
Defined.

(** C9, as stated, fails: [check-session] reports a key that is missing
    from the store with the code [deleted], which the documented list of
    codes does not have. *)
Lemma check_session_reports_deleted :
  served Scenario.env0 Scenario.online (Scenario.post "nope" "dev1") /\
  findIndex (key_is "NOPE") (records Scenario.two_records) = Some None /\
  CheckSession.handler Scenario.env0 Scenario.online Scenario.soon
      (Scenario.post "nope" "dev1") Scenario.two_records =
    (json 200 (BInvalid (Some "deleted") (Some "License has been revoked")),
     Scenario.two_records) /\
  ~ In "deleted" Codes.documented.
Proof.
  repeat split; try reflexivity.
  simpl. intros H. repeat destruct H as [H|H]; try discriminate H. done.
Qed.

(** ** The format check of [login] *)

Lemma code_units_nonneg s : 0 <= code_units s.
Proof.
  induction s as [|c s IH]; simpl; [done|].
  repeat match goal with
         | |- context [if ?b then _ else _] => destruct b
         end; lia.
Qed.

(** A text that is not empty has a positive length. *)
Lemma str_length_pos c s : 0 < str_length (String c s).
Proof.
  pose proof (code_units_nonneg s). unfold str_length. simpl.
  repeat match goal with
         | |- context [if ?b then _ else _] => destruct b eqn:?
         end; try lia; congruence.
Qed.

Lemma validateLicenseFormat_spec key :
  truthy (Auth.validateLicenseFormat key) = true <->
  exists s, key = VStr s /\ s <> "".
Proof.
  unfold Auth.validateLicenseFormat, js_and. split.
  - destruct key as [| |b|z| |s]; simpl; try done.
    + by destruct b.
    + destruct (z =? 0) eqn:E; simpl; rewrite ?E; done.
    + destruct s as [|a s]; simpl; [done|]. intros _. by eexists.
  - intros (s & -> & Hs). destruct s as [|a s]; [done|]. cbn -[str_length].
    pose proof (str_length_pos a s) as H. apply Z.ltb_lt in H. by rewrite H.
Qed.

(** C7 (as amended).  The format check of [login] takes the key as it
    is given, without trimming it: it passes exactly the non-empty
    strings.  A key that does not pass makes [login] fail with the format
    error, with no request sent and nothing changed; a non-empty string,
    whatever its shape, passes and is sent as it is to the server. *)
Theorem login_format_check_is_on_the_raw_key
    generated ua server created expires_base a ls key s :
  s <> "" ->
  (truthy (Auth.validateLicenseFormat key) = true <->
   exists s', key = VStr s' /\ s' <> "") /\
  (truthy (Auth.validateLicenseFormat key) = false ->
   Auth.login generated ua server created expires_base key a ls =
     {| Auth.answer := Auth.LoginFailure (VStr "Invalid license key format");
        Auth.manager := a; Auth.storage := ls; Auth.sent := [] |}) /\
  exists req,
    Auth.sent (Auth.login generated ua server created expires_base (VStr s) a ls)
      = [req] /\
    method req = "POST" /\ licenseKey req = VStr s.
Proof.
  intros Hs. split; [apply validateLicenseFormat_spec|]. split.
  - intros Hf. unfold Auth.login. by rewrite Hf.
  - assert (Hok : truthy (Auth.validateLicenseFormat (VStr s)) = true).
    { apply validateLicenseFormat_spec. by exists s. }
    unfold Auth.login. rewrite Hok. simpl.
    destruct (Auth.getDeviceId generated ls) as [deviceId ls'].
    destruct (negb (truthy (API.validation_valid _))); simpl; [by eexists|].
    destruct (API.createSession _ _ _ _ _) as [ls'' [session|]]; by eexists.
Qed.

Lemma login_format_check_is_on_the_raw_key_witness :
  "ABC-1" <> "" /\
  (truthy (Auth.validateLicenseFormat (VStr "")) = true <->
   exists s', VStr "" = VStr s' /\ s' <> "") /\
  (truthy (Auth.validateLicenseFormat (VStr "")) = false ->
   Auth.login "f00d" VUndef Scenario.unreachable Scenario.t0 Scenario.t0 (VStr "")
     Scenario.signed_out ∅ =
     {| Auth.answer := Auth.LoginFailure (VStr "Invalid license key format");
        Auth.manager := Scenario.signed_out; Auth.storage := ∅; Auth.sent := [] |}) /\
  exists req,
    Auth.sent (Auth.login "f00d" VUndef Scenario.unreachable Scenario.t0 Scenario.t0
                 (VStr "ABC-1") Scenario.signed_out ∅)
      = [req] /\
    method req = "POST" /\ licenseKey req = VStr "ABC-1".
Proof.
  assert (Hs : "ABC-1" <> "") by discriminate.
  split; [exact Hs|].
  exact (login_format_check_is_on_the_raw_key "f00d" VUndef Scenario.unreachable
           Scenario.t0 Scenario.t0 Scenario.signed_out ∅ (VStr "") "ABC-1" Hs).
Defined.

(** C7, as stated, fails on a key of three spaces: it is empty once
    trimmed, yet it passes the format check and [login] sends it to the
    server. *)
Lemma blank_key_reaches_the_server :
  trim "   " = "" /\
  Auth.formatLicenseKey "   " = "" /\
  truthy (Auth.validateLicenseFormat (VStr "   ")) = true /\
  Auth.sent (Auth.login "f00d" VUndef Scenario.unreachable Scenario.t0 Scenario.t0
               (VStr "   ") Scenario.signed_out ∅)
    = [{| method := "POST"; licenseKey := VStr "   "; deviceId := VStr "f00d";
          user_agent := VUndef |}] /\
  Auth.answer (Auth.login "f00d" VUndef Scenario.unreachable Scenario.t0 Scenario.t0
                 (VStr "   ") Scenario.signed_out ∅)
    <> Auth.LoginFailure (VStr "Invalid license key format").
Proof. repeat split; try reflexivity. vm_compute. discriminate. Qed.

(** ** The session cache *)







(** * Further properties of the code *)

(** ** The session cookie *)

Section Cookie.
Context {P : Platform}.

Ltac no_cookie :=
  split; [split; [intros [? [=]] | intros [=]] | intros ? [=]].

Ltac with_cookie :=
  split; [split; [reflexivity | intros _; eexists; reflexivity]
         | intros ? [= <-]; reflexivity].

Lemma validate_cookie e n c req db :
  cookie_on_success (fst (ValidateLicense.handler e n c req db)).
Proof.
  unfold ValidateLicense.handler, ValidateLicense.handler_try.
  destruct (negb (method req =? "POST")%string); [no_cookie|].
  unfold return_if, throw_if.
  do 4 (case_if; simpl; [no_cookie|]).
  destruct (ValidateLicense.licenses_of db) as [ls|r|] eqn:Hls; simpl;
    [| destruct db; simpl in Hls; try done; injection Hls as <-; no_cookie | no_cookie].
  destruct (normalize (licenseKey req)) as [k|]; simpl; [|no_cookie].
  destruct (findIndex (key_is k) ls) as [[i|]|]; simpl; [| no_cookie | no_cookie].
  destruct (ls !! i) as [l0|] eqn:Hl0; simpl; [|no_cookie].
  destruct (negb (truthy (activated_on l0))); simpl.
  - destruct (activate c (deviceId req) _ l0) as [l1|r|] eqn:Hact; simpl;
      [| by apply activate_not_return in Hact | no_cookie].
    do 4 (case_if; simpl; [no_cookie|]). with_cookie.
  - do 4 (case_if; simpl; [no_cookie|]). with_cookie.
Qed.

Lemma check_session_cookie e n c req db :
  cookie_on_success (fst (CheckSession.handler e n c req db)).
Proof.
  unfold CheckSession.handler, CheckSession.handler_try.
  destruct (negb (method req =? "POST")%string); [no_cookie|].
  unfold return_if, throw_if.
  do 4 (case_if; simpl; [no_cookie|]).
  destruct (ValidateLicense.licenses_of db) as [ls|r|] eqn:Hls; simpl;
    [| destruct db; simpl in Hls; try done; injection Hls as <-; no_cookie | no_cookie].
  destruct (normalize (licenseKey req)) as [k|]; simpl; [|no_cookie].
  destruct (findIndex (key_is k) ls) as [i|]; simpl; [|no_cookie].
  destruct (at_index ls i) as [l|]; simpl; [|no_cookie].
  do 2 (case_if; simpl; [no_cookie|]). with_cookie.
Qed.

Lemma express_validate_cookie e n c req db :
  cookie_on_success (fst (Express.validate_license e n c req db)).
Proof.
  unfold Express.validate_license, Express.validate_license_try.
  unfold return_if, throw_if.
  case_if; simpl; [no_cookie|].
  destruct (fetchLicenses_cases e n db) as [-> | ->]; simpl; [|no_cookie].
  destruct (findIndex (key_matches (licenseKey req)) (records db)) as [[i|]|]; simpl;
    [| no_cookie | no_cookie].
  destruct (records db !! i) as [l0|] eqn:Hl0; simpl; [|no_cookie].
  destruct (negb (truthy (activated_on l0))); simpl.
  - destruct (activate c (deviceId req) _ l0) as [l1|r|] eqn:Hact; simpl;
      [| by apply activate_not_return in Hact | no_cookie].
    do 3 (case_if; simpl; [no_cookie|]). with_cookie.
  - do 3 (case_if; simpl; [no_cookie|]). with_cookie.
Qed.

Lemma express_check_session_cookie e n c req db :
  cookie_on_success (fst (Express.check_session e n c req db)).
Proof.
  unfold Express.check_session, Express.check_session_try.
  unfold return_if, throw_if.
  case_if; simpl; [no_cookie|].
  destruct (fetchLicenses_cases e n db) as [-> | ->]; simpl; [|no_cookie].
  destruct (find (key_matches (licenseKey req)) (records db)) as [[l|]|]; simpl;
    [| no_cookie | no_cookie].
  do 2 (case_if; simpl; [no_cookie|]). with_cookie.
Qed.

Lemma netlify_check_session_cookie n c req db :
  cookie_on_success (fst (Netlify.handler n c req db)).
Proof.
  unfold Netlify.handler, Netlify.handler_try.
  destruct (negb (method req =? "POST")%string); [no_cookie|].
  unfold return_if, throw_if.
  do 3 (case_if; simpl; [no_cookie|]).
  destruct (Netlify.licenses_of db) as [ls|r|] eqn:Hls; simpl;
    [| by destruct db | no_cookie].
  destruct (find (key_matches (licenseKey req)) ls) as [[l|]|]; simpl;
    [| no_cookie | no_cookie].
  do 3 (case_if; simpl; [no_cookie|]). with_cookie.
Qed.

End Cookie.

(** X1.  Each call to the License Authority (the serverless and the
    Express handlers, and the Netlify [check-session]) sets the
    [flowtik_token] cookie exactly when it answers [valid: true], and
    then with a Max-Age of 86400 seconds; no failure of any kind sets
    it. *)
Theorem cookie_is_set_exactly_on_success `{P : Platform} (op : call) db :
  cookie_on_success (fst (answer_of op db)).
Proof.
  destruct op; simpl.
  - apply validate_cookie.
  - apply check_session_cookie.
  - apply express_validate_cookie.
  - apply express_check_session_cookie.
  - apply netlify_check_session_cookie.
Qed.

(** ** Usage metering *)

Section Metering.
Context {P : Platform}.

(** Below 2^53 a sum of integers is exact. *)
Lemma round_to_double_safe z : Z.abs z <= two53 -> round_to_double z = z.
Proof.
  intros H. unfold round_to_double. by rewrite (proj2 (Z.leb_le _ _) H).
Qed.

Lemma counted_number (l : license) k :
  processed_videos l = VNum k -> - two53 <= k < two53 ->
  counted l = VNum (k + 1).
Proof.
  intros H Hk. unfold counted, js_or. rewrite H. simpl.
  destruct (k =? 0) eqn:E; simpl.
  - apply Z.eqb_eq in E. subst. by rewrite round_to_double_safe.
  - rewrite round_to_double_safe; [done|]. lia.
Qed.

Lemma counted_absent (l : license) :
  truthy (processed_videos l) = false -> counted l = VNum 1.
Proof.
  intros H. unfold counted, js_or. rewrite H. simpl.
  by rewrite round_to_double_safe.
Qed.

(** The answer of the serverless [validate-license] on an activated
    record that passes both guards. *)
Lemma validate_passes e n c req db i l :
  served e n req -> selects req db i l ->
  truthy (activated_on l) = true ->
  truthy (device_hash l) && strict_ne (device_hash l) (deviceId req) = false ->
  truthy (expires_at l) && num_lt (newDate (expires_at l)) (Some (clk_now c)) = false ->
  ValidateLicense.handler e n c req db =
    match put_outcome n with
    | NetOk =>
        ({| status := 200;
            r_body := BValid
              {| s_key := key l;
                 s_plan := js_or (plan l) (VStr "Premium");
                 expiresAt := expires_at l;
                 activatedAt := activated_on l;
                 s_processed_videos := js_or (counted l) (VNum 0);
                 s_processedVideos := VUndef;
                 s_device_name := js_or (device_name l) (VStr "Device not specified");
                 s_deviceName := VUndef;
                 remainingDays := VUndef;
                 s_activated_on := VUndef |};
            set_cookie := Some (session_cookie (key l) (deviceId req) (clk_token c)) |},
         put_licenses (<[i := set_processed_videos (counted l) l]> (records db)))
    | _ =>
        (json 500 (BInvalid (Some "network") (Some "Network error. Please try again.")),
         db)
    end.
Proof.
  intros (Hm & Hk & Hd & He1 & He2 & Hg) Hsel Ha Hdev Hexp.
  pose proof (selects_licenses_of _ _ _ _ Hsel) as Hls.
  destruct Hsel as (k & Hn & Hf & Hl).
  unfold ValidateLicense.handler, ValidateLicense.handler_try.
  rewrite Hm, Hk, Hd, He1, He2, Hg, Hls. simpl.
  rewrite Hn. simpl. rewrite Hf. simpl. rewrite Hl, Ha. simpl.
  rewrite Hdev. simpl. rewrite Hexp. simpl.
  destruct (put_outcome n); simpl; done.
Qed.

(** The answer of the Express route in the same situation. *)
Lemma express_validate_passes e n c req db i l :
  served e n req -> selects req db i l ->
  truthy (activated_on l) = true ->
  truthy (device_hash l) && strict_ne (device_hash l) (deviceId req) = false ->
  truthy (expires_at l) && num_lt (newDate (expires_at l)) (Some (clk_now c)) = false ->
  Express.validate_license e n c req db =
    match put_outcome n with
    | NetRejects => (json 500 (BInvalid (Some "server_error") None), db)
    | o =>
        ({| status := 200;
            r_body := BValid
              {| s_key := key l;
                 s_plan := plan l;
                 expiresAt := expires_at l;
                 activatedAt := activated_on l;
                 s_processed_videos := counted l;
                 s_processedVideos := VUndef;
                 s_device_name := device_name l;
                 s_deviceName := VUndef;
                 remainingDays := VUndef;
                 s_activated_on := VUndef |};
            set_cookie := Some (Express.res_cookie (key l) (deviceId req) (clk_token c)) |},
         match o with
         | NetOk => put_licenses (<[i := set_processed_videos (counted l) l]> (records db))
         | _ => db
         end)
    end.
Proof.
  intros Hs Hsel Ha Hdev Hexp.
  pose proof (selects_fetchLicenses _ _ _ _ _ _ Hs Hsel) as Hls.
  destruct Hs as (Hm & Hk & Hd & He1 & He2 & Hg).
  destruct Hsel as (k & Hn & Hf & Hl).
  unfold Express.validate_license, Express.validate_license_try.
  rewrite Hk, Hd, Hls. simpl.
  rewrite (findIndex_key_matches _ k) by done. rewrite Hf. simpl. rewrite Hl. simpl.
  rewrite Ha. simpl. rewrite Hdev. simpl. rewrite Hexp. simpl.
  destruct (put_outcome n); simpl; done.
Qed.

End Metering.

(** X2.  A successful [validate-license] on an activated record whose
    counter is a number [k] below 2^53 in absolute value, so that [k + 1]
    is exact, answers with [processed_videos] [k + 1] and writes the whole
    collection back with that record's counter set to [k + 1]; the record
    is otherwise unchanged and every other record is written back as it
    was read.  (From 2^53 on, the sum is rounded to a double.) *)
Theorem validate_counts_one_use `{P : Platform} e n c req db i l k :
  served e n req ->
  put_outcome n = NetOk ->
  selects req db i l ->
  truthy (activated_on l) = true ->
  truthy (device_hash l) && strict_ne (device_hash l) (deviceId req) = false ->
  truthy (expires_at l) && num_lt (newDate (expires_at l)) (Some (clk_now c)) = false ->
  processed_videos l = VNum k ->
  - two53 <= k < two53 ->
  exists lic,
    r_body (fst (ValidateLicense.handler e n c req db)) = BValid lic /\
    s_processed_videos lic = VNum (k + 1) /\
    records (snd (ValidateLicense.handler e n c req db)) !! i
      = Some (json_license (set_processed_videos (VNum (k + 1)) l)) /\
    forall j, j <> i ->
      records (snd (ValidateLicense.handler e n c req db)) !! j
        = json_license <$> (records db !! j).
Proof.
  intros Hs Hput Hsel Ha Hdev Hexp Hk Hrange.
  rewrite (validate_passes e n c req db i l) by done.
  rewrite Hput. simpl.
  rewrite (counted_number l k Hk Hrange).
  eexists. split; [reflexivity|]. split.
  { simpl. unfold js_or. simpl. destruct (k + 1 =? 0) eqn:E; simpl; [|done].
    apply Z.eqb_eq in E. by rewrite E. }
  destruct Hsel as (kk & _ & _ & Hl).
  change (map ?f ?x) with (f <$> x). split.
  - rewrite list_lookup_fmap, list_lookup_insert_eq by (by eapply lookup_lt_Some). done.
  - intros j Hj. rewrite list_lookup_fmap, list_lookup_insert_ne by done. done.
Qed.

Lemma validate_counts_one_use_witness :
  (served Scenario.env0 Scenario.online (Scenario.post "abc-1" "dev1") /\
   put_outcome Scenario.online = NetOk /\
   selects (Scenario.post "abc-1" "dev1") Scenario.two_records 1 Scenario.abc1 /\
   truthy (activated_on Scenario.abc1) = true /\
   truthy (device_hash Scenario.abc1)
     && strict_ne (device_hash Scenario.abc1) (VStr "dev1") = false /\
   truthy (expires_at Scenario.abc1)
     && num_lt (newDate (expires_at Scenario.abc1)) (Some (clk_now Scenario.soon))
     = false /\
   processed_videos Scenario.abc1 = VNum 1 /\
   - two53 <= 1 < two53) /\
  exists lic,
    r_body (fst (ValidateLicense.handler Scenario.env0 Scenario.online Scenario.soon
                   (Scenario.post "abc-1" "dev1") Scenario.two_records)) = BValid lic /\
    s_processed_videos lic = VNum (1 + 1) /\
    records (snd (ValidateLicense.handler Scenario.env0 Scenario.online Scenario.soon
                    (Scenario.post "abc-1" "dev1") Scenario.two_records)) !! 1%nat
      = Some (json_license (set_processed_videos (VNum (1 + 1)) Scenario.abc1)) /\
    forall j, j <> 1%nat ->
      records (snd (ValidateLicense.handler Scenario.env0 Scenario.online Scenario.soon
                      (Scenario.post "abc-1" "dev1") Scenario.two_records)) !! j
        = json_license <$> (records Scenario.two_records !! j).
Proof.
  assert (Hs : served Scenario.env0 Scenario.online (Scenario.post "abc-1" "dev1"))
    by (repeat split; reflexivity).
  assert (Hsel : selects (Scenario.post "abc-1" "dev1") Scenario.two_records 1
                   Scenario.abc1)
    by (exists "ABC-1"; repeat split; reflexivity).
  assert (Hr : - two53 <= 1 < two53) by (unfold two53; lia).
  split; [repeat split; try reflexivity; try assumption; apply Hr|].
  apply (validate_counts_one_use Scenario.env0 Scenario.online Scenario.soon
           (Scenario.post "abc-1" "dev1") Scenario.two_records 1%nat Scenario.abc1 1
           Hs eq_refl Hsel); try reflexivity. exact Hr.
Defined.

(** X3.  When the write to the store fails (the request is rejected or
    answered with an error status), the serverless [validate-license]
    answers a request that passed every check with status 500 and the code
    [network]; the store is as it was, so the use is not counted, and no
    cookie is set. *)
Theorem validate_write_failure_is_a_network_error `{P : Platform}
    e n c req db i l :
  served e n req ->
  put_outcome n <> NetOk ->
  selects req db i l ->
  truthy (activated_on l) = true ->
  truthy (device_hash l) && strict_ne (device_hash l) (deviceId req) = false ->
  truthy (expires_at l) && num_lt (newDate (expires_at l)) (Some (clk_now c)) = false ->
  ValidateLicense.handler e n c req db =
    ({| status := 500;
        r_body := BInvalid (Some "network") (Some "Network error. Please try again.");
        set_cookie := None |}, db).
Proof.
  intros Hs Hput Hsel Ha Hdev Hexp.
  rewrite (validate_passes e n c req db i l) by done.
  by destruct (put_outcome n).
Qed.

Lemma validate_write_failure_is_a_network_error_witness :
  (served Scenario.env0 Cases.read_only (Scenario.post "abc-1" "dev1") /\
   put_outcome Cases.read_only <> NetOk /\
   selects (Scenario.post "abc-1" "dev1") Scenario.two_records 1 Scenario.abc1 /\
   truthy (activated_on Scenario.abc1) = true /\
   truthy (device_hash Scenario.abc1)
     && strict_ne (device_hash Scenario.abc1) (VStr "dev1") = false /\
   truthy (expires_at Scenario.abc1)
     && num_lt (newDate (expires_at Scenario.abc1)) (Some (clk_now Scenario.soon))
     = false) /\
  ValidateLicense.handler Scenario.env0 Cases.read_only Scenario.soon
      (Scenario.post "abc-1" "dev1") Scenario.two_records =
    ({| status := 500;
        r_body := BInvalid (Some "network") (Some "Network error. Please try again.");
        set_cookie := None |}, Scenario.two_records).
Proof.
  assert (Hs : served Scenario.env0 Cases.read_only (Scenario.post "abc-1" "dev1"))
    by (repeat split; reflexivity).
  assert (Hput : put_outcome Cases.read_only <> NetOk) by discriminate.
  assert (Hsel : selects (Scenario.post "abc-1" "dev1") Scenario.two_records 1
                   Scenario.abc1)
    by (exists "ABC-1"; repeat split; reflexivity).
  split; [repeat split; try reflexivity; assumption|].
  apply (validate_write_failure_is_a_network_error Scenario.env0 Cases.read_only
           Scenario.soon (Scenario.post "abc-1" "dev1") Scenario.two_records 1%nat
           Scenario.abc1 Hs Hput Hsel); reflexivity.
Defined.

(** X4.  The Express route does not look at the status of the write:
    when the store answers the write with an error status, a request that
    passed every check is still answered [valid: true], with the
    incremented counter and the session cookie, while the store is as it
    was.  Only a rejected write makes it answer 500 [server_error]. *)
Theorem express_validate_ignores_write_status `{P : Platform}
    e n c req db i l :
  served e n req ->
  put_outcome n <> NetOk ->
  selects req db i l ->
  truthy (activated_on l) = true ->
  truthy (device_hash l) && strict_ne (device_hash l) (deviceId req) = false ->
  truthy (expires_at l) && num_lt (newDate (expires_at l)) (Some (clk_now c)) = false ->
  snd (Express.validate_license e n c req db) = db /\
  (put_outcome n = NetNotOk ->
   exists lic,
     fst (Express.validate_license e n c req db) =
       {| status := 200; r_body := BValid lic;
          set_cookie :=
            Some (Express.res_cookie (key l) (deviceId req) (clk_token c)) |} /\
     s_processed_videos lic = counted l) /\
  (put_outcome n = NetRejects ->
   fst (Express.validate_license e n c req db) =
     json 500 (BInvalid (Some "server_error") None)).
Proof.
  intros Hs Hput Hsel Ha Hdev Hexp.
  rewrite (express_validate_passes e n c req db i l) by done.
  destruct (put_outcome n); [done | |]; simpl.
  - split; [reflexivity|]. split; [|intros [=]]. intros _. by eexists.
  - split; [reflexivity|]. split; [intros [=]|]. reflexivity.
Qed.

Lemma express_validate_ignores_write_status_witness :
  (served Scenario.env0 Cases.read_only (Scenario.post "abc-1" "dev1") /\
   put_outcome Cases.read_only <> NetOk /\
   selects (Scenario.post "abc-1" "dev1") Scenario.two_records 1 Scenario.abc1 /\
   truthy (activated_on Scenario.abc1) = true /\
   truthy (device_hash Scenario.abc1)
     && strict_ne (device_hash Scenario.abc1) (VStr "dev1") = false /\
   truthy (expires_at Scenario.abc1)
     && num_lt (newDate (expires_at Scenario.abc1)) (Some (clk_now Scenario.soon))
     = false) /\
  snd (Express.validate_license Scenario.env0 Cases.read_only Scenario.soon
         (Scenario.post "abc-1" "dev1") Scenario.two_records) = Scenario.two_records /\
  (put_outcome Cases.read_only = NetNotOk ->
   exists lic,
     fst (Express.validate_license Scenario.env0 Cases.read_only Scenario.soon
            (Scenario.post "abc-1" "dev1") Scenario.two_records) =
       {| status := 200; r_body := BValid lic;
          set_cookie :=
            Some (Express.res_cookie (key Scenario.abc1) (VStr "dev1")
                    (clk_token Scenario.soon)) |} /\
     s_processed_videos lic = counted Scenario.abc1) /\
  (put_outcome Cases.read_only = NetRejects ->
   fst (Express.validate_license Scenario.env0 Cases.read_only Scenario.soon
          (Scenario.post "abc-1" "dev1") Scenario.two_records) =
     json 500 (BInvalid (Some "server_error") None)).
Proof.
  assert (Hs : served Scenario.env0 Cases.read_only (Scenario.post "abc-1" "dev1"))
    by (repeat split; reflexivity).
  assert (Hput : put_outcome Cases.read_only <> NetOk) by discriminate.
  assert (Hsel : selects (Scenario.post "abc-1" "dev1") Scenario.two_records 1
                   Scenario.abc1)
    by (exists "ABC-1"; repeat split; reflexivity).
  split; [repeat split; try reflexivity; assumption|].
  apply (express_validate_ignores_write_status Scenario.env0 Cases.read_only
           Scenario.soon (Scenario.post "abc-1" "dev1") Scenario.two_records 1%nat
           Scenario.abc1 Hs Hput Hsel); reflexivity.
Defined.

(** ** The usage counter under any sequence of calls *)

Section Counter.
Context {P : Platform}.

Lemma validate_counts_one e n c req db :
  counts_one db (snd (ValidateLicense.handler e n c req db)).
Proof.
  unfold ValidateLicense.handler, ValidateLicense.handler_try.
  destruct (negb (method req =? "POST")%string); [by left|].
  unfold return_if, throw_if.
  do 4 (case_if; simpl; [by left|]).
  destruct (ValidateLicense.licenses_of db) as [ls|r|] eqn:Hls; simpl;
    [| destruct db; simpl in Hls; try done; injection Hls as <-; by left | by left].
  assert (Hrec : ls = records db) by (destruct db; simpl in Hls; by simplify_eq).
  destruct (normalize (licenseKey req)) as [k|]; simpl; [|by left].
  destruct (findIndex (key_is k) ls) as [[i|]|]; simpl; [| by left | by left].
  destruct (ls !! i) as [l0|] eqn:Hl0; simpl; [|by left].
  destruct (truthy (activated_on l0)) eqn:Ha; simpl.
  - do 4 (case_if; simpl; [by left|]).
    right. exists i, l0. eexists. subst ls. repeat split; eauto.
  - destruct (activate c (deviceId req) _ l0) as [l1|r|] eqn:Hact; simpl;
      [| by apply activate_not_return in Hact | by left].
    do 4 (case_if; simpl; [by left|]).
    right. exists i, l0. eexists. subst ls. repeat split; eauto.
    + simpl. by eapply activate_key.
    + congruence.
Qed.

Lemma express_validate_counts_one e n c req db :
  counts_one db (snd (Express.validate_license e n c req db)).
Proof.
  unfold Express.validate_license, Express.validate_license_try.
  unfold return_if, throw_if.
  case_if; simpl; [by left|].
  destruct (fetchLicenses_cases e n db) as [-> | ->]; simpl; [|by left].
  destruct (findIndex (key_matches (licenseKey req)) (records db)) as [[i|]|]; simpl;
    [| by left | by left].
  destruct (records db !! i) as [l0|] eqn:Hl0; simpl; [|by left].
  destruct (truthy (activated_on l0)) eqn:Ha; simpl.
  - do 3 (case_if; simpl; [by left|]).
    destruct (bool_decide (put_outcome n = NetOk)); [|by left].
    right. exists i, l0. eexists. repeat split; eauto.
  - destruct (activate c (deviceId req) _ l0) as [l1|r|] eqn:Hact; simpl;
      [| by apply activate_not_return in Hact | by left].
    do 3 (case_if; simpl; [by left|]).
    destruct (bool_decide (put_outcome n = NetOk)); [|by left].
    right. exists i, l0. eexists. repeat split; eauto.
    + simpl. by eapply activate_key.
    + congruence.
Qed.

Lemma answer_counts_one op db : counts_one db (snd (answer_of op db)).
Proof.
  destruct op; simpl.
  - apply validate_counts_one.
  - left. apply check_session_store.
  - apply express_validate_counts_one.
  - left. apply express_check_session_store.
  - left. apply netlify_check_session_store.
Qed.

Lemma counts_one_step db db' i l k :
  counts_one db db' ->
  records db !! i = Some l ->
  truthy (activated_on l) = true ->
  processed_videos l = VNum k ->
  - two53 <= k < two53 ->
  exists l' m,
    records db' !! i = Some l' /\
    truthy (activated_on l') = true /\
    processed_videos l' = VNum m /\
    k <= m <= k + 1.
Proof.
  intros [-> | (j & l0 & l' & Hl0 & -> & Hk & Hact)] Hl Ha Hpv Hrange.
  { exists l, k. repeat split; try done; lia. }
  simpl. change (map ?f ?x) with (f <$> x). rewrite list_lookup_fmap.
  destruct (decide (j = i)) as [-> | Hne].
  - rewrite list_lookup_insert_eq by (by eapply lookup_lt_Some).
    assert (l0 = l) as -> by congruence.
    rewrite (Hact Ha), (counted_number l k Hpv Hrange).
    eexists _, (k + 1). split; [reflexivity|]. simpl. rewrite truthy_json_val.
    repeat split; try done; lia.
  - rewrite list_lookup_insert_ne by done. rewrite Hl.
    eexists _, k. split; [reflexivity|]. simpl. rewrite truthy_json_val, Hpv.
    repeat split; try done; lia.
Qed.

End Counter.

(** X5.  As long as it stays below 2^53, where counting is exact, the
    usage counter of an activated record never goes down and grows by at
    most one per call: if it is the number [k], at least -2^53, and [k]
    plus the number of calls is at most 2^53, then after any sequence of
    calls to the License Authority (the serverless and the Express
    handlers, and the Netlify [check-session]), whatever their arguments
    and outcomes, the record is still activated and its counter is a
    number between [k] and [k] plus the number of calls. *)
Theorem usage_counter_is_monotone `{P : Platform} ops db i l k :
  records db !! i = Some l ->
  truthy (activated_on l) = true ->
  processed_videos l = VNum k ->
  - two53 <= k ->
  k + Z.of_nat (length ops) <= two53 ->
  exists l' m,
    records (run db ops) !! i = Some l' /\
    truthy (activated_on l') = true /\
    processed_videos l' = VNum m /\
    k <= m <= k + Z.of_nat (length ops).
Proof.
  revert db l k. induction ops as [|op ops IH]; intros db l k Hl Ha Hk Hlo Hhi.
  { exists l, k. simpl. repeat split; try done; lia. }
  simpl length in Hhi.
  assert (Hrange : - two53 <= k < two53) by lia.
  destruct (counts_one_step db (snd (answer_of op db)) i l k
              (answer_counts_one op db) Hl Ha Hk Hrange)
    as (l1 & m1 & Hl1 & Ha1 & Hk1 & Hm1).
  destruct (IH _ l1 m1 Hl1 Ha1 Hk1) as (l' & m & Hl' & Ha' & Hk' & Hm); [lia..|].
  exists l', m. unfold run in *. simpl. repeat split; try done.
  - lia.
  - simpl length. lia.
Qed.

Lemma usage_counter_is_monotone_witness :
  (records Scenario.two_records !! 1%nat = Some Scenario.abc1 /\
   truthy (activated_on Scenario.abc1) = true /\
   processed_videos Scenario.abc1 = VNum 1 /\
   - two53 <= 1 /\
   1 + Z.of_nat (length Scenario.some_calls) <= two53) /\
  exists l' m,
    records (run Scenario.two_records Scenario.some_calls) !! 1%nat = Some l' /\
    truthy (activated_on l') = true /\
    processed_videos l' = VNum m /\
    1 <= m <= 1 + Z.of_nat (length Scenario.some_calls).
Proof.
  assert (Hlo : - two53 <= 1) by (unfold two53; lia).
  assert (Hhi : 1 + Z.of_nat (length Scenario.some_calls) <= two53)
    by (vm_compute; discriminate).
  split; [repeat split; try reflexivity; assumption|].
  apply (usage_counter_is_monotone Scenario.some_calls Scenario.two_records 1%nat
           Scenario.abc1 1); try reflexivity; assumption.
Defined.

(** ** First activation *)

Section Activation.
Context {P : Platform}.


(** What a successful [validate-license] leaves in the store for a
    record that was not activated. *)
Lemma validate_activation_stored e n c req db i l :
  served e n req -> selects req db i l ->
  truthy (activated_on l) = false ->
  body_valid (r_body (fst (ValidateLicense.handler e n c req db))) = VBool true ->
  exists l1,
    records (snd (ValidateLicense.handler e n c req db)) !! i = Some l1 /\
    key l1 = json_val (key l) /\
    activated_on l1 = VStr (toISOString (clk_now c)) /\
    device_hash l1 = deviceId req /\
    device_name l1 =
      VStr (simplifyUserAgent (js_or (user_agent req) (VStr "Unknown Device"))) /\
    processed_videos l1 = VNum 1.
Proof.
  intros (Hm & Hk & Hd & He1 & He2 & Hg) Hsel Ha.
  pose proof (selects_licenses_of _ _ _ _ Hsel) as Hls.
  destruct Hsel as (k & Hn & Hf & Hl).
  unfold ValidateLicense.handler, ValidateLicense.handler_try.
  rewrite Hm, Hk, Hd, He1, He2, Hg, Hls. simpl.
  rewrite Hn. simpl. rewrite Hf. simpl. rewrite Hl, Ha. simpl.
  destruct (activate c (deviceId req) _ l) as [l1|r|] eqn:Hact; simpl;
    [| by apply activate_not_return in Hact | done].
  destruct (activate_fields _ _ _ _ _ Hact) as (Hk1 & Ha1 & Hd1 & Hn1 & Hp1).
  unfold return_if, throw_if.
  do 4 (case_if; simpl; [done|]). intros _.
  change (map ?f ?x) with (f <$> x).
  rewrite list_lookup_fmap, list_lookup_insert_eq by (by eapply lookup_lt_Some).
  eexists. split; [reflexivity|]. simpl.
  rewrite Hk1, Ha1, Hd1, Hn1, Hp1. simpl.
  repeat split; try done. by apply json_val_truthy.
Qed.

End Activation.

(** X6.  A successful [validate-license] on a record that is not yet
    activated stores it activated at the time of the request, bound to the
    device of the request, labelled after the User-Agent and with a usage
    counter of 1; from then on the record stays bound to that device
    under any sequence of calls, and [validate-license] from any other
    device is answered [deviceMismatch]. *)
Theorem first_activation_binds_the_device `{P : Platform}
    ops e n c req db i l e' n' c' req' :
  served e n req ->
  selects req db i l ->
  truthy (activated_on l) = false ->
  toISOString (clk_now c) <> "" ->
  body_valid (r_body (fst (ValidateLicense.handler e n c req db))) = VBool true ->
  served e' n' req' ->
  normalize (licenseKey req') = normalize (licenseKey req) ->
  strict_ne (deviceId req) (deviceId req') = true ->
  (exists l1,
     records (snd (ValidateLicense.handler e n c req db)) !! i = Some l1 /\
     activated_on l1 = VStr (toISOString (clk_now c)) /\
     device_hash l1 = deviceId req /\
     device_name l1 =
       VStr (simplifyUserAgent (js_or (user_agent req) (VStr "Unknown Device"))) /\
     processed_videos l1 = VNum 1) /\
  locked (deviceId req) i (run (snd (ValidateLicense.handler e n c req db)) ops) /\
  body_error (r_body (fst (ValidateLicense.handler e' n' c' req'
     (run (snd (ValidateLicense.handler e n c req db)) ops)))) = VStr "deviceMismatch".
Proof.
  intros Hs Hsel Ha Hiso Hv Hs' Hkey Hne.
  destruct (validate_activation_stored e n c req db i l Hs Hsel Ha Hv)
    as (l1 & Hl1 & Hk1 & Ha1 & Hd1 & Hn1 & Hp1).
  assert (Hdev : truthy (deviceId req) = true) by (by destruct Hs as (_ & _ & ? & _)).
  assert (Hact1 : truthy (activated_on l1) = true).
  { rewrite Ha1. simpl. destruct (toISOString (clk_now c)); done. }
  set (db1 := snd (ValidateLicense.handler e n c req db)) in *.
  assert (Hlock : locked (deviceId req) i (run db1 ops)).
  { apply run_locked; [done|]. by exists l1. }
  split; [by exists l1|]. split; [done|].
  destruct Hlock as (l2 & Hl2 & Ha2 & Hd2).
  assert (Hkeys : norm_keys (run db1 ops) = norm_keys db).
  { rewrite run_norm_keys. apply rewrites_one_norm_keys, validate_rewrites_one. }
  assert (Hsel2 : selects req' (run db1 ops) i l2).
  { destruct Hsel as (k & Hn & Hf & Hl).
    eapply (selects_norm_keys req' db); eauto.
    exists k. by rewrite Hkey. }
  erewrite validate_mismatch; eauto; by rewrite Hd2.
Qed.

Lemma first_activation_binds_the_device_witness :
  (served Scenario.env0 Scenario.online (Scenario.post "abc-1" "dev1") /\
   selects (Scenario.post "abc-1" "dev1") Cases.fresh_store 0
     (Scenario.unactivated "ABC-1" 30) /\
   truthy (activated_on (Scenario.unactivated "ABC-1" 30)) = false /\
   string_of_Z Scenario.t0 <> "" /\
   body_valid (r_body (fst (ValidateLicense.handler Scenario.env0 Scenario.online
     (Scenario.at_time Scenario.t0) (Scenario.post "abc-1" "dev1") Cases.fresh_store)))
     = VBool true /\
   served Scenario.env0 Scenario.online (Scenario.post " ABC-1 " "dev2") /\
   normalize (VStr " ABC-1 ") = normalize (VStr "abc-1") /\
   strict_ne (VStr "dev1") (VStr "dev2") = true) /\
  (exists l1,
     records (snd (ValidateLicense.handler Scenario.env0 Scenario.online
       (Scenario.at_time Scenario.t0) (Scenario.post "abc-1" "dev1")
       Cases.fresh_store)) !! 0%nat = Some l1 /\
     activated_on l1 = VStr (string_of_Z Scenario.t0) /\
     device_hash l1 = VStr "dev1" /\
     device_name l1 =
       VStr (simplifyUserAgent
               (js_or (user_agent (Scenario.post "abc-1" "dev1"))
                      (VStr "Unknown Device"))) /\
     processed_videos l1 = VNum 1) /\
  locked (VStr "dev1") 0
    (run (snd (ValidateLicense.handler Scenario.env0 Scenario.online
       (Scenario.at_time Scenario.t0) (Scenario.post "abc-1" "dev1")
       Cases.fresh_store)) Cases.later_calls) /\
  body_error (r_body (fst (ValidateLicense.handler Scenario.env0 Scenario.online
     Scenario.soon (Scenario.post " ABC-1 " "dev2")
     (run (snd (ValidateLicense.handler Scenario.env0 Scenario.online
        (Scenario.at_time Scenario.t0) (Scenario.post "abc-1" "dev1")
        Cases.fresh_store)) Cases.later_calls)))) = VStr "deviceMismatch".
Proof.
  assert (Hs : served Scenario.env0 Scenario.online (Scenario.post "abc-1" "dev1"))
    by (repeat split; reflexivity).
  assert (Hs' : served Scenario.env0 Scenario.online (Scenario.post " ABC-1 " "dev2"))
    by (repeat split; reflexivity).
  assert (Hsel : selects (Scenario.post "abc-1" "dev1") Cases.fresh_store 0
                   (Scenario.unactivated "ABC-1" 30))
    by (exists "ABC-1"; repeat split; reflexivity).
  assert (Hiso : string_of_Z Scenario.t0 <> "") by (vm_compute; discriminate).
  split; [repeat split; try reflexivity; assumption|].
  apply (first_activation_binds_the_device (P := EpochPlatform.platform)
           Cases.later_calls Scenario.env0 Scenario.online
           (Scenario.at_time Scenario.t0) (Scenario.post "abc-1" "dev1")
           Cases.fresh_store 0%nat (Scenario.unactivated "ABC-1" 30)
           Scenario.env0 Scenario.online Scenario.soon
           (Scenario.post " ABC-1 " "dev2") Hs Hsel eq_refl Hiso eq_refl Hs');
    reflexivity.
Defined.

(** ** Blank keys *)

Section BlankKey.
Context {P : Platform}.

Lemma validate_found_is_not_invalidLicense e n c req db i l :
  served e n req -> selects req db i l ->
  body_error (r_body (fst (ValidateLicense.handler e n c req db)))
    <> VStr "invalidLicense".
Proof.
  intros (Hm & Hk & Hd & He1 & He2 & Hg) Hsel.
  pose proof (selects_licenses_of _ _ _ _ Hsel) as Hls.
  destruct Hsel as (k & Hn & Hf & Hl).
  unfold ValidateLicense.handler, ValidateLicense.handler_try.
  rewrite Hm, Hk, Hd, He1, He2, Hg, Hls. simpl.
  rewrite Hn. simpl. rewrite Hf. simpl. rewrite Hl. simpl.
  destruct (negb (truthy (activated_on l))); simpl.
  - destruct (activate c (deviceId req) _ l) as [l1|r|] eqn:Hact; simpl;
      [| by apply activate_not_return in Hact | done].
    unfold return_if, throw_if.
    do 4 (case_if; simpl; [done|]). done.
  - unfold return_if, throw_if.
    do 4 (case_if; simpl; [done|]). done.
Qed.

End BlankKey.

(** X7.  A license key made of white space only is not refused by the
    server: it is truthy, normalises to the empty key, and so selects the
    first record of the store whose own key is missing, empty or blank.
    [validate-license] then handles that record like any other, it never
    answers [invalidLicense]; if the record is not activated and the
    answer is a success, the record is stored activated and bound to the
    caller's device. *)
Theorem blank_key_selects_a_keyless_record `{P : Platform}
    e n c req db i l s :
  served e n req ->
  licenseKey req = VStr s ->
  trim s = "" ->
  findIndex (key_is "") (records db) = Some (Some i) ->
  records db !! i = Some l ->
  selects req db i l /\
  body_error (r_body (fst (ValidateLicense.handler e n c req db)))
    <> VStr "invalidLicense" /\
  (truthy (activated_on l) = false ->
   body_valid (r_body (fst (ValidateLicense.handler e n c req db))) = VBool true ->
   exists l1,
     records (snd (ValidateLicense.handler e n c req db)) !! i = Some l1 /\
     activated_on l1 = VStr (toISOString (clk_now c)) /\
     device_hash l1 = deviceId req).
Proof.
  intros Hs Hkey Htrim Hf Hl.
  assert (Hsel : selects req db i l).
  { exists "". split; [|done]. rewrite Hkey. unfold normalize.
    destruct Hs as (_ & Ht & _). rewrite Hkey in Ht. rewrite Ht.
    by rewrite Htrim, (toUpperCase_ascii "" eq_refl). }
  split; [done|]. split; [by eapply validate_found_is_not_invalidLicense|].
  intros Ha Hv.
  destruct (validate_activation_stored e n c req db i l Hs Hsel Ha Hv)
    as (l1 & Hl1 & _ & Ha1 & Hd1 & _).
  by exists l1.
Qed.

Lemma blank_key_selects_a_keyless_record_witness :
  (served Scenario.env0 Scenario.online (Scenario.post "   " "dev9") /\
   trim "   " = "" /\
   findIndex (key_is "") (records Cases.keyless_store) = Some (Some 0%nat)) /\
  (exists l,
     records Cases.keyless_store !! 0%nat = Some l /\
     selects (Scenario.post "   " "dev9") Cases.keyless_store 0 l /\
     body_error (r_body (fst (ValidateLicense.handler Scenario.env0 Scenario.online
       Scenario.soon (Scenario.post "   " "dev9") Cases.keyless_store)))
       <> VStr "invalidLicense" /\
     (truthy (activated_on l) = false ->
      body_valid (r_body (fst (ValidateLicense.handler Scenario.env0 Scenario.online
        Scenario.soon (Scenario.post "   " "dev9") Cases.keyless_store))) = VBool true ->
      exists l1,
        records (snd (ValidateLicense.handler Scenario.env0 Scenario.online
          Scenario.soon (Scenario.post "   " "dev9") Cases.keyless_store)) !! 0%nat
          = Some l1 /\
        activated_on l1 = VStr (string_of_Z (clk_now Scenario.soon)) /\
        device_hash l1 = VStr "dev9")).
Proof.
  assert (Hs : served Scenario.env0 Scenario.online (Scenario.post "   " "dev9"))
    by (repeat split; reflexivity).
  split; [repeat split; try reflexivity; assumption|].
  eexists. split; [reflexivity|].
  exact (blank_key_selects_a_keyless_record (P := EpochPlatform.platform)
           Scenario.env0 Scenario.online Scenario.soon (Scenario.post "   " "dev9")
           Cases.keyless_store 0%nat _ "   " Hs eq_refl eq_refl eq_refl eq_refl).
Defined.

(** ** A license without expiry *)

(** X8.  The two operations disagree on a record whose [expires_at] is
    [null].  [validate-license] skips the expiry guard on it and, the
    other checks passing and the write succeeding, answers [valid: true];
    [check-session] has no such test, reads [new Date(null)] as the epoch
    and answers [expired] at any time after 1970, on the serverless
    handler and on the Express and Netlify deployments alike. *)
Theorem null_expiry_passes_validate_fails_check `{P : Platform}
    e n c req db i l :
  served e n req ->
  put_outcome n = NetOk ->
  selects req db i l ->
  truthy (activated_on l) = true ->
  strict_eq (device_hash l) (deviceId req) = true ->
  expires_at l = VNull ->
  0 < clk_now c ->
  body_valid (r_body (fst (ValidateLicense.handler e n c req db))) = VBool true /\
  body_error (r_body (fst (CheckSession.handler e n c req db))) = VStr "expired" /\
  body_error (r_body (fst (Express.check_session e n c req db))) = VStr "expired" /\
  body_error (r_body (fst (Netlify.handler n c req db))) = VStr "expired".
Proof.
  intros Hs Hput Hsel Ha Heq Hx Hnow.
  assert (Hlt : num_lt (newDate (expires_at l)) (Some (clk_now c)) = true).
  { rewrite Hx. simpl. by apply Z.ltb_lt. }
  split; [|split; [|split]].
  - rewrite (validate_passes e n c req db i l); try done.
    + by rewrite Hput.
    + unfold strict_ne. rewrite Heq. apply andb_false_r.
    + by rewrite Hx.
  - by erewrite check_session_expired.
  - pose proof (selects_fetchLicenses _ _ _ _ _ _ Hs Hsel) as Hls.
    destruct Hs as (Hm & Hk & Hd & He1 & He2 & Hg).
    destruct Hsel as (k & Hn & Hf & Hl).
    unfold Express.check_session, Express.check_session_try.
    rewrite Hk, Hd, Hls. simpl.
    rewrite (find_findIndex _ _ i l); [| by rewrite (findIndex_key_matches _ k) | done].
    simpl. unfold strict_ne. rewrite Heq. simpl. by rewrite Hlt.
  - pose proof (selects_netlify_licenses_of _ _ _ _ Hsel) as Hls.
    destruct Hs as (Hm & Hk & Hd & He1 & He2 & Hg).
    destruct Hsel as (k & Hn & Hf & Hl).
    unfold Netlify.handler, Netlify.handler_try.
    rewrite Hm, Hk, Hd, Hg, Hls. simpl.
    rewrite (find_findIndex _ _ i l); [| by rewrite (findIndex_key_matches _ k) | done].
    simpl. unfold strict_ne. rewrite Heq. simpl. by rewrite Hlt.
Qed.

Lemma null_expiry_passes_validate_fails_check_witness :
  (served Scenario.env0 Scenario.online (Scenario.post "abc-1" "dev1") /\
   put_outcome Scenario.online = NetOk /\
   selects (Scenario.post "abc-1" "dev1") (RecordLicenses [Cases.abc1_forever]) 0
     Cases.abc1_forever /\
   truthy (activated_on Cases.abc1_forever) = true /\
   strict_eq (device_hash Cases.abc1_forever) (VStr "dev1") = true /\
   expires_at Cases.abc1_forever = VNull /\
   0 < clk_now Scenario.soon) /\
  body_valid (r_body (fst (ValidateLicense.handler Scenario.env0 Scenario.online
     Scenario.soon (Scenario.post "abc-1" "dev1")
     (RecordLicenses [Cases.abc1_forever])))) = VBool true /\
  body_error (r_body (fst (CheckSession.handler Scenario.env0 Scenario.online
     Scenario.soon (Scenario.post "abc-1" "dev1")
     (RecordLicenses [Cases.abc1_forever])))) = VStr "expired" /\
  body_error (r_body (fst (Express.check_session Scenario.env0 Scenario.online
     Scenario.soon (Scenario.post "abc-1" "dev1")
     (RecordLicenses [Cases.abc1_forever])))) = VStr "expired" /\
  body_error (r_body (fst (Netlify.handler Scenario.online
     Scenario.soon (Scenario.post "abc-1" "dev1")
     (RecordLicenses [Cases.abc1_forever])))) = VStr "expired".
Proof.
  assert (Hs : served Scenario.env0 Scenario.online (Scenario.post "abc-1" "dev1"))
    by (repeat split; reflexivity).
  assert (Hsel : selects (Scenario.post "abc-1" "dev1")
                   (RecordLicenses [Cases.abc1_forever]) 0 Cases.abc1_forever)
    by (exists "ABC-1"; repeat split; reflexivity).
  split; [repeat split; try reflexivity; assumption|].
  apply (null_expiry_passes_validate_fails_check Scenario.env0 Scenario.online
           Scenario.soon (Scenario.post "abc-1" "dev1")
           (RecordLicenses [Cases.abc1_forever]) 0%nat Cases.abc1_forever
           Hs eq_refl Hsel); reflexivity.
Defined.

(** ** A successful session check *)

(** X9.  When the serverless [check-session] answers [valid: true] for
    the record the key selects, the record is bound to exactly the device
    of the request and is not past its expiry; the answer carries the
    record's key and dates and renews the cookie.  If [expires_at] denotes
    the time [x], then [x] is not before now and [remainingDays] is the
    ceiling of [(x - now) / 1 day]: never negative, and 0 only when the
    license expires at this very millisecond.  If [expires_at] is not a
    date, [remainingDays] is NaN. *)
Theorem check_session_success `{P : Platform} e n c req db i l :
  served e n req ->
  selects req db i l ->
  body_valid (r_body (fst (CheckSession.handler e n c req db))) = VBool true ->
  strict_eq (device_hash l) (deviceId req) = true /\
  exists lic,
    fst (CheckSession.handler e n c req db) =
      {| status := 200; r_body := BValid lic;
         set_cookie := Some (session_cookie (key l) (deviceId req) (clk_token c)) |} /\
    s_key lic = key l /\
    expiresAt lic = expires_at l /\
    s_activated_on lic = activated_on l /\
    match newDate (expires_at l) with
    | Some x =>
        clk_now c <= x /\
        exists d, remainingDays lic = VNum d /\
                  (d - 1) * msPerDay < x - clk_now c <= d * msPerDay /\
                  0 <= d /\ (d = 0 <-> x = clk_now c)
    | None => remainingDays lic = VNaN
    end.
Proof.
  intros (Hm & Hk & Hd & He1 & He2 & Hg) Hsel.
  pose proof (selects_licenses_of _ _ _ _ Hsel) as Hls.
  destruct Hsel as (k & Hn & Hf & Hl).
  unfold CheckSession.handler, CheckSession.handler_try.
  rewrite Hm, Hk, Hd, He1, He2, Hg, Hls. simpl.
  rewrite Hn. simpl. rewrite Hf. simpl. rewrite Hl. simpl.
  unfold return_if, strict_ne.
  destruct (strict_eq (device_hash l) (deviceId req)) eqn:Heq; simpl; [|done].
  destruct (num_lt (newDate (expires_at l)) (Some (clk_now c))) eqn:Hlt; simpl; [done|].
  intros _. split; [done|]. eexists. split; [reflexivity|]. simpl.
  repeat split.
  unfold days_between. change (1000 * 60 * 60 * 24) with msPerDay.
  destruct (newDate (expires_at l)) as [x|]; simpl in *; [|done].
  apply Z.ltb_ge in Hlt. split; [done|].
  pose proof (ceil_div_spec (x - clk_now c) msPerDay eq_refl) as Hq.
  eexists. split; [reflexivity|]. split; [done|].
  unfold msPerDay in *. split; [lia|]. split; intros; lia.
Qed.

Lemma check_session_success_witness :
  (served Scenario.env0 Scenario.online (Scenario.post "abc-1" "dev1") /\
   selects (Scenario.post "abc-1" "dev1") Scenario.two_records 1 Scenario.abc1 /\
   body_valid (r_body (fst (CheckSession.handler Scenario.env0 Scenario.online
     Scenario.soon (Scenario.post "abc-1" "dev1") Scenario.two_records)))
     = VBool true) /\
  strict_eq (device_hash Scenario.abc1) (VStr "dev1") = true /\
  exists lic,
    fst (CheckSession.handler Scenario.env0 Scenario.online Scenario.soon
           (Scenario.post "abc-1" "dev1") Scenario.two_records) =
      {| status := 200; r_body := BValid lic;
         set_cookie := Some (session_cookie (key Scenario.abc1) (VStr "dev1")
                               (clk_token Scenario.soon)) |} /\
    s_key lic = key Scenario.abc1 /\
    expiresAt lic = expires_at Scenario.abc1 /\
    s_activated_on lic = activated_on Scenario.abc1 /\
    match newDate (expires_at Scenario.abc1) with
    | Some x =>
        clk_now Scenario.soon <= x /\
        exists d, remainingDays lic = VNum d /\
                  (d - 1) * msPerDay < x - clk_now Scenario.soon <= d * msPerDay /\
                  0 <= d /\ (d = 0 <-> x = clk_now Scenario.soon)
    | None => remainingDays lic = VNaN
    end.
Proof.
  assert (Hs : served Scenario.env0 Scenario.online (Scenario.post "abc-1" "dev1"))
    by (repeat split; reflexivity).
  assert (Hsel : selects (Scenario.post "abc-1" "dev1") Scenario.two_records 1
                   Scenario.abc1)
    by (exists "ABC-1"; repeat split; reflexivity).
  split; [repeat split; try reflexivity; assumption|].
  exact (check_session_success (P := EpochPlatform.platform) Scenario.env0
           Scenario.online Scenario.soon (Scenario.post "abc-1" "dev1")
           Scenario.two_records 1%nat Scenario.abc1 Hs Hsel eq_refl).
Defined.

(** ** Keys are compared without case and surrounding white space *)

Lemma is_ascii_trim_start s : is_ascii s = true -> is_ascii (trim_start s) = true.
Proof.
  induction s as [|c s IH]; simpl; [done|].
  intros [Hc Hs]%andb_true_iff. destruct (is_space c); [by apply IH|].
  simpl. by rewrite Hc, Hs.
Qed.

Lemma is_ascii_rev_string acc s :
  is_ascii acc = true -> is_ascii s = true -> is_ascii (rev_string acc s) = true.
Proof.
  revert acc. induction s as [|c s IH]; intros acc Ha; simpl; [done|].
  intros [Hc Hs]%andb_true_iff. apply IH; [|done]. simpl. by rewrite Hc, Ha.
Qed.

Lemma is_ascii_ascii_trim s : is_ascii s = true -> is_ascii (ascii_trim s) = true.
Proof.
  intros H. unfold ascii_trim, trim_end.
  apply is_ascii_rev_string; [done|]. apply is_ascii_trim_start.
  apply is_ascii_rev_string; [done|]. by apply is_ascii_trim_start.
Qed.

Section KeyLookup.
Context {P : Platform}.

Lemma normalize_string s :
  s <> "" -> normalize (VStr s) = Some (toUpperCase (trim s)).
Proof. intros H. unfold normalize. simpl. by destruct s. Qed.

(** The normal form of a key of ASCII characters, on any runtime *)
Lemma normalize_ascii s :
  is_ascii s = true ->
  toUpperCase (trim s) = ascii_toUpperCase (ascii_trim s).
Proof.
  intros H. rewrite (trim_ascii s H).
  apply toUpperCase_ascii. by apply is_ascii_ascii_trim.
Qed.

Lemma key_matches_ext (k k' : jsval) :
  normalize k = normalize k' -> key_matches k = key_matches k'.
Proof. intros H. unfold key_matches. by rewrite H. Qed.

Lemma validate_key_ext e n c db m d ua (k k' : jsval) :
  truthy k = truthy k' -> normalize k = normalize k' ->
  ValidateLicense.handler e n c
    {| method := m; licenseKey := k; deviceId := d; user_agent := ua |} db =
  ValidateLicense.handler e n c
    {| method := m; licenseKey := k'; deviceId := d; user_agent := ua |} db.
Proof.
  intros Ht Hn. unfold ValidateLicense.handler, ValidateLicense.handler_try.
  cbn [method licenseKey deviceId user_agent]. by rewrite Ht, Hn.
Qed.

Lemma check_session_key_ext e n c db m d ua (k k' : jsval) :
  truthy k = truthy k' -> normalize k = normalize k' ->
  CheckSession.handler e n c
    {| method := m; licenseKey := k; deviceId := d; user_agent := ua |} db =
  CheckSession.handler e n c
    {| method := m; licenseKey := k'; deviceId := d; user_agent := ua |} db.
Proof.
  intros Ht Hn. unfold CheckSession.handler, CheckSession.handler_try.
  cbn [method licenseKey deviceId user_agent]. by rewrite Ht, Hn.
Qed.

Lemma express_validate_key_ext e n c db m d ua (k k' : jsval) :
  truthy k = truthy k' -> normalize k = normalize k' ->
  Express.validate_license e n c
    {| method := m; licenseKey := k; deviceId := d; user_agent := ua |} db =
  Express.validate_license e n c
    {| method := m; licenseKey := k'; deviceId := d; user_agent := ua |} db.
Proof.
  intros Ht Hn. unfold Express.validate_license, Express.validate_license_try.
  cbn [method licenseKey deviceId user_agent].
  by rewrite Ht, (key_matches_ext k k' Hn).
Qed.

Lemma express_check_session_key_ext e n c db m d ua (k k' : jsval) :
  truthy k = truthy k' -> normalize k = normalize k' ->
  Express.check_session e n c
    {| method := m; licenseKey := k; deviceId := d; user_agent := ua |} db =
  Express.check_session e n c
    {| method := m; licenseKey := k'; deviceId := d; user_agent := ua |} db.
Proof.
  intros Ht Hn. unfold Express.check_session, Express.check_session_try.
  cbn [method licenseKey deviceId user_agent].
  by rewrite Ht, (key_matches_ext k k' Hn).
Qed.

End KeyLookup.

(** X10.  The License Authority compares keys after trimming and
    upper-casing them, as the runtime does both.  Two requests that
    differ only in their keys, both non-empty strings with the same
    trimmed and upper-cased form, get the same answer and leave the same
    store, from [validate-license] as from [check-session], on the
    serverless handlers and on the Express routes.  For a key of ASCII
    characters that form does not depend on the runtime: white space is
    removed at both ends and the letters a-z are capitalised. *)
Theorem keys_match_up_to_case_and_padding `{P : Platform}
    e n c db m d ua s s' :
  s <> "" ->
  s' <> "" ->
  toUpperCase (trim s) = toUpperCase (trim s') ->
  ValidateLicense.handler e n c
    {| method := m; licenseKey := VStr s; deviceId := d; user_agent := ua |} db =
  ValidateLicense.handler e n c
    {| method := m; licenseKey := VStr s'; deviceId := d; user_agent := ua |} db /\
  CheckSession.handler e n c
    {| method := m; licenseKey := VStr s; deviceId := d; user_agent := ua |} db =
  CheckSession.handler e n c
    {| method := m; licenseKey := VStr s'; deviceId := d; user_agent := ua |} db /\
  Express.validate_license e n c
    {| method := m; licenseKey := VStr s; deviceId := d; user_agent := ua |} db =
  Express.validate_license e n c
    {| method := m; licenseKey := VStr s'; deviceId := d; user_agent := ua |} db /\
  Express.check_session e n c
    {| method := m; licenseKey := VStr s; deviceId := d; user_agent := ua |} db =
  Express.check_session e n c
    {| method := m; licenseKey := VStr s'; deviceId := d; user_agent := ua |} db /\
  (is_ascii s = true ->
   toUpperCase (trim s) = ascii_toUpperCase (ascii_trim s)).
Proof.
  intros Hs Hs' Heq.
  assert (Ht : truthy (VStr s) = truthy (VStr s')) by (by destruct s, s').
  assert (Hn : normalize (VStr s) = normalize (VStr s')).
  { rewrite !normalize_string by done. by rewrite Heq. }
  split; [by apply validate_key_ext|]. split; [by apply check_session_key_ext|].
  split; [by apply express_validate_key_ext|].
  split; [by apply express_check_session_key_ext|].
  apply normalize_ascii.
Qed.

Lemma keys_match_up_to_case_and_padding_witness :
  ("  abc-1 " <> "" /\ "ABC-1" <> "" /\
   toUpperCase (trim "  abc-1 ") = toUpperCase (trim "ABC-1")) /\
  ValidateLicense.handler Scenario.env0 Scenario.online Scenario.soon
    {| method := "POST"; licenseKey := VStr "  abc-1 "; deviceId := VStr "dev1";
       user_agent := VUndef |} Scenario.two_records =
  ValidateLicense.handler Scenario.env0 Scenario.online Scenario.soon
    {| method := "POST"; licenseKey := VStr "ABC-1"; deviceId := VStr "dev1";
       user_agent := VUndef |} Scenario.two_records /\
  CheckSession.handler Scenario.env0 Scenario.online Scenario.soon
    {| method := "POST"; licenseKey := VStr "  abc-1 "; deviceId := VStr "dev1";
       user_agent := VUndef |} Scenario.two_records =
  CheckSession.handler Scenario.env0 Scenario.online Scenario.soon
    {| method := "POST"; licenseKey := VStr "ABC-1"; deviceId := VStr "dev1";
       user_agent := VUndef |} Scenario.two_records /\
  Express.validate_license Scenario.env0 Scenario.online Scenario.soon
    {| method := "POST"; licenseKey := VStr "  abc-1 "; deviceId := VStr "dev1";
       user_agent := VUndef |} Scenario.two_records =
  Express.validate_license Scenario.env0 Scenario.online Scenario.soon
    {| method := "POST"; licenseKey := VStr "ABC-1"; deviceId := VStr "dev1";
       user_agent := VUndef |} Scenario.two_records /\
  Express.check_session Scenario.env0 Scenario.online Scenario.soon
    {| method := "POST"; licenseKey := VStr "  abc-1 "; deviceId := VStr "dev1";
       user_agent := VUndef |} Scenario.two_records =
  Express.check_session Scenario.env0 Scenario.online Scenario.soon
    {| method := "POST"; licenseKey := VStr "ABC-1"; deviceId := VStr "dev1";
       user_agent := VUndef |} Scenario.two_records /\
  (is_ascii "  abc-1 " = true ->
   toUpperCase (trim "  abc-1 ") = ascii_toUpperCase (ascii_trim "  abc-1 ")).
Proof.
  assert (H1 : "  abc-1 " <> "") by discriminate.
  assert (H2 : "ABC-1" <> "") by discriminate.
  split; [repeat split; try reflexivity; assumption|].
  exact (keys_match_up_to_case_and_padding (P := EpochPlatform.platform)
           Scenario.env0 Scenario.online Scenario.soon Scenario.two_records
           "POST" (VStr "dev1") VUndef "  abc-1 " "ABC-1" H1 H2 eq_refl).
Defined.

(** ** The session cache heals itself *)

Lemma destroySession_lookup (ls : gmap string item) k :
  API.destroySession ls !! k =
  if bool_decide (k = Config.SESSION \/ k = Config.LICENSE_KEY \/ k = Config.DEVICE_ID)
  then None else ls !! k.
Proof.
  unfold API.destroySession. rewrite !lookup_delete.
  repeat case_decide; case_bool_decide; try done; exfalso; intuition congruence.
Qed.

Lemma checkSession_after_destroy `{P : Platform} now now' (ls : gmap string item) :
  API.checkSession now now' (API.destroySession ls)
    = (API.destroySession ls, API.Invalid "no_session").
Proof.
  unfold API.checkSession. by rewrite destroySession_lookup.
Qed.

(** X11.  The local [checkSession] either leaves the storage exactly as
    it is, or clears the three entries of the cache (session, license
    key, device id) and nothing else.  It clears them exactly when it
    reports [invalid_data] or [invalid_session_structure]; the next read
    then reports [no_session].  A session that is merely expired
    ([session_expired], [subscription_expired]) is reported but left in
    the storage.  A stored session text that is not JSON is reported as
    [invalid_data]. *)
Theorem session_cache_clears_itself_on_corruption `{P : Platform}
    now now' later later' (ls : gmap string item) s :
  ls !! Config.SESSION = Some (Text s) ->
  s <> "" ->
  (forall (ls0 : gmap string item),
     let r := API.checkSession now now' ls0 in
     (snd r = API.Invalid "invalid_data" \/
      snd r = API.Invalid "invalid_session_structure" ->
      fst r = API.destroySession ls0 /\
      API.checkSession later later' (fst r) = (fst r, API.Invalid "no_session")) /\
     (snd r <> API.Invalid "invalid_data" ->
      snd r <> API.Invalid "invalid_session_structure" ->
      fst r = ls0) /\
     (forall k, k <> Config.SESSION -> k <> Config.LICENSE_KEY ->
                k <> Config.DEVICE_ID -> fst r !! k = ls0 !! k)) /\
  API.checkSession now now' ls = (API.destroySession ls, API.Invalid "invalid_data").
Proof.
  intros Hls Hs. split.
  - intros ls0 r. subst r. unfold API.checkSession.
    assert (Hd : forall k, k <> Config.SESSION -> k <> Config.LICENSE_KEY ->
               k <> Config.DEVICE_ID -> API.destroySession ls0 !! k = ls0 !! k).
    { intros k H1 H2 H3. rewrite destroySession_lookup.
      case_bool_decide; [exfalso; intuition congruence|done]. }
    pose proof (checkSession_after_destroy later later' ls0) as Hn.
    destruct (ls0 !! Config.SESSION) as [session|]; simpl.
    2:{ split; [intros [[=]|[=]]|]. done. }
    destruct (negb (item_truthy session)); simpl.
    { split; [intros [[=]|[=]]|]. done. }
    destruct session as [t|[| |sessionData]]; simpl; try (split; [done|]; split; [|done]; intros; done).
    destruct (sd_license sessionData) as [license|]; simpl;
      [|split; [done|]; split; [|done]; intros; done].
    destruct (negb (truthy (expiresAt license))); simpl;
      [split; [done|]; split; [|done]; intros; done|].
    destruct (num_lt (ToNumber (sd_expiresAt sessionData)) (Some now)); simpl.
    { split; [intros [[=]|[=]]|]. done. }
    destruct (num_lt (newDate (expiresAt license)) (Some now')); simpl.
    { split; [intros [[=]|[=]]|]. done. }
    split; [intros [[=]|[=]]|]. done.
  - unfold API.checkSession. rewrite Hls. simpl.
    destruct s; [done|]. done.
Qed.

Lemma session_cache_clears_itself_on_corruption_witness :
  (Cases.corrupted !! Config.SESSION = Some (Text "{not json") /\
   "{not json" <> "") /\
  (forall (ls0 : gmap string item),
     let r := API.checkSession Scenario.t0 Scenario.t0 ls0 in
     (snd r = API.Invalid "invalid_data" \/
      snd r = API.Invalid "invalid_session_structure" ->
      fst r = API.destroySession ls0 /\
      API.checkSession (Scenario.t0 + 1) (Scenario.t0 + 1) (fst r)
        = (fst r, API.Invalid "no_session")) /\
     (snd r <> API.Invalid "invalid_data" ->
      snd r <> API.Invalid "invalid_session_structure" ->
      fst r = ls0) /\
     (forall k, k <> Config.SESSION -> k <> Config.LICENSE_KEY ->
                k <> Config.DEVICE_ID -> fst r !! k = ls0 !! k)) /\
  API.checkSession Scenario.t0 Scenario.t0 Cases.corrupted
    = (API.destroySession Cases.corrupted, API.Invalid "invalid_data").
Proof.
  assert (H1 : Cases.corrupted !! Config.SESSION = Some (Text "{not json"))
    by reflexivity.
  assert (H2 : "{not json" <> "") by discriminate.
  split; [by split|].
  exact (session_cache_clears_itself_on_corruption (P := EpochPlatform.platform)
           Scenario.t0 Scenario.t0 (Scenario.t0 + 1) (Scenario.t0 + 1)
           Cases.corrupted "{not json" H1 H2).
Defined.

(** ** The device id *)

(** X12.  [getDeviceId] always answers the fingerprint just generated
    for the device, whatever id is stored: a stored id is returned only
    when it is that very fingerprint, and is overwritten otherwise.
    Afterwards the storage holds the fingerprint under the device key and
    is otherwise unchanged, and asking again gives the same answer and
    storage. *)
Theorem getDeviceId_is_the_fresh_fingerprint generated (ls : gmap string item) :
  fst (Auth.getDeviceId generated ls) = generated /\
  item_val (snd (Auth.getDeviceId generated ls) !! Config.DEVICE_ID) = VStr generated /\
  (forall k, k <> Config.DEVICE_ID ->
     snd (Auth.getDeviceId generated ls) !! k = ls !! k) /\
  Auth.getDeviceId generated (snd (Auth.getDeviceId generated ls))
    = Auth.getDeviceId generated ls.
Proof.
  unfold Auth.getDeviceId.
  destruct (truthy (item_val (ls !! Config.DEVICE_ID))) eqn:Ht.
  - destruct (strict_eq (item_val (ls !! Config.DEVICE_ID)) (VStr generated)) eqn:He.
    + pose proof (strict_eq_true _ _ He) as Hv.
      cbn [fst snd]. split; [by rewrite Hv|]. split; [done|]. split; [done|].
      by rewrite Ht, He.
    + simpl. rewrite lookup_insert_eq. simpl.
      repeat split; try done.
      * intros k Hk. by rewrite lookup_insert_ne.
      * rewrite String.eqb_refl.
        destruct (negb (generated =? "")%string); [done|].
        by rewrite insert_insert_eq.
  - simpl. rewrite lookup_insert_eq. simpl.
    repeat split; try done.
    + intros k Hk. by rewrite lookup_insert_ne.
    + rewrite String.eqb_refl.
      destruct (negb (generated =? "")%string); [done|].
      by rewrite insert_insert_eq.
Qed.

(** ** Login *)

Lemma getDeviceId_fst generated (ls : gmap string item) :
  fst (Auth.getDeviceId generated ls) = generated.
Proof.
  unfold Auth.getDeviceId.
  destruct (truthy (item_val (ls !! Config.DEVICE_ID))); [|done].
  destruct (strict_eq (item_val (ls !! Config.DEVICE_ID)) (VStr generated)) eqn:He;
    [|done].
  apply strict_eq_true in He. simpl. by rewrite He.
Qed.

Lemma createSession_some created eb l deviceId (ls : gmap string item) :
  exists ls' session,
    API.createSession created eb (Some l) deviceId ls = (ls', Some session) /\
    sd_license session = Some (normalize_counters l) /\
    ls' !! Config.LICENSE_KEY = Some (Text (ToString (s_key (normalize_counters l)))) /\
    ls' !! Config.SESSION = Some (JsonText (DObject (json_session session))).
Proof.
  unfold API.createSession. cbn -[json_session normalize_counters insert lookup].
  eexists _, _. split; [reflexivity|]. split; [reflexivity|].
  split; [by rewrite lookup_insert_eq|].
  rewrite lookup_insert_ne by done. by rewrite lookup_insert_eq.
Qed.

Lemma normalize_counters_key l : s_key (normalize_counters l) = s_key l.
Proof.
  unfold normalize_counters.
  repeat match goal with
         | |- context [if ?b then _ else _] => destruct b
         end; done.
Qed.

(** X13.  [login] with a non-empty key sends exactly one request, the
    key as given with the fingerprint of the device, and succeeds exactly
    when the server answers it with a 2xx status and [valid: true].  On
    success the manager has access and holds the session, whose license
    is the one of the answer with its counters normalised; the session
    and the license key are persisted.  On failure the manager is not
    signed in or out and holds the session it had; only the device id is
    set, in the manager and in the storage. *)
Theorem login_succeeds_exactly_on_a_valid_answer
    generated ua server created expires_base a (ls : gmap string item) s :
  s <> "" ->
  let req := {| method := "POST"; licenseKey := VStr s;
                deviceId := VStr generated; user_agent := ua |} in
  let out := Auth.login generated ua server created expires_base (VStr s) a ls in
  Auth.sent out = [req] /\
  ((exists session, Auth.answer out = Auth.LoginSuccess session) <->
   (exists resp lic,
      server req = API.Fetched resp /\ API.ok resp = true /\ r_body resp = BValid lic)) /\
  (forall resp lic,
     server req = API.Fetched resp -> API.ok resp = true -> r_body resp = BValid lic ->
     exists session,
       Auth.answer out = Auth.LoginSuccess session /\
       Auth.hasAccess (Auth.manager out) = true /\
       Auth.currentSession (Auth.manager out) = Some session /\
       sd_license session = Some (normalize_counters (json_snapshot lic)) /\
       sd_deviceId session = VStr generated /\
       Auth.storage out !! Config.LICENSE_KEY
         = Some (Text (ToString (json_val (s_key lic)))) /\
       is_Some (Auth.storage out !! Config.SESSION)) /\
  ((forall session, Auth.answer out <> Auth.LoginSuccess session) ->
   Auth.isAuthenticated (Auth.manager out) = Auth.isAuthenticated a /\
   Auth.currentSession (Auth.manager out) = Auth.currentSession a /\
   Auth.a_deviceId (Auth.manager out) = VStr generated /\
   Auth.storage out = snd (Auth.getDeviceId generated ls)).
Proof.
  intros Hs req out. subst out.
  assert (Hok : truthy (Auth.validateLicenseFormat (VStr s)) = true).
  { apply validateLicenseFormat_spec. by exists s. }
  unfold Auth.login. rewrite Hok. cbn [negb].
  pose proof (getDeviceId_fst generated ls) as Hg.
  destruct (Auth.getDeviceId generated ls) as [deviceId ls1]. simpl in Hg. subst deviceId.
  fold req. cbn [snd].
  destruct (server req) as [|resp] eqn:Hsrv.
  { simpl. split; [done|]. split.
    - split; [intros [? [=]] | intros (? & ? & [=] & _)].
    - split; [intros ? ? [=]|]. done. }
  unfold API.validateLicense.
  destruct (API.ok resp) eqn:Hrok; cbn [negb].
  2:{ cbn [API.validation_valid truthy negb]. simpl.
      split; [done|]. split.
      - split; [intros [? [=]] | intros (? & ? & [= <-] & Hc & _); congruence].
      - split; [intros ? ? [= <-]; congruence|]. done. }
  unfold API.response_json.
  destruct (r_body resp) as [err|err msg|lic|txt] eqn:Hb;
    cbn [API.validation_valid body_valid truthy negb].
  - simpl. split; [done|]. split.
    + split; [intros [? [=]] | intros (? & ? & [= <-] & _ & Hc); congruence].
    + split; [intros ? ? [= <-] _; congruence|]. done.
  - simpl. split; [done|]. split.
    + split; [intros [? [=]] | intros (? & ? & [= <-] & _ & Hc); congruence].
    + split; [intros ? ? [= <-] _; congruence|]. done.
  - cbn [API.validation_license].
    destruct (createSession_some created expires_base (json_snapshot lic)
                (VStr generated) ls1) as (ls2 & session & Hc & Hl & Hkey & Hses).
    rewrite Hc. cbn [Auth.sent Auth.answer Auth.manager Auth.storage].
    split; [done|]. split.
    + split; [intros _; by exists resp, lic | intros _; by eexists].
    + split.
      * intros resp' lic' [= <-] _ Hb'. rewrite Hb in Hb'. injection Hb' as <-.
        eexists. split; [reflexivity|]. cbn.
        rewrite normalize_counters_key in Hkey. cbn in Hkey.
        repeat split; try done.
      * intros Hno. exfalso. by eapply Hno.
  - simpl. split; [done|]. split.
    + split; [intros [? [=]] | intros (? & ? & [= <-] & _ & Hc); congruence].
    + split; [intros ? ? [= <-] _; congruence|]. done.
Qed.

Lemma login_succeeds_exactly_on_a_valid_answer_witness :
  "abc-1" <> "" /\
  let req := {| method := "POST"; licenseKey := VStr "abc-1";
                deviceId := VStr "f00d"; user_agent := VUndef |} in
  let out := Auth.login "f00d" VUndef
               (Cases.live_validate (Scenario.at_time Scenario.t0) Cases.fresh_store)
               Scenario.t0 Scenario.t0 (VStr "abc-1") Scenario.signed_out ∅ in
  Auth.sent out = [req] /\
  ((exists session, Auth.answer out = Auth.LoginSuccess session) <->
   (exists resp lic,
      Cases.live_validate (Scenario.at_time Scenario.t0) Cases.fresh_store req
        = API.Fetched resp /\ API.ok resp = true /\ r_body resp = BValid lic)) /\
  (forall resp lic,
     Cases.live_validate (Scenario.at_time Scenario.t0) Cases.fresh_store req
       = API.Fetched resp -> API.ok resp = true -> r_body resp = BValid lic ->
     exists session,
       Auth.answer out = Auth.LoginSuccess session /\
       Auth.hasAccess (Auth.manager out) = true /\
       Auth.currentSession (Auth.manager out) = Some session /\
       sd_license session = Some (normalize_counters (json_snapshot lic)) /\
       sd_deviceId session = VStr "f00d" /\
       Auth.storage out !! Config.LICENSE_KEY
         = Some (Text (ToString (json_val (s_key lic)))) /\
       is_Some (Auth.storage out !! Config.SESSION)) /\
  ((forall session, Auth.answer out <> Auth.LoginSuccess session) ->
   Auth.isAuthenticated (Auth.manager out) = Auth.isAuthenticated Scenario.signed_out /\
   Auth.currentSession (Auth.manager out) = Auth.currentSession Scenario.signed_out /\
   Auth.a_deviceId (Auth.manager out) = VStr "f00d" /\
   Auth.storage out = snd (Auth.getDeviceId "f00d" ∅)).
Proof.
  assert (Hs : "abc-1" <> "") by discriminate.
  split; [exact Hs|].
  exact (login_succeeds_exactly_on_a_valid_answer "f00d" VUndef
           (Cases.live_validate (Scenario.at_time Scenario.t0) Cases.fresh_store)
           Scenario.t0 Scenario.t0 Scenario.signed_out ∅ "abc-1" Hs).
Defined.

(** ** Strict verification *)

(** X14.  Behind [verifyActiveSession], every refusal of the server's
    [check-session] looks the same: whatever its code ([deviceMismatch],
    [expired], [deleted], a missing field, even the 500 answers
    [network] and [server_error]), the client reports [INVALID_SESSION];
    the status of the response is not looked at.  A success is checked
    once more against the client's own clock and reported [EXPIRED] if
    the license's [expiresAt] is before it, and passed on with the license
    otherwise.  [NETWORK_ERROR] is reported only when the request itself
    fails, never for anything the server answered. *)
Theorem strict_check_hides_the_server_code `{P : Platform} e n c req db now :
  let answer := fst (CheckSession.handler e n c req db) in
  let v := Strict.verifyActiveSession now (API.Fetched answer) in
  (body_valid (r_body answer) <> VBool true ->
   v = Strict.Refused "INVALID_SESSION" "جلسة غير صالحة") /\
  (forall lic, r_body answer = BValid lic ->
   v = if num_lt (newDate (json_val (expiresAt lic))) (Some now)
       then Strict.Refused "EXPIRED" "الاشتراك منتهي"
       else Strict.Verified (json_snapshot lic)) /\
  (forall m, v <> Strict.Refused "NETWORK_ERROR" m) /\
  Strict.verifyActiveSession now API.FetchRejects
    = Strict.Refused "NETWORK_ERROR" "فشل الاتصال بالخادم".
Proof.
  intros answer v. subst v.
  pose proof (check_session_codes e n c req db) as Hc. fold answer in Hc.
  unfold Strict.verifyActiveSession, API.response_json.
  destruct Hc as [Hv | (code & He & _)].
  - destruct (r_body answer) as [err|err msg|lic|txt] eqn:Hb; try done. simpl.
    split; [done|]. split.
    + intros lic' [= <-]. done.
    + split; [|done]. intros m. by destruct (num_lt _ _).
  - destruct (r_body answer) as [err|[err|] msg|lic|txt] eqn:Hb; try done; simpl;
      (split; [done|]; split; [done|]; split; done).
Qed.

(** X15.  [verifyBeforeProcessing] sends nothing when the manager has no
    access.  Otherwise it sends one session check for the key of the
    current session and the manager's device id.  When the check is
    refused, for whatever reason, the manager and the storage are left as
    they are.  When it passes, the manager keeps its access, the license
    of its session becomes the one the server sent, with its counters
    normalised, and the session is persisted anew from that license. *)
Theorem verifyBeforeProcessing_effects `{P : Platform}
    ua server now created expires_base a (ls : gmap string item) :
  let out := Coordinator.verifyBeforeProcessing ua server now created expires_base a ls in
  (Auth.hasAccess a = false ->
   Coordinator.v_answer out = Coordinator.NotSignedIn /\
   Coordinator.v_sent out = [] /\
   Coordinator.v_manager out = a /\ Coordinator.v_storage out = ls) /\
  (forall v, Coordinator.v_answer out = Coordinator.VerificationFailed v ->
   Coordinator.v_manager out = a /\ Coordinator.v_storage out = ls /\
   exists req, Coordinator.v_sent out = [req] /\
               v = Strict.verifyActiveSession now (server req)) /\
  (Coordinator.v_answer out = Coordinator.Passed ->
   exists session lic fresh req,
     Auth.currentSession a = Some session /\
     sd_license session = Some lic /\
     Coordinator.v_sent out = [req] /\
     method req = "POST" /\ licenseKey req = s_key lic /\
     deviceId req = Auth.a_deviceId a /\
     Strict.verifyActiveSession now (server req) = Strict.Verified fresh /\
     Auth.hasAccess (Coordinator.v_manager out) = true /\
     (sd_license <$> Auth.currentSession (Coordinator.v_manager out))
       = Some (Some (normalize_counters fresh)) /\
     Coordinator.v_storage out
       = fst (API.createSession created expires_base (Some fresh) (Auth.a_deviceId a) ls)).
Proof.
  intros out. subst out. unfold Coordinator.verifyBeforeProcessing.
  destruct (Auth.hasAccess a) eqn:Hacc; cbn [negb].
  2:{ split; [done|]. split; [intros ? [=]|intros [=]]. }
  unfold Coordinator.currentSession_license.
  destruct (Auth.currentSession a) as [session|] eqn:Hcur.
  2:{ split; [done|]. split; [intros ? [=]|intros [=]]. }
  destruct (sd_license session) as [lic|] eqn:Hlic.
  2:{ split; [done|]. split; [intros ? [=]|intros [=]]. }
  set (req := {| method := "POST"; licenseKey := s_key lic;
                 deviceId := Auth.a_deviceId a; user_agent := ua |}).
  destruct (Strict.verifyActiveSession now (server req)) as [reason message|fresh] eqn:Hv.
  - split; [done|]. split; [|intros [=]].
    intros v [= <-]. split; [done|]. split; [done|]. exists req. by rewrite Hv.
  - destruct (API.createSession created expires_base (Some fresh) (Auth.a_deviceId a) ls)
      as [ls' o] eqn:Hc.
    split; [done|]. split; [intros ? [=]|]. intros _.
    exists session, lic, fresh, req.
    cbn [Coordinator.v_sent Coordinator.v_manager Coordinator.v_storage].
    repeat split; try done.
    + unfold Auth.hasAccess in *.
      apply andb_true_iff in Hacc as [Hacc _].
      apply andb_true_iff. split; [exact Hacc|]. by apply bool_decide_eq_true_2.
    + by rewrite Hc.
Qed.

(** ** Start-up *)

(** X16.  [init] first reads the local session.  Without a valid local
    session it contacts nobody and leaves the manager signed out.  With
    one, it sends exactly one session check, for the key of the stored
    license and the fingerprint just generated, and answers [true] exactly
    when the server's answer is JSON with a truthy [valid]; the manager
    then has access with the stored session and the storage is as the read
    left it.  When the server answers anything else in JSON, the manager
    is signed out and the three entries of the cache are cleared.  When
    the request fails, the answer is [false] but neither the manager's
    session nor the storage is touched. *)
Theorem init_restores_only_with_the_server `{P : Platform}
    generated ua server now now' a (ls : gmap string item) :
  let local := API.checkSession now now' (snd (Auth.getDeviceId generated ls)) in
  let out := Coordinator.init generated ua server now now' a ls in
  (forall err, snd local = API.Invalid err ->
     Coordinator.i_answer out = false /\
     Coordinator.i_sent out = [] /\
     Auth.isAuthenticated (Coordinator.i_manager out) = false /\
     Auth.currentSession (Coordinator.i_manager out) = None /\
     Coordinator.i_storage out = fst local) /\
  (forall session lic,
     snd local = API.Valid session -> sd_license session = Some lic ->
     let req := {| method := "POST"; licenseKey := s_key lic;
                   deviceId := VStr generated; user_agent := ua |} in
     Coordinator.i_sent out = [req] /\
     (Coordinator.i_answer out = true <->
      exists resp data,
        server req = API.Fetched resp /\ API.response_json resp = Some data /\
        truthy (body_valid data) = true) /\
     (Coordinator.i_answer out = true ->
      Auth.hasAccess (Coordinator.i_manager out) = true /\
      Auth.currentSession (Coordinator.i_manager out) = Some session /\
      Coordinator.i_storage out = fst local) /\
     (forall resp data,
        server req = API.Fetched resp -> API.response_json resp = Some data ->
        truthy (body_valid data) = false ->
        Auth.hasAccess (Coordinator.i_manager out) = false /\
        Auth.currentSession (Coordinator.i_manager out) = None /\
        Coordinator.i_storage out = API.destroySession (fst local)) /\
     (server req = API.FetchRejects ->
      Coordinator.i_answer out = false /\
      Auth.isAuthenticated (Coordinator.i_manager out) = Auth.isAuthenticated a /\
      Auth.currentSession (Coordinator.i_manager out) = Auth.currentSession a /\
      Coordinator.i_storage out = fst local)).
Proof.
  intros local out. subst local out. unfold Coordinator.init.
  pose proof (getDeviceId_fst generated ls) as Hg.
  destruct (Auth.getDeviceId generated ls) as [deviceId ls1]. simpl in Hg. subst deviceId.
  cbn [snd].
  destruct (API.checkSession now now' ls1) as [ls2 [err|session]] eqn:Hlocal; cbn [fst snd].
  { split; [|intros ? ? [=]]. intros err' _. done. }
  split; [intros ? [=]|]. intros session' lic [= <-] Hlic.
  rewrite Hlic.
  set (req := {| method := "POST"; licenseKey := s_key lic;
                 deviceId := VStr generated; user_agent := ua |}).
  destruct (server req) as [|resp] eqn:Hsrv.
  { cbn. split; [done|]. split.
    - split; [done|]. intros (? & ? & [=] & _).
    - split; [done|]. split; [intros ? ? [=]|]. done. }
  destruct (API.response_json resp) as [data|] eqn:Hjson.
  2:{ cbn. split; [done|]. split.
      - split; [done|]. intros (? & ? & [= <-] & Hc & _). congruence.
      - split; [done|]. split; [|intros [=]].
        intros ? ? [= <-] Hc. congruence. }
  destruct (truthy (body_valid data)) eqn:Hvalid; cbn.
  - split; [done|]. split.
    + split; [intros _; by exists resp, data | done].
    + split.
      * intros _. split; [|done]. reflexivity.
      * split; [|intros [=]]. intros ? ? [= <-] Hc. congruence.
  - split; [done|]. split.
    + split; [done|]. intros (? & ? & [= <-] & Hc & Ht). congruence.
    + split; [done|]. split; [|intros [=]].
      intros ? ? [= <-] Hc _. done.
Qed.

(** ** A license without expiry on the client *)

Lemma getDeviceId_other generated (ls : gmap string item) k :
  k <> Config.DEVICE_ID -> snd (Auth.getDeviceId generated ls) !! k = ls !! k.
Proof.
  intros Hk. unfold Auth.getDeviceId.
  destruct (truthy (item_val (ls !! Config.DEVICE_ID))); simpl.
  - destruct (strict_eq _ _); simpl; [done|]. by rewrite lookup_insert_ne.
  - by rewrite lookup_insert_ne.
Qed.

Lemma normalize_counters_expiresAt l :
  expiresAt (normalize_counters l) = expiresAt l.
Proof.
  unfold normalize_counters.
  repeat match goal with
         | |- context [if ?b then _ else _] => destruct b
         end; done.
Qed.

Lemma checkSession_without_expiry `{P : Platform} now now' (ls : gmap string item)
    session l :
  ls !! Config.SESSION = Some (JsonText (DObject session)) ->
  sd_license session = Some l ->
  truthy (expiresAt l) = false ->
  API.checkSession now now' ls
    = (API.destroySession ls, API.Invalid "invalid_session_structure").
Proof.
  intros Hs Hl Hx. unfold API.checkSession. rewrite Hs. simpl. by rewrite Hl, Hx.
Qed.

(** X17.  A license whose answer carries no [expiresAt] (a record
    without expiry) can be logged in with but not restored.  [login]
    succeeds and persists the session; at the next start-up, however, the
    local read takes the stored session for a corrupted one, so that
    [init] contacts no server, answers [false], leaves the manager signed
    out and clears the session and the license key from the storage. *)
Theorem session_without_expiry_is_not_restored `{P : Platform}
    generated ua server created expires_base a (ls : gmap string item) s resp lic
    generated' ua' server' now now' a' :
  s <> "" ->
  server {| method := "POST"; licenseKey := VStr s;
            deviceId := VStr generated; user_agent := ua |} = API.Fetched resp ->
  API.ok resp = true ->
  r_body resp = BValid lic ->
  truthy (expiresAt lic) = false ->
  let out := Auth.login generated ua server created expires_base (VStr s) a ls in
  let out' := Coordinator.init generated' ua' server' now now' a'
                (Auth.storage out) in
  (exists session, Auth.answer out = Auth.LoginSuccess session) /\
  Auth.hasAccess (Auth.manager out) = true /\
  is_Some (Auth.storage out !! Config.SESSION) /\
  Coordinator.i_answer out' = false /\
  Coordinator.i_sent out' = [] /\
  Auth.hasAccess (Coordinator.i_manager out') = false /\
  Coordinator.i_storage out' !! Config.SESSION = None /\
  Coordinator.i_storage out' !! Config.LICENSE_KEY = None.
Proof.
  intros Hs Hsrv Hok Hb Hx out out'. subst out' out.
  assert (Hfmt : truthy (Auth.validateLicenseFormat (VStr s)) = true).
  { apply validateLicenseFormat_spec. by exists s. }
  unfold Auth.login. rewrite Hfmt. cbn [negb].
  pose proof (getDeviceId_fst generated ls) as Hg.
  destruct (Auth.getDeviceId generated ls) as [deviceId ls1]. simpl in Hg. subst deviceId.
  rewrite Hsrv. unfold API.validateLicense, API.response_json. rewrite Hok, Hb.
  cbn [negb API.validation_valid body_valid truthy API.validation_license].
  destruct (createSession_some created expires_base (json_snapshot lic)
              (VStr generated) ls1) as (ls2 & session & Hc & Hl & Hkey & Hses).
  rewrite Hc. cbn [Auth.answer Auth.manager Auth.storage].
  split; [by eexists|]. split; [reflexivity|]. split; [by rewrite Hses|].
  unfold Coordinator.init.
  pose proof (getDeviceId_other generated' ls2 Config.SESSION) as Ho.
  destruct (Auth.getDeviceId generated' ls2) as [deviceId' ls3]. simpl in Ho.
  rewrite (checkSession_without_expiry now now' ls3 (json_session session)
             (json_snapshot (normalize_counters (json_snapshot lic)))).
  - cbn -[API.destroySession lookup]. rewrite !destroySession_lookup.
    repeat split; done.
  - rewrite Ho by done. exact Hses.
  - unfold json_session. by rewrite Hl.
  - cbn. rewrite normalize_counters_expiresAt. cbn. by rewrite !truthy_json_val.
Qed.

Lemma session_without_expiry_is_not_restored_witness :
  ("abc-1" <> "" /\
   Cases.answering Cases.lifetime_answer
     {| method := "POST"; licenseKey := VStr "abc-1";
        deviceId := VStr "f00d"; user_agent := VUndef |}
     = API.Fetched Cases.lifetime_answer /\
   API.ok Cases.lifetime_answer = true /\
   r_body Cases.lifetime_answer = BValid Scenario.lifetime_snapshot /\
   truthy (expiresAt Scenario.lifetime_snapshot) = false) /\
  let out := Auth.login "f00d" VUndef (Cases.answering Cases.lifetime_answer)
               Scenario.t0 Scenario.t0 (VStr "abc-1") Scenario.signed_out ∅ in
  let out' := Coordinator.init "f00d" VUndef Scenario.unreachable
                (Scenario.t0 + 1000) (Scenario.t0 + 1000) Scenario.signed_out
                (Auth.storage out) in
  (exists session, Auth.answer out = Auth.LoginSuccess session) /\
  Auth.hasAccess (Auth.manager out) = true /\
  is_Some (Auth.storage out !! Config.SESSION) /\
  Coordinator.i_answer out' = false /\
  Coordinator.i_sent out' = [] /\
  Auth.hasAccess (Coordinator.i_manager out') = false /\
  Coordinator.i_storage out' !! Config.SESSION = None /\
  Coordinator.i_storage out' !! Config.LICENSE_KEY = None.
Proof.
  assert (Hs : "abc-1" <> "") by discriminate.
  split; [repeat split; try reflexivity; assumption|].
  exact (session_without_expiry_is_not_restored (P := EpochPlatform.platform)
           "f00d" VUndef (Cases.answering Cases.lifetime_answer)
           Scenario.t0 Scenario.t0 Scenario.signed_out ∅ "abc-1"
           Cases.lifetime_answer Scenario.lifetime_snapshot
           "f00d" VUndef Scenario.unreachable (Scenario.t0 + 1000) (Scenario.t0 + 1000)
           Scenario.signed_out Hs eq_refl eq_refl eq_refl eq_refl).
Defined.

(** ** Reading the User-Agent *)

Section Detectors.
Import Fingerprint.

(** X18.  The order of the tests in [detectOS] decides: a User-Agent
    that mentions [Linux] or [Mac] is reported as Windows, macOS or
    Linux, whatever else it mentions; the answers [Android] and [iOS]
    are out of reach for it. *)
Theorem detectOS_stops_at_linux_and_mac userAgent :
  includes userAgent "Linux" = true \/ includes userAgent "Mac" = true ->
  detectOS userAgent = "Windows" \/ detectOS userAgent = "macOS"
  \/ detectOS userAgent = "Linux".
Proof.
  intros H. unfold detectOS.
  destruct (includes userAgent "Windows"); [by left|].
  destruct (includes userAgent "Mac"); [by right; left|].
  destruct H as [-> | H]; [by right; right | done].
Qed.

Lemma detectOS_stops_at_linux_and_mac_witness :
  let android :=
    "Mozilla/5.0 (Linux; Android 10; K) AppleWebKit/537.36 Chrome/120.0 Mobile Safari/537.36" in
  (includes android "Linux" = true \/ includes android "Mac" = true) /\
  includes android "Android" = true /\
  (detectOS android = "Windows" \/ detectOS android = "macOS"
   \/ detectOS android = "Linux").
Proof.
  intros android.
  assert (H : includes android "Linux" = true \/ includes android "Mac" = true)
    by (left; reflexivity).
  split; [exact H|]. split; [reflexivity|].
  exact (detectOS_stops_at_linux_and_mac android H).
Defined.

(** X19.  [detectBrowser] answers [Edge] or [Opera] only for a
    User-Agent that mentions none of [Firefox], [Chrome] and [Safari];
    it then answers [Edge] if the User-Agent mentions it, and [Opera]
    otherwise. *)
Theorem detectBrowser_late_answers userAgent :
  detectBrowser userAgent = "Edge" \/ detectBrowser userAgent = "Opera" ->
  includes userAgent "Firefox" = false /\ includes userAgent "Chrome" = false
  /\ includes userAgent "Safari" = false
  /\ detectBrowser userAgent
     = (if includes userAgent "Edge" then "Edge" else "Opera").
Proof.
  unfold detectBrowser.
  destruct (includes userAgent "Firefox"); [intros [|]; discriminate|].
  destruct (includes userAgent "Chrome"); [intros [|]; discriminate|].
  destruct (includes userAgent "Safari"); [intros [|]; discriminate|].
  cbn [andb].
  destruct (includes userAgent "Edge"); [done|].
  destruct (includes userAgent "Opera"); [done|].
  intros [|]; discriminate.
Qed.

Lemma detectBrowser_late_answers_witness :
  (detectBrowser "Opera/9.80 (X11) Presto/2.12" = "Edge"
   \/ detectBrowser "Opera/9.80 (X11) Presto/2.12" = "Opera") /\
  includes "Opera/9.80 (X11) Presto/2.12" "Firefox" = false /\
  includes "Opera/9.80 (X11) Presto/2.12" "Chrome" = false /\
  includes "Opera/9.80 (X11) Presto/2.12" "Safari" = false /\
  detectBrowser "Opera/9.80 (X11) Presto/2.12"
  = (if includes "Opera/9.80 (X11) Presto/2.12" "Edge" then "Edge" else "Opera").
Proof.
  assert (H : detectBrowser "Opera/9.80 (X11) Presto/2.12" = "Edge"
              \/ detectBrowser "Opera/9.80 (X11) Presto/2.12" = "Opera")
    by (right; reflexivity).
  split; [exact H|].
  exact (detectBrowser_late_answers "Opera/9.80 (X11) Presto/2.12" H).
Defined.

End Detectors.

(** ** Local storage with expiry *)

Section Storage.
Context {P : Platform}.

Lemma get_absent now key (ls : gmap string Utils.entry) :
  ls !! key = None -> Utils.get now key ls = (VNull, ls).
Proof. intros H. unfold Utils.get. by rewrite H. Qed.

(** X20.  A value stored by [storage.set] with a non-zero number of
    milliseconds, the expiry instant [now + expiryMs] (the double this
    sum is, which is the sum itself up to 2^53) not being 0, is read
    back by [storage.get], as [JSON] keeps it, at every reading of the
    clock up to and including that instant, and the storage stays as it
    is.  A later read answers [null] and removes the entry, so that the
    read after it finds nothing; the other entries of the storage are
    never touched. *)
Theorem storage_entry_lives_until_its_expiry now now' now'' key value d
    (ls : gmap string Utils.entry) :
  d <> 0 -> round_to_double (now + d) <> 0 ->
  let ls1 := Utils.set now key value (VNum d) ls in
  let expiry := round_to_double (now + d) in
  (Z.abs (now + d) <= two53 -> expiry = now + d) /\
  (now' <= expiry -> Utils.get now' key ls1 = (json_val value, ls1)) /\
  (expiry < now' ->
     Utils.get now' key ls1 = (VNull, delete key ls) /\
     Utils.get now'' key (snd (Utils.get now' key ls1)) = (VNull, delete key ls)) /\
  (forall k, k <> key ->
     snd (Utils.get now' key ls1) !! k = ls !! k).
Proof.
  intros Hd Hnd ls1 expiry. subst ls1. unfold Utils.set.
  split; [apply round_to_double_safe|].
  assert (Ht : truthy (VNum d) = true).
  { simpl. destruct (d =? 0) eqn:E; [lia | done]. }
  assert (Hz : truthy (VNum expiry) = true).
  { simpl. destruct (expiry =? 0) eqn:E; [|done]. apply Z.eqb_eq in E. done. }
  rewrite Ht. cbn [js_plus ToNumber Utils.b_value Utils.b_expiry json_val].
  fold expiry.
  set (ls1 := <[key := _]> ls).
  assert (Hg : Utils.get now' key ls1 =
               if expiry <? now'
               then (VNull, delete key ls) else (json_val value, ls1)).
  { unfold Utils.get, ls1. rewrite lookup_insert_eq.
    cbn [Utils.entry_truthy negb Utils.b_expiry Utils.b_value ToNumber num_gt].
    rewrite Hz, delete_insert_eq. cbn [andb].
    replace (now' >? expiry) with (expiry <? now') by lia. done. }
  split; [|split].
  - intros Hle. rewrite Hg. by replace (expiry <? now') with false by lia.
  - intros Hlt. rewrite Hg. replace (expiry <? now') with true by lia.
    cbn [snd]. split; [done|]. apply get_absent. by rewrite lookup_delete_eq.
  - intros k Hk. rewrite Hg. destruct (expiry <? now'); cbn [snd].
    + by rewrite lookup_delete_ne.
    + unfold ls1. by rewrite lookup_insert_ne.
Qed.

(** X21.  Stored without a number of milliseconds ([null], [undefined],
    [0], the empty string: whatever is falsy), a value is read back as
    [JSON] keeps it at every reading of the clock, and reading leaves the
    storage as it is. *)
Theorem storage_entry_without_expiry_stays now now' key value expiryMs
    (ls : gmap string Utils.entry) :
  truthy expiryMs = false ->
  Utils.get now' key (Utils.set now key value expiryMs ls)
  = (json_val value, Utils.set now key value expiryMs ls).
Proof.
  intros Hf. unfold Utils.set, Utils.get. rewrite Hf, lookup_insert_eq. done.
Qed.

End Storage.

Lemma storage_entry_lives_until_its_expiry_witness :
  (500 <> 0 /\ round_to_double (1000 + 500) <> 0) /\
  let ls1 := Utils.set (P := EpochPlatform.platform) 1000 "draft" (VStr "v")
               (VNum 500) ∅ in
  let expiry := round_to_double (1000 + 500) in
  (Z.abs (1000 + 500) <= two53 -> expiry = 1000 + 500) /\
  (1500 <= expiry ->
     Utils.get (P := EpochPlatform.platform) 1500 "draft" ls1 = (json_val (VStr "v"), ls1)) /\
  (expiry < 1500 ->
     Utils.get (P := EpochPlatform.platform) 1500 "draft" ls1 = (VNull, delete "draft" ∅) /\
     Utils.get (P := EpochPlatform.platform) 1501 "draft"
       (snd (Utils.get (P := EpochPlatform.platform) 1500 "draft" ls1))
     = (VNull, delete "draft" ∅)) /\
  (forall k, k <> "draft" ->
     snd (Utils.get (P := EpochPlatform.platform) 1500 "draft" ls1) !! k
     = (∅ : gmap string Utils.entry) !! k).
Proof.
  assert (H1 : 500 <> 0) by lia.
  assert (H2 : round_to_double (1000 + 500) <> 0) by (vm_compute; discriminate).
  split; [split; assumption|].
  exact (storage_entry_lives_until_its_expiry (P := EpochPlatform.platform)
           1000 1500 1501 "draft" (VStr "v") 500 ∅ H1 H2).
Defined.

Lemma storage_entry_without_expiry_stays_witness :
  truthy VNull = false /\
  Utils.get (P := EpochPlatform.platform) 9000 "draft"
    (Utils.set (P := EpochPlatform.platform) 1000 "draft" (VStr "v") VNull ∅)
  = (json_val (VStr "v"),
     Utils.set (P := EpochPlatform.platform) 1000 "draft" (VStr "v") VNull ∅).
Proof.
  split; [reflexivity|].
  exact (storage_entry_without_expiry_stays (P := EpochPlatform.platform)
           1000 9000 "draft" (VStr "v") VNull ∅ eq_refl).
Defined.

(** ** The gates of the two servers *)

(** X22.  The edge function and the gate of the Express server decide
    alike, and on the presence of the cookie alone: a request goes on to
    the asset exactly when its path names neither engine file or its
    [flowtik_token] is truthy; the value of the token is compared with
    nothing.  A request that is stopped is answered 403 by both. *)
Theorem gates_check_the_presence_of_a_token r :
  let engine := includes (Gate.pathname r) "ffmpeg-core.wasm"
                || includes (Gate.pathname r) "ffmpeg-core.worker.js" in
  (Gate.edge r = Gate.Forward <-> engine && negb (truthy (Gate.cookie_token r)) = false) /\
  (Gate.lib_gate r = Gate.Forward <-> Gate.edge r = Gate.Forward) /\
  (Gate.edge r <> Gate.Forward ->
     Gate.edge r = Gate.Reject 403 "Unauthorized" /\
     Gate.lib_gate r = Gate.Reject 403 "Unauthorized access to engine").
Proof.
  unfold Gate.edge, Gate.lib_gate. cbn zeta.
  destruct (includes (Gate.pathname r) "ffmpeg-core.wasm"
            || includes (Gate.pathname r) "ffmpeg-core.worker.js");
    destruct (truthy (Gate.cookie_token r)); cbn [negb andb];
    repeat split; try done.
Qed.

(** ** The Netlify port of validate-license *)

Lemma append_cons c a b : (String c a ++ b)%string = String c (a ++ b)%string.
Proof. reflexivity. Qed.

Lemma latin1_app a b : latin1 (a ++ b)%string = latin1 a && latin1 b.
Proof.
  induction a as [|c a IH]; [done|].
  rewrite append_cons. simpl. by rewrite IH, andb_assoc.
Qed.

Lemma latin1_digits d : latin1 (NilEmpty.string_of_uint d) = true.
Proof. induction d; simpl; done. Qed.

Lemma latin1_string_of_Z t : latin1 (string_of_Z t) = true.
Proof.
  unfold string_of_Z, NilZero.string_of_int, NilZero.string_of_uint.
  destruct (Z.to_int t) as [d|d]; destruct d; simpl; rewrite ?latin1_digits; done.
Qed.

(** [btoa] encodes the token exactly when it encodes the key and the
    device id. *)
Lemma latin1_token_of k d t :
  latin1 (token_of k d t) = latin1 (ToString k) && latin1 (ToString d).
Proof.
  unfold token_of. rewrite !latin1_app, latin1_string_of_Z. simpl.
  by rewrite !andb_true_r.
Qed.

Section NetlifyPort.
Context {P : Platform}.




(** The answer of the Netlify port on an activated record that passes
    both guards. *)
Lemma netlify_validate_passes netlify_env process_env n c req db i l :
  served (NetlifyValidate.credentials netlify_env process_env) n req ->
  selects req db i l ->
  truthy (activated_on l) = true ->
  truthy (device_hash l) && strict_ne (device_hash l) (deviceId req) = false ->
  truthy (expires_at l) && num_lt (newDate (expires_at l)) (Some (clk_now c)) = false ->
  NetlifyValidate.handler netlify_env process_env n c req db =
    match put_outcome n with
    | NetRejects => (json 500 (BInvalid (Some "network") None), db)
    | o =>
        (if latin1 (token_of (key l) (deviceId req) (clk_token c)) then
           {| status := 200;
              r_body := BValid
                {| s_key := key l;
                   s_plan := js_or (plan l) (VStr "Premium");
                   expiresAt := expires_at l;
                   activatedAt := activated_on l;
                   s_processed_videos := counted l;
                   s_processedVideos := VUndef;
                   s_device_name := device_name l;
                   s_deviceName := VUndef;
                   remainingDays := VUndef;
                   s_activated_on := VUndef |};
              set_cookie :=
                Some (session_cookie (key l) (deviceId req) (clk_token c)) |}
         else json 500 (BInvalid (Some "network") None),
         if bool_decide (o = NetOk)
         then put_licenses (<[i := set_processed_videos (counted l) l]> (records db))
         else db)
    end.
Proof.
  intros (Hm & Hk & Hd & He1 & He2 & Hg) Hsel Ha Hdev Hexp.
  pose proof (selects_netlify_licenses_of _ _ _ _ Hsel) as Hls.
  destruct Hsel as (k & Hn & Hf & Hl).
  unfold NetlifyValidate.handler, NetlifyValidate.handler_try.
  rewrite Hm, Hk, Hd, He1, He2, Hg, Hls. simpl.
  rewrite Hn. simpl. rewrite Hf. simpl. rewrite Hl, Ha. simpl.
  rewrite Hdev. simpl. rewrite Hexp. simpl.
  destruct (put_outcome n); simpl; [| |done];
    by destruct (latin1 (token_of (key l) (deviceId req) (clk_token c))).
Qed.

(** X24.  After the checks have passed, the Netlify port of
    [validate-license] departs from the serverless handler in two ways.
    It does not look at the status of the write: when the store answers
    the write with an error status, a request that passed every check
    (and whose token [btoa] can encode) is answered [valid: true], with
    the incremented counter and the session cookie, while the store is
    as it was; the serverless handler answers the same request with 500
    [network].  And it encodes the token with [btoa], after the write:
    when the key or the device id has a character above U+00FF and the
    write succeeds, the use is counted and stored, but the request is
    answered 500 [network], without a cookie; the serverless handler
    stores the same and answers [valid: true]. *)
Theorem netlify_validate_departs_after_the_checks
    netlify_env process_env n c req db i l :
  served (NetlifyValidate.credentials netlify_env process_env) n req ->
  selects req db i l ->
  truthy (activated_on l) = true ->
  truthy (device_hash l) && strict_ne (device_hash l) (deviceId req) = false ->
  truthy (expires_at l) && num_lt (newDate (expires_at l)) (Some (clk_now c)) = false ->
  let encodable := latin1 (ToString (key l)) && latin1 (ToString (deviceId req)) in
  let r1 := NetlifyValidate.handler netlify_env process_env n c req db in
  let r2 := ValidateLicense.handler
              (NetlifyValidate.credentials netlify_env process_env) n c req db in
  (encodable = true -> put_outcome n = NetNotOk ->
   snd r1 = db /\
   (exists lic,
      fst r1 =
        {| status := 200; r_body := BValid lic;
           set_cookie :=
             Some (session_cookie (key l) (deviceId req) (clk_token c)) |} /\
      s_processed_videos lic = counted l) /\
   r2 = (json 500 (BInvalid (Some "network")
                            (Some "Network error. Please try again.")), db)) /\
  (encodable = false -> put_outcome n = NetOk ->
   r1 = (json 500 (BInvalid (Some "network") None),
         put_licenses (<[i := set_processed_videos (counted l) l]> (records db))) /\
   snd r2 = snd r1 /\
   body_valid (r_body (fst r2)) = VBool true /\
   is_Some (set_cookie (fst r2))).
Proof.
  intros Hs Hsel Ha Hdev Hexp encodable r1 r2. subst encodable r1 r2.
  rewrite (netlify_validate_passes netlify_env process_env n c req db i l) by done.
  rewrite (validate_passes _ n c req db i l) by done.
  rewrite latin1_token_of.
  split; intros -> ->; simpl.
  - split; [reflexivity|]. split; [by eexists | reflexivity].
  - repeat split. by eexists.
Qed.

(** X25.  A store whose answer holds no record (neither an array nor an
    object with a [record]) is a server error for the serverless handler
    (500, [server_error]); for the Netlify port it is a store without
    licenses, and the key is reported as unknown (200,
    [invalidLicense]).  Neither writes. *)
Theorem store_without_record_is_an_unknown_key_for_netlify
    netlify_env process_env n c req s :
  served (NetlifyValidate.credentials netlify_env process_env) n req ->
  licenseKey req = VStr s ->
  NetlifyValidate.handler netlify_env process_env n c req NoRecord
  = (json 200 (BInvalid (Some "invalidLicense") (Some "لايوجد اشتراك")), NoRecord) /\
  ValidateLicense.handler (NetlifyValidate.credentials netlify_env process_env)
    n c req NoRecord
  = (json 500 (BInvalid (Some "server_error")
                        (Some "Invalid data structure in database")), NoRecord).
Proof.
  intros (Hm & Hk & Hd & He1 & He2 & Hg) Hs.
  unfold NetlifyValidate.handler, NetlifyValidate.handler_try,
    ValidateLicense.handler, ValidateLicense.handler_try.
  rewrite Hm, Hk, Hd, He1, He2, Hg. simpl.
  rewrite Hs in Hk |- *. unfold normalize. rewrite Hk. done.
Qed.

End NetlifyPort.


Lemma netlify_validate_departs_after_the_checks_witness :
  (served (NetlifyValidate.credentials Cases.no_env Scenario.env0) Scenario.online
     (Scenario.post "abc-1" Cases.device_in_greek) /\
   selects (Scenario.post "abc-1" Cases.device_in_greek) Cases.greek_store 0
     Cases.abc1_in_greek /\
   truthy (activated_on Cases.abc1_in_greek) = true /\
   truthy (device_hash Cases.abc1_in_greek)
     && strict_ne (device_hash Cases.abc1_in_greek) (VStr Cases.device_in_greek)
     = false /\
   truthy (expires_at Cases.abc1_in_greek)
     && num_lt (newDate (P := EpochPlatform.platform) (expires_at Cases.abc1_in_greek))
               (Some (clk_now Scenario.soon))
     = false) /\
  let encodable :=
    latin1 (ToString (key Cases.abc1_in_greek))
    && latin1 (ToString (VStr Cases.device_in_greek)) in
  let r1 := NetlifyValidate.handler (P := EpochPlatform.platform)
              Cases.no_env Scenario.env0 Scenario.online Scenario.soon
              (Scenario.post "abc-1" Cases.device_in_greek) Cases.greek_store in
  let r2 := ValidateLicense.handler (P := EpochPlatform.platform)
              (NetlifyValidate.credentials Cases.no_env Scenario.env0)
              Scenario.online Scenario.soon
              (Scenario.post "abc-1" Cases.device_in_greek) Cases.greek_store in
  encodable = false /\
  (encodable = true -> put_outcome Scenario.online = NetNotOk ->
   snd r1 = Cases.greek_store /\
   (exists lic,
      fst r1 =
        {| status := 200; r_body := BValid lic;
           set_cookie :=
             Some (session_cookie (key Cases.abc1_in_greek)
                     (VStr Cases.device_in_greek) (clk_token Scenario.soon)) |} /\
      s_processed_videos lic = counted (P := EpochPlatform.platform) Cases.abc1_in_greek) /\
   r2 = (json 500 (BInvalid (Some "network")
                            (Some "Network error. Please try again.")),
         Cases.greek_store)) /\
  (encodable = false -> put_outcome Scenario.online = NetOk ->
   r1 = (json 500 (BInvalid (Some "network") None),
         put_licenses (<[0%nat := set_processed_videos
                                    (counted (P := EpochPlatform.platform)
                                       Cases.abc1_in_greek)
                                    Cases.abc1_in_greek]>
                         (records Cases.greek_store))) /\
   snd r2 = snd r1 /\
   body_valid (r_body (fst r2)) = VBool true /\
   is_Some (set_cookie (fst r2))).
Proof.
  assert (Hs : served (NetlifyValidate.credentials Cases.no_env Scenario.env0)
                 Scenario.online (Scenario.post "abc-1" Cases.device_in_greek))
    by (repeat split; reflexivity).
  assert (Hsel : selects (Scenario.post "abc-1" Cases.device_in_greek)
                   Cases.greek_store 0 Cases.abc1_in_greek)
    by (exists "ABC-1"; repeat split; reflexivity).
  split; [repeat split; try reflexivity; assumption|].
  split; [reflexivity|].
  exact (netlify_validate_departs_after_the_checks (P := EpochPlatform.platform)
           Cases.no_env Scenario.env0 Scenario.online Scenario.soon
           (Scenario.post "abc-1" Cases.device_in_greek) Cases.greek_store 0%nat
           Cases.abc1_in_greek Hs Hsel eq_refl eq_refl eq_refl).
Defined.

Lemma store_without_record_is_an_unknown_key_for_netlify_witness :
  (served (NetlifyValidate.credentials Cases.no_env Scenario.env0) Scenario.online
     (Scenario.post "abc-1" "dev1") /\
   licenseKey (Scenario.post "abc-1" "dev1") = VStr "abc-1") /\
  NetlifyValidate.handler (P := EpochPlatform.platform) Cases.no_env Scenario.env0
    Scenario.online Scenario.soon (Scenario.post "abc-1" "dev1") NoRecord
  = (json 200 (BInvalid (Some "invalidLicense") (Some "لايوجد اشتراك")), NoRecord) /\
  ValidateLicense.handler (P := EpochPlatform.platform)
    (NetlifyValidate.credentials Cases.no_env Scenario.env0)
    Scenario.online Scenario.soon (Scenario.post "abc-1" "dev1") NoRecord
  = (json 500 (BInvalid (Some "server_error")
                        (Some "Invalid data structure in database")), NoRecord).
Proof.
  assert (Hs : served (NetlifyValidate.credentials Cases.no_env Scenario.env0)
                 Scenario.online (Scenario.post "abc-1" "dev1"))
    by (repeat split; reflexivity).
  split; [split; [assumption | reflexivity]|].
  exact (store_without_record_is_an_unknown_key_for_netlify
           (P := EpochPlatform.platform) Cases.no_env Scenario.env0 Scenario.online
           Scenario.soon (Scenario.post "abc-1" "dev1") "abc-1" Hs eq_refl).
Defined.

(** ** The device lock on every deployment *)

Section EveryDeployment.
Context {P : Platform}.
Import Deployments.

Lemma netlify_validate_rewrites_one netlify_env process_env n c req db :
  rewrites_one db (snd (NetlifyValidate.handler netlify_env process_env n c req db)).
Proof.
  unfold NetlifyValidate.handler, NetlifyValidate.handler_try.
  destruct (negb (method req =? "POST")%string); [by left|].
  unfold return_if, throw_if.
  do 4 (case_if; simpl; [by left|]).
  destruct (Netlify.licenses_of db) as [ls|r|] eqn:Hls; simpl;
    [| by destruct db | by left].
  assert (Hrec : ls = records db) by (destruct db; simpl in Hls; by simplify_eq).
  destruct (normalize (licenseKey req)) as [k|]; simpl; [|by left].
  destruct (findIndex (key_is k) ls) as [[i|]|]; simpl; [| by left | by left].
  destruct (ls !! i) as [l0|] eqn:Hl0; simpl; [|by left].
  destruct (truthy (activated_on l0)) eqn:Ha; simpl.
  - do 3 (case_if; simpl; [by left|]).
    destruct (bool_decide (put_outcome n = NetOk)); destruct (negb (latin1 _)); simpl;
      try (by left);
      right; exists i, l0; eexists; subst ls; repeat split; eauto.
  - destruct (activate c (deviceId req) _ l0) as [l1|r|] eqn:Hact; simpl;
      [| by apply activate_not_return in Hact | by left].
    do 3 (case_if; simpl; [by left|]).
    destruct (bool_decide (put_outcome n = NetOk)); destruct (negb (latin1 _)); simpl;
      try (by left);
      right; exists i, l0; eexists; subst ls; repeat split; eauto.
    all: first [simpl; by eapply activate_key | congruence].
Qed.

Lemma any_answer_rewrites_one op db : rewrites_one db (snd (any_answer op db)).
Proof.
  destruct op; simpl; [apply answer_rewrites_one | apply netlify_validate_rewrites_one].
Qed.

Lemma run_all_norm_keys ops db : norm_keys (run_all db ops) = norm_keys db.
Proof.
  revert db. induction ops as [|op ops IH]; intros db; [done|].
  unfold run_all in *. simpl. rewrite IH.
  apply rewrites_one_norm_keys, any_answer_rewrites_one.
Qed.

Lemma run_all_locked h i ops db :
  truthy h = true -> locked h i db -> locked h i (run_all db ops).
Proof.
  intros Hh. revert db. induction ops as [|op ops IH]; intros db Hl; [done|].
  unfold run_all in *. simpl. apply IH.
  eapply rewrites_one_locked; eauto using any_answer_rewrites_one.
Qed.

Lemma netlify_validate_mismatch netlify_env process_env n c req db i l :
  served (NetlifyValidate.credentials netlify_env process_env) n req ->
  selects req db i l ->
  truthy (activated_on l) = true ->
  truthy (device_hash l) = true ->
  strict_ne (device_hash l) (deviceId req) = true ->
  NetlifyValidate.handler netlify_env process_env n c req db =
    (json 200 (BInvalid (Some "deviceMismatch")
                        (Some "⛔️مفتـاح التفعيل مرتبط بجهاز اخر⛔️")), db).
Proof.
  intros (Hm & Hk & Hd & He1 & He2 & Hg) Hsel Ha Hh Hne.
  pose proof (selects_netlify_licenses_of _ _ _ _ Hsel) as Hls.
  destruct Hsel as (k & Hn & Hf & Hl).
  unfold NetlifyValidate.handler, NetlifyValidate.handler_try.
  rewrite Hm, Hk, Hd, He1, He2, Hg, Hls. simpl.
  rewrite Hn. simpl. rewrite Hf. simpl. rewrite Hl, Ha. simpl.
  by rewrite Hh, Hne.
Qed.

(** X26.  The device lock holds on every deployment.  Take a record
    that is activated and whose [device_hash] is set, and a request for
    it from another device.  After any sequence of calls to any of the
    six handlers of the repository (the serverless pair, the Express
    pair, the Netlify pair), the record is still activated and bound to
    the same [device_hash], the keys of the store are what they were,
    and the Netlify [validate-license] answers the request with
    [deviceMismatch] and leaves the store as it is, as the serverless
    and the Express handlers do. *)
Theorem device_lock_holds_on_every_deployment ops netlify_env process_env e n c req db i l :
  served (NetlifyValidate.credentials netlify_env process_env) n req ->
  served e n req ->
  selects req db i l ->
  truthy (activated_on l) = true ->
  truthy (device_hash l) = true ->
  strict_ne (device_hash l) (deviceId req) = true ->
  locked (device_hash l) i (run_all db ops) /\
  norm_keys (run_all db ops) = norm_keys db /\
  NetlifyValidate.handler netlify_env process_env n c req (run_all db ops) =
    (json 200 (BInvalid (Some "deviceMismatch")
                        (Some "⛔️مفتـاح التفعيل مرتبط بجهاز اخر⛔️")), run_all db ops) /\
  ValidateLicense.handler e n c req (run_all db ops) =
    (json 200 (BInvalid (Some "deviceMismatch")
                        (Some "⛔️مفتـاح التفعيل مرتبط بجهاز اخر⛔️")), run_all db ops) /\
  Express.validate_license e n c req (run_all db ops) =
    (json 200 (BInvalid (Some "deviceMismatch") (Some "⛔️ جهاز مختلف ⛔️")),
     run_all db ops).
Proof.
  intros Hs Hs' Hsel Ha Hh Hne.
  assert (Hlock : locked (device_hash l) i (run_all db ops)).
  { apply run_all_locked; [done|]. destruct Hsel as (k & _ & _ & Hl). by exists l. }
  split; [done|]. split; [apply run_all_norm_keys|].
  destruct Hlock as (l' & Hl' & Ha' & Hd').
  assert (Hsel' : selects req (run_all db ops) i l').
  { eapply selects_norm_keys; eauto using run_all_norm_keys. }
  split; [|split].
  - eapply netlify_validate_mismatch; eauto; by rewrite Hd'.
  - eapply validate_mismatch; eauto; by rewrite Hd'.
  - eapply express_validate_mismatch; eauto; by rewrite Hd'.
Qed.

End EveryDeployment.

Lemma device_lock_holds_on_every_deployment_witness :
  (served (NetlifyValidate.credentials Cases.no_env Scenario.env0) Scenario.online
     (Scenario.post "abc-1" "dev2") /\
   served Scenario.env0 Scenario.online (Scenario.post "abc-1" "dev2") /\
   selects (Scenario.post "abc-1" "dev2") Scenario.two_records 1 Scenario.abc1 /\
   truthy (activated_on Scenario.abc1) = true /\
   truthy (device_hash Scenario.abc1) = true /\
   strict_ne (device_hash Scenario.abc1) (VStr "dev2") = true) /\
  locked (VStr "dev1") 1
    (Deployments.run_all Scenario.two_records Deployments.calls_everywhere) /\
  norm_keys (Deployments.run_all Scenario.two_records Deployments.calls_everywhere)
  = norm_keys Scenario.two_records /\
  NetlifyValidate.handler Cases.no_env Scenario.env0 Scenario.online Scenario.soon
      (Scenario.post "abc-1" "dev2")
      (Deployments.run_all Scenario.two_records Deployments.calls_everywhere) =
    (json 200 (BInvalid (Some "deviceMismatch")
                        (Some "⛔️مفتـاح التفعيل مرتبط بجهاز اخر⛔️")),
     Deployments.run_all Scenario.two_records Deployments.calls_everywhere) /\
  ValidateLicense.handler Scenario.env0 Scenario.online Scenario.soon
      (Scenario.post "abc-1" "dev2")
      (Deployments.run_all Scenario.two_records Deployments.calls_everywhere) =
    (json 200 (BInvalid (Some "deviceMismatch")
                        (Some "⛔️مفتـاح التفعيل مرتبط بجهاز اخر⛔️")),
     Deployments.run_all Scenario.two_records Deployments.calls_everywhere) /\
  Express.validate_license Scenario.env0 Scenario.online Scenario.soon
      (Scenario.post "abc-1" "dev2")
      (Deployments.run_all Scenario.two_records Deployments.calls_everywhere) =
    (json 200 (BInvalid (Some "deviceMismatch") (Some "⛔️ جهاز مختلف ⛔️")),
     Deployments.run_all Scenario.two_records Deployments.calls_everywhere).
Proof.
  assert (Hs : served (NetlifyValidate.credentials Cases.no_env Scenario.env0)
                 Scenario.online (Scenario.post "abc-1" "dev2"))
    by (repeat split; reflexivity).
  assert (Hs' : served Scenario.env0 Scenario.online (Scenario.post "abc-1" "dev2"))
    by (repeat split; reflexivity).
  assert (Hsel : selects (Scenario.post "abc-1" "dev2") Scenario.two_records 1
                   Scenario.abc1)
    by (exists "ABC-1"; repeat split; reflexivity).
  split; [repeat split; try reflexivity; assumption|].
  apply (device_lock_holds_on_every_deployment Deployments.calls_everywhere
           Cases.no_env Scenario.env0 Scenario.env0 Scenario.online
           Scenario.soon (Scenario.post "abc-1" "dev2") Scenario.two_records 1%nat
           Scenario.abc1 Hs Hs' Hsel); reflexivity.
Defined.

(** ** What the user is shown *)

(** X27.  From 30 days on, [formatTimeRemaining] shows a count of whole
    months (of 30 days) below a year of 365 days, and of whole years
    from there on.  The count is never 0, the unit is in the singular
    exactly for the count 1, and the count of months goes up to 12: the
    days 360 to 364 are shown as 12 months. *)
Theorem formatTimeRemaining_counts_whole_units days :
  30 <= days ->
  exists n unit,
    Format.formatTimeRemaining days = string_of_Z n ++ " " ++ unit ++ " remaining" /\
    1 <= n /\
    (n = 1 <-> unit = "month" \/ unit = "year") /\
    (days < 365 ->
       (unit = "month" \/ unit = "months") /\ 30 * n <= days < 30 * n + 30 /\ n <= 12) /\
    (365 <= days ->
       (unit = "year" \/ unit = "years") /\ 365 * n <= days < 365 * n + 365).
Proof.
  intros Hd. unfold Format.formatTimeRemaining.
  replace (days =? 0) with false by lia. replace (days =? 1) with false by lia.
  replace (days <? 30) with false by lia.
  destruct (days <? 365) eqn:Hy; [apply Z.ltb_lt in Hy | apply Z.ltb_ge in Hy].
  - exists (days / 30), (if days / 30 =? 1 then "month" else "months").
    split; [reflexivity|].
    split; [Z.to_euclidean_division_equations; lia|].
    split; [|split; [|lia]].
    + destruct (days / 30 =? 1) eqn:E; split; try lia; auto.
      intros [H | H]; discriminate.
    + intros _. split; [destruct (days / 30 =? 1); auto|].
      Z.to_euclidean_division_equations; lia.
  - exists (days / 365), (if days / 365 =? 1 then "year" else "years").
    split; [reflexivity|].
    split; [Z.to_euclidean_division_equations; lia|].
    split; [|split; [lia|]].
    + destruct (days / 365 =? 1) eqn:E; split; try lia; auto.
      intros [H | H]; discriminate.
    + intros _. split; [destruct (days / 365 =? 1); auto|].
      Z.to_euclidean_division_equations; lia.
Qed.

Lemma formatTimeRemaining_counts_whole_units_witness :
  30 <= 364 /\
  Format.formatTimeRemaining 364 = "12 months remaining" /\
  exists n unit,
    Format.formatTimeRemaining 364 = string_of_Z n ++ " " ++ unit ++ " remaining" /\
    1 <= n /\
    (n = 1 <-> unit = "month" \/ unit = "year") /\
    (364 < 365 ->
       (unit = "month" \/ unit = "months") /\ 30 * n <= 364 < 30 * n + 30 /\ n <= 12) /\
    (365 <= 364 ->
       (unit = "year" \/ unit = "years") /\ 365 * n <= 364 < 365 * n + 365).
Proof.
  assert (H : 30 <= 364) by lia.
  split; [exact H|]. split; [reflexivity|].
  exact (formatTimeRemaining_counts_whole_units 364 H).
Defined.

Section SessionInfo.
Context {P : Platform}.

Lemma normalize_counters_shown l :
  js_or (js_or (s_processedVideos (normalize_counters l))
               (s_processed_videos (normalize_counters l))) (VNum 0)
  = js_or (js_or (s_processedVideos l) (s_processed_videos l)) (VNum 0).
Proof.
  destruct l as [k0 pl ex ac pv pV dn dN rd ao].
  unfold normalize_counters, strict_ne, js_or; simpl.
  destruct pV as [| |[]|k| |s], pv as [| |[]|k'| |s']; simpl; try done;
    repeat match goal with
           | |- context [if ?b then _ else _] => destruct b eqn:?; simpl; try done
           end; try congruence; simpl in *; congruence.
Qed.

(** X28.  After a successful [login], [getSessionInfo] answers (it does
    not throw and is not [null]) with the key, the expiry and the
    activation date of the server's answer as [JSON] carries them, the
    fingerprint of the device, and the number of days that
    [getRemainingDays] counts.  The count of processed videos it shows
    is the one of the answer, [processedVideos] before
    [processed_videos] and 0 for none: the normalisation of the two
    counters by [createSession] does not change it. *)
Theorem session_info_after_login
    generated ua server created expires_base a (ls : gmap string item) s resp lic now :
  s <> "" ->
  server {| method := "POST"; licenseKey := VStr s;
            deviceId := VStr generated; user_agent := ua |} = API.Fetched resp ->
  API.ok resp = true ->
  r_body resp = BValid lic ->
  let out := Auth.login generated ua server created expires_base (VStr s) a ls in
  exists info,
    Coordinator.getSessionInfo now (Auth.manager out) = Some (Some info) /\
    Coordinator.info_licenseKey info = json_val (s_key lic) /\
    Coordinator.info_plan info = json_val (s_plan lic) /\
    Coordinator.info_expiresAt info = json_val (expiresAt lic) /\
    Coordinator.info_activatedAt info = json_val (activatedAt lic) /\
    Coordinator.info_remainingDays info
      = API.getRemainingDays now (json_val (expiresAt lic)) /\
    Coordinator.info_processedVideos info
      = js_or (js_or (json_val (s_processedVideos lic))
                     (json_val (s_processed_videos lic))) (VNum 0) /\
    Coordinator.info_deviceId info = VStr generated.
Proof.
  intros Hs Hsrv Hok Hb out. subst out.
  assert (Hfmt : truthy (Auth.validateLicenseFormat (VStr s)) = true).
  { apply validateLicenseFormat_spec. by exists s. }
  unfold Auth.login. rewrite Hfmt. cbn [negb].
  pose proof (getDeviceId_fst generated ls) as Hg.
  destruct (Auth.getDeviceId generated ls) as [deviceId ls1]. simpl in Hg. subst deviceId.
  rewrite Hsrv. unfold API.validateLicense, API.response_json. rewrite Hok, Hb.
  cbn [negb API.validation_valid body_valid truthy API.validation_license].
  destruct (createSession_some created expires_base (json_snapshot lic)
              (VStr generated) ls1) as (ls2 & session & Hc & Hl & Hkey & Hses).
  rewrite Hc. cbn [Auth.manager].
  unfold Coordinator.getSessionInfo.
  cbn [Auth.currentSession sd_license Auth.a_deviceId]. rewrite Hl.
  eexists. split; [reflexivity|].
  cbn [Coordinator.info_licenseKey Coordinator.info_plan Coordinator.info_expiresAt
       Coordinator.info_activatedAt Coordinator.info_remainingDays
       Coordinator.info_processedVideos Coordinator.info_deviceId].
  rewrite normalize_counters_shown, normalize_counters_key, normalize_counters_expiresAt.
  assert (Hp : s_plan (normalize_counters (json_snapshot lic)) = json_val (s_plan lic)).
  { unfold normalize_counters.
    repeat match goal with
           | |- context [if ?b then _ else _] => destruct b
           end; done. }
  assert (Ha : activatedAt (normalize_counters (json_snapshot lic))
               = json_val (activatedAt lic)).
  { unfold normalize_counters.
    repeat match goal with
           | |- context [if ?b then _ else _] => destruct b
           end; done. }
  rewrite Hp, Ha. repeat split; done.
Qed.

End SessionInfo.

Lemma session_info_after_login_witness :
  ("abc-1" <> "" /\
   Cases.answering Cases.lifetime_answer
     {| method := "POST"; licenseKey := VStr "abc-1";
        deviceId := VStr "f00d"; user_agent := VUndef |}
     = API.Fetched Cases.lifetime_answer /\
   API.ok Cases.lifetime_answer = true /\
   r_body Cases.lifetime_answer = BValid Scenario.lifetime_snapshot) /\
  let out := Auth.login "f00d" VUndef (Cases.answering Cases.lifetime_answer)
               Scenario.t0 Scenario.t0 (VStr "abc-1") Scenario.signed_out ∅ in
  exists info,
    Coordinator.getSessionInfo (P := EpochPlatform.platform) (Scenario.t0 + 1000)
      (Auth.manager out) = Some (Some info) /\
    Coordinator.info_licenseKey info = json_val (s_key Scenario.lifetime_snapshot) /\
    Coordinator.info_plan info = json_val (s_plan Scenario.lifetime_snapshot) /\
    Coordinator.info_expiresAt info = json_val (expiresAt Scenario.lifetime_snapshot) /\
    Coordinator.info_activatedAt info
      = json_val (activatedAt Scenario.lifetime_snapshot) /\
    Coordinator.info_remainingDays info
      = API.getRemainingDays (P := EpochPlatform.platform) (Scenario.t0 + 1000)
          (json_val (expiresAt Scenario.lifetime_snapshot)) /\
    Coordinator.info_processedVideos info
      = js_or (js_or (json_val (s_processedVideos Scenario.lifetime_snapshot))
                     (json_val (s_processed_videos Scenario.lifetime_snapshot)))
              (VNum 0) /\
    Coordinator.info_deviceId info = VStr "f00d".
Proof.
  assert (Hs : "abc-1" <> "") by discriminate.
  split; [repeat split; try reflexivity; assumption|].
  exact (session_info_after_login (P := EpochPlatform.platform)
           "f00d" VUndef (Cases.answering Cases.lifetime_answer)
           Scenario.t0 Scenario.t0 Scenario.signed_out ∅ "abc-1"
           Cases.lifetime_answer Scenario.lifetime_snapshot (Scenario.t0 + 1000)
           Hs eq_refl eq_refl eq_refl).
Defined.

(** ** Cookie and metering of the Netlify port *)

Section NetlifyMetering.
Context {P : Platform}.

Ltac no_cookie :=
  split; [split; [intros [? [=]] | intros [=]] | intros ? [=]].

Ltac with_cookie :=
  split; [split; [reflexivity | intros _; eexists; reflexivity]
         | intros ? [= <-]; reflexivity].

Lemma netlify_validate_cookie netlify_env process_env n c req db :
  cookie_on_success (fst (NetlifyValidate.handler netlify_env process_env n c req db)).
Proof.
  unfold NetlifyValidate.handler, NetlifyValidate.handler_try.
  destruct (negb (method req =? "POST")%string); [no_cookie|].
  unfold return_if, throw_if.
  do 4 (case_if; simpl; [no_cookie|]).
  destruct (Netlify.licenses_of db) as [ls|r|] eqn:Hls; simpl;
    [| by destruct db | no_cookie].
  destruct (normalize (licenseKey req)) as [k|]; simpl; [|no_cookie].
  destruct (findIndex (key_is k) ls) as [[i|]|]; simpl; [| no_cookie | no_cookie].
  destruct (ls !! i) as [l0|] eqn:Hl0; simpl; [|no_cookie].
  destruct (negb (truthy (activated_on l0))); simpl.
  - destruct (activate c (deviceId req) _ l0) as [l1|r|] eqn:Hact; simpl;
      [| by apply activate_not_return in Hact | no_cookie].
    do 4 (case_if; simpl; [no_cookie|]). with_cookie.
  - do 4 (case_if; simpl; [no_cookie|]). with_cookie.
Qed.

Lemma netlify_validate_counts_one netlify_env process_env n c req db :
  counts_one db (snd (NetlifyValidate.handler netlify_env process_env n c req db)).
Proof.
  unfold NetlifyValidate.handler, NetlifyValidate.handler_try.
  destruct (negb (method req =? "POST")%string); [by left|].
  unfold return_if, throw_if.
  do 4 (case_if; simpl; [by left|]).
  destruct (Netlify.licenses_of db) as [ls|r|] eqn:Hls; simpl;
    [| by destruct db | by left].
  assert (Hrec : ls = records db) by (destruct db; simpl in Hls; by simplify_eq).
  destruct (normalize (licenseKey req)) as [k|]; simpl; [|by left].
  destruct (findIndex (key_is k) ls) as [[i|]|]; simpl; [| by left | by left].
  destruct (ls !! i) as [l0|] eqn:Hl0; simpl; [|by left].
  destruct (truthy (activated_on l0)) eqn:Ha; simpl.
  - do 3 (case_if; simpl; [by left|]).
    destruct (bool_decide (put_outcome n = NetOk)); destruct (negb (latin1 _)); simpl;
      try (by left);
      right; exists i, l0; eexists; subst ls; repeat split; eauto.
  - destruct (activate c (deviceId req) _ l0) as [l1|r|] eqn:Hact; simpl;
      [| by apply activate_not_return in Hact | by left].
    do 3 (case_if; simpl; [by left|]).
    destruct (bool_decide (put_outcome n = NetOk)); destruct (negb (latin1 _)); simpl;
      try (by left);
      right; exists i, l0; eexists; subst ls; repeat split; eauto.
    all: first [simpl; by eapply activate_key | congruence].
Qed.

(** X29.  Whatever the request, the credentials, the store and the
    outcome of the reads and writes, the Netlify [validate-license] sets
    the [flowtik_token] cookie exactly when it answers [valid: true], and
    then with a Max-Age of 86400 seconds; and it either leaves the store
    as it is or writes the licenses back with one record replaced, whose
    key is the same and which, if it was activated, is the old record
    with its counter incremented once.  It never removes or adds a
    record. *)
Theorem netlify_validate_signs_and_meters netlify_env process_env n c req db :
  let r := NetlifyValidate.handler netlify_env process_env n c req db in
  cookie_on_success (fst r) /\
  counts_one db (snd r) /\
  length (records (snd r)) = length (records db).
Proof.
  intros r. subst r.
  split; [apply netlify_validate_cookie|].
  split; [apply netlify_validate_counts_one|].
  destruct (netlify_validate_counts_one netlify_env process_env n c req db)
    as [-> | (i & l0 & l' & _ & -> & _)]; [done|].
  simpl. by rewrite length_map, length_insert.
Qed.

End NetlifyMetering.

(** ** First activation *)

(** What [validate-license] answers and stores when it activates a
    record with a numeric [duration_days]. *)
Lemma validate_first_activation `{P : Platform}
    e n c req db i l d :
  (forall t, Z.abs t <= maxTime -> Date_parse (toISOString t) = Some t) ->
  served e n req ->
  put_outcome n = NetOk ->
  selects req db i l ->
  truthy (activated_on l) = false ->
  duration_days l = VNum d ->
  d <> 0 ->
  Z.abs (getDate (clk_now c) + d) <= two53 ->
  Z.abs (UTC (LocalTime (clk_expiry c)
              + (getDate (clk_now c) - getDate (clk_expiry c) + d) * msPerDay))
    <= maxTime ->
  clk_now c <= UTC (LocalTime (clk_expiry c)
                    + (getDate (clk_now c) - getDate (clk_expiry c) + d) * msPerDay) ->
  let drift := getDate (clk_now c) - getDate (clk_expiry c) in
  let x := UTC (LocalTime (clk_expiry c) + (drift + d) * msPerDay) in
  let r := ValidateLicense.handler e n c req db in
  (Day (LocalTime (clk_now c)) = Day (LocalTime (clk_expiry c)) -> drift = 0) /\
  (LocalTZA (clk_expiry c) true
   = LocalTZA (LocalTime (clk_expiry c) + (drift + d) * msPerDay) false ->
   x = clk_expiry c + (drift + d) * msPerDay) /\
  (exists lic,
     fst r =
       {| status := 200; r_body := BValid lic;
          set_cookie :=
            Some (session_cookie (key l) (deviceId req) (clk_token c)) |} /\
     s_key lic = key l /\
     activatedAt lic = VStr (toISOString (clk_now c)) /\
     expiresAt lic = VStr (toISOString x) /\
     s_processed_videos lic = VNum 1) /\
  (exists l1,
     records (snd r) !! i = Some l1 /\
     activated_on l1 = VStr (toISOString (clk_now c)) /\
     device_hash l1 = deviceId req /\
     expires_at l1 = VStr (toISOString x) /\
     processed_videos l1 = VNum 1).
Proof.
  intros Hiso Hs Hput Hsel Ha Hdur Hd Hsafe Hmax Hle drift x r. subst r.
  split.
  { intros Hday. subst drift. rewrite (getDate_same_day _ _ Hday). lia. }
  split.
  { intros Hoff. subst x. unfold UTC. rewrite <- Hoff. unfold LocalTime. lia. }
  pose proof (selects_licenses_of _ _ _ _ Hsel) as Hls.
  destruct Hs as (Hm & Hk1 & Hd1 & He1 & He2 & Hg).
  destruct Hsel as (k & Hn & Hf & Hl).
  assert (Hact : activate c (deviceId req)
                   (js_or (user_agent req) (VStr "Unknown Device")) l =
                 Next (set_expires_at (VStr (toISOString x))
                         (set_processed_videos (VNum 0)
                            (set_device_name
                               (VStr (simplifyUserAgent
                                        (js_or (user_agent req) (VStr "Unknown Device"))))
                               (set_device_hash (deviceId req)
                                  (set_activated_on (VStr (toISOString (clk_now c))) l)))))).
  { unfold activate. cbn [duration_days set_processed_videos set_device_name
                          set_device_hash set_activated_on].
    rewrite Hdur. cbn [truthy js_plus ToNumber ToString].
    replace (d =? 0) with false by lia. cbn [negb].
    rewrite (round_to_double_safe _ Hsafe), setDate_getDate.
    unfold TimeClip. rewrite (proj2 (Z.leb_le _ _) Hmax).
    reflexivity. }
  assert (Hx : num_lt (Date_parse (toISOString x)) (Some (clk_now c)) = false).
  { rewrite Hiso by done. cbn [num_lt]. apply Z.ltb_ge. done. }
  assert (Hone : round_to_double 1 = 1) by reflexivity.
  clearbody x. clear drift.
  unfold ValidateLicense.handler, ValidateLicense.handler_try.
  rewrite Hm, Hk1, Hd1, He1, He2, Hg, Hls. simpl.
  rewrite Hn. simpl. rewrite Hf. simpl. rewrite Hl, Ha. simpl.
  rewrite Hact. simpl.
  unfold strict_ne. rewrite (strict_eq_refl_truthy _ Hd1).
  rewrite Hx, Hput, !andb_false_r. simpl. rewrite ?Hone.
  split.
  - eexists. split; [reflexivity|]. done.
  - change (map ?f ?y) with (f <$> y).
    rewrite list_lookup_fmap, list_lookup_insert_eq by (by eapply lookup_lt_Some).
    eexists. split; [reflexivity|]. simpl.
    repeat split. by apply json_val_truthy.
Qed.

(** *** Scenario A *)

(** C6.  Scenario A at the end of a month, on a server whose local time
    is UTC.  The handler reads the clock twice: [now], whose day of the
    month it takes, and [expiryDate], whose day of the month it sets to
    that day plus [duration_days].  When the first reading is
    2024-01-31T23:59:59.999Z and the second 2024-02-01T00:00:00.000Z,
    [validate("abc-1", "dev1")] on the unactivated record with key
    ["ABC-1"] and [duration_days] 30 finds the record and answers
    [valid: true] with [processed_videos] 1 and [activatedAt] the first
    reading, but with [expiresAt] the 61st of February, which is the
    first of April: 60 days after the request, where Scenario A expects
    30; that expiry is what it stores.  The platform is assumed to parse
    the ISO text of a valid time value back to that value. *)
Theorem scenario_A_at_the_end_of_a_month `{P : Platform} :
  (forall t, Z.abs t <= maxTime -> Date_parse (toISOString t) = Some t) ->
  (forall t isUTC, LocalTZA t isUTC = 0) ->
  let c := Scenario.month_end in
  let r := ValidateLicense.handler Scenario.env0 Scenario.online c
             (Scenario.post "abc-1" "dev1") Cases.fresh_store in
  clk_expiry c - clk_now c = 1 /\
  getDate (clk_now c) = 31 /\
  MonthFromTime (LocalTime (clk_expiry c)) = 1 /\
  getDate (clk_expiry c) = 1 /\
  MonthFromTime (LocalTime (clk_expiry c + 60 * msPerDay)) = 3 /\
  getDate (clk_expiry c + 60 * msPerDay) = 1 /\
  (exists lic,
     fst r =
       {| status := 200; r_body := BValid lic;
          set_cookie :=
            Some (session_cookie (VStr "ABC-1") (VStr "dev1") (clk_token c)) |} /\
     s_key lic = VStr "ABC-1" /\
     activatedAt lic = VStr (toISOString (clk_now c)) /\
     expiresAt lic = VStr (toISOString (clk_expiry c + 60 * msPerDay)) /\
     s_processed_videos lic = VNum 1) /\
  (exists l1,
     records (snd r) !! 0%nat = Some l1 /\
     activated_on l1 = VStr (toISOString (clk_now c)) /\
     device_hash l1 = VStr "dev1" /\
     expires_at l1 = VStr (toISOString (clk_expiry c + 60 * msPerDay)) /\
     processed_videos l1 = VNum 1).
Proof.
  intros Hiso HTZ c r.
  assert (Hs : served Scenario.env0 Scenario.online (Scenario.post "abc-1" "dev1"))
    by (repeat split; reflexivity).
  assert (Hsel : selects (Scenario.post "abc-1" "dev1") Cases.fresh_store 0
                   (Scenario.unactivated "ABC-1" 30)).
  { exists "ABC-1". split; [|split; [|reflexivity]].
    - change (normalize (VStr "abc-1") = Some "ABC-1").
      rewrite normalize_string by done. by rewrite normalize_ascii.
    - change (findIndex (key_is "ABC-1") [Scenario.unactivated "ABC-1" 30]
              = Some (Some 0%nat)).
      unfold findIndex, findIndex_from, key_is.
      change (key (Scenario.unactivated "ABC-1" 30)) with (VStr "ABC-1").
      rewrite normalize_string by done. by rewrite normalize_ascii. }
  assert (Hlocal : forall t, LocalTime t = t).
  { intros t. unfold LocalTime. rewrite HTZ. lia. }
  assert (Hutc : forall t, UTC t = t).
  { intros t. unfold UTC. rewrite HTZ. lia. }
  assert (Hg1 : getDate (clk_now c) = 31).
  { unfold getDate. by rewrite Hlocal. }
  assert (Hg2 : getDate (clk_expiry c) = 1).
  { unfold getDate. by rewrite Hlocal. }
  assert (Hx : UTC (LocalTime (clk_expiry c)
                    + (getDate (clk_now c) - getDate (clk_expiry c) + 30) * msPerDay)
               = clk_expiry c + 60 * msPerDay).
  { by rewrite Hg1, Hg2, Hutc, Hlocal. }
  assert (H0 : 30 <> 0) by lia.
  assert (H1 : Z.abs (getDate (clk_now c) + 30) <= two53).
  { rewrite Hg1. vm_compute. discriminate. }
  assert (H2 : Z.abs (UTC (LocalTime (clk_expiry c)
                           + (getDate (clk_now c) - getDate (clk_expiry c) + 30)
                             * msPerDay)) <= maxTime).
  { rewrite Hx. vm_compute. discriminate. }
  assert (H3 : clk_now c
               <= UTC (LocalTime (clk_expiry c)
                       + (getDate (clk_now c) - getDate (clk_expiry c) + 30)
                         * msPerDay)).
  { rewrite Hx. vm_compute. discriminate. }
  pose proof (validate_first_activation Scenario.env0 Scenario.online c
                (Scenario.post "abc-1" "dev1") Cases.fresh_store 0%nat
                (Scenario.unactivated "ABC-1" 30) 30
                Hiso Hs eq_refl Hsel eq_refl eq_refl H0 H1 H2 H3)
    as (_ & _ & Hans & Hst).
  cbv zeta in Hans, Hst.
  rewrite Hx in Hans, Hst.
  split; [reflexivity|]. split; [done|].
  split; [by rewrite Hlocal|]. split; [done|].
  split; [by rewrite Hlocal|].
  split; [unfold getDate; by rewrite Hlocal|].
  split; [exact Hans | exact Hst].
Qed.

Lemma scenario_A_at_the_end_of_a_month_witness :
  ((forall t, Z.abs t <= maxTime ->
      EpochPlatform.parse_decimal (string_of_Z t) = Some t) /\
   (forall t isUTC, LocalTZA t isUTC = 0)) /\
  let c := Scenario.month_end in
  let r := ValidateLicense.handler Scenario.env0 Scenario.online c
             (Scenario.post "abc-1" "dev1") Cases.fresh_store in
  (exists lic,
     fst r =
       {| status := 200; r_body := BValid lic;
          set_cookie :=
            Some (session_cookie (VStr "ABC-1") (VStr "dev1") 1706745600000) |} /\
     s_key lic = VStr "ABC-1" /\
     activatedAt lic = VStr "1706745599999" /\
     expiresAt lic = VStr "1711929600000" /\
     s_processed_videos lic = VNum 1) /\
  (exists l1,
     records (snd r) !! 0%nat = Some l1 /\
     activated_on l1 = VStr "1706745599999" /\
     device_hash l1 = VStr "dev1" /\
     expires_at l1 = VStr "1711929600000" /\
     processed_videos l1 = VNum 1).
Proof.
  split; [split; [intros t _; apply epoch_roundtrip | reflexivity]|].
  exact (proj2 (proj2 (proj2 (proj2 (proj2 (proj2
           (scenario_A_at_the_end_of_a_month (P := EpochPlatform.platform)
              (fun t _ => epoch_roundtrip t) (fun _ _ => eq_refl)))))))).
Defined.

(** *** The expiry in general *)

(** X30.  The first [validate-license] on a record that is not
    activated and has a numeric, non-zero [duration_days] [d].  The
    handler reads the clock twice, [now] and [expiryDate], and sets the
    day of the month of the second to that of the first plus [d].  The
    expiry is therefore [expiryDate] moved by [d + drift] calendar days
    in local time, where [drift] is the day of the month of [now] minus
    that of [expiryDate]: 0 when both readings fall on the same local
    day.  The move is made on the local time and taken back to UTC with
    the offset in force at the result; it is [d + drift] days exactly
    when the offset has not changed.  If that expiry is a valid time not
    before [now] and the write succeeds, the answer is [valid: true] with
    [activatedAt] the first reading, that expiry and [processed_videos]
    1, and the record is stored activated, bound to the device of the
    request, with that expiry and the counter 1.  The platform is assumed
    to parse the ISO text of a valid time value back to that value. *)
Theorem first_activation_computes_the_expiry `{P : Platform}
    e n c req db i l d :
  (forall t, Z.abs t <= maxTime -> Date_parse (toISOString t) = Some t) ->
  served e n req ->
  put_outcome n = NetOk ->
  selects req db i l ->
  truthy (activated_on l) = false ->
  duration_days l = VNum d ->
  d <> 0 ->
  Z.abs (getDate (clk_now c) + d) <= two53 ->
  Z.abs (UTC (LocalTime (clk_expiry c)
              + (getDate (clk_now c) - getDate (clk_expiry c) + d) * msPerDay))
    <= maxTime ->
  clk_now c <= UTC (LocalTime (clk_expiry c)
                    + (getDate (clk_now c) - getDate (clk_expiry c) + d) * msPerDay) ->
  let drift := getDate (clk_now c) - getDate (clk_expiry c) in
  let x := UTC (LocalTime (clk_expiry c) + (drift + d) * msPerDay) in
  let r := ValidateLicense.handler e n c req db in
  (Day (LocalTime (clk_now c)) = Day (LocalTime (clk_expiry c)) -> drift = 0) /\
  (LocalTZA (clk_expiry c) true
   = LocalTZA (LocalTime (clk_expiry c) + (drift + d) * msPerDay) false ->
   x = clk_expiry c + (drift + d) * msPerDay) /\
  (exists lic,
     fst r =
       {| status := 200; r_body := BValid lic;
          set_cookie :=
            Some (session_cookie (key l) (deviceId req) (clk_token c)) |} /\
     s_key lic = key l /\
     activatedAt lic = VStr (toISOString (clk_now c)) /\
     expiresAt lic = VStr (toISOString x) /\
     s_processed_videos lic = VNum 1) /\
  (exists l1,
     records (snd r) !! i = Some l1 /\
     activated_on l1 = VStr (toISOString (clk_now c)) /\
     device_hash l1 = deviceId req /\
     expires_at l1 = VStr (toISOString x) /\
     processed_videos l1 = VNum 1).
Proof. apply validate_first_activation. Qed.

Lemma first_activation_computes_the_expiry_witness :
  ((forall t, Z.abs t <= maxTime ->
      EpochPlatform.parse_decimal (string_of_Z t) = Some t) /\
   served Scenario.env0 Scenario.online (Scenario.post "abc-1" "dev1") /\
   put_outcome Scenario.online = NetOk /\
   selects (Scenario.post "abc-1" "dev1") Cases.fresh_store 0
     (Scenario.unactivated "ABC-1" 30) /\
   truthy (activated_on (Scenario.unactivated "ABC-1" 30)) = false /\
   duration_days (Scenario.unactivated "ABC-1" 30) = VNum 30 /\
   30 <> 0 /\
   Z.abs (getDate Scenario.t0 + 30) <= two53 /\
   Z.abs (Scenario.t0 + 30 * msPerDay) <= maxTime /\
   Scenario.t0 <= Scenario.t0 + 30 * msPerDay) /\
  let r := ValidateLicense.handler Scenario.env0 Scenario.online
             (Scenario.at_time Scenario.t0) (Scenario.post "abc-1" "dev1")
             Cases.fresh_store in
  (exists lic,
     fst r =
       {| status := 200; r_body := BValid lic;
          set_cookie :=
            Some (session_cookie (VStr "ABC-1") (VStr "dev1") Scenario.t0) |} /\
     s_key lic = VStr "ABC-1" /\
     activatedAt lic = VStr (string_of_Z Scenario.t0) /\
     expiresAt lic = VStr (string_of_Z (Scenario.t0 + 30 * msPerDay)) /\
     s_processed_videos lic = VNum 1) /\
  (exists l1,
     records (snd r) !! 0%nat = Some l1 /\
     activated_on l1 = VStr (string_of_Z Scenario.t0) /\
     device_hash l1 = VStr "dev1" /\
     expires_at l1 = VStr (string_of_Z (Scenario.t0 + 30 * msPerDay)) /\
     processed_videos l1 = VNum 1).
Proof.
  assert (Hs : served Scenario.env0 Scenario.online (Scenario.post "abc-1" "dev1"))
    by (repeat split; reflexivity).
  assert (Hsel : selects (Scenario.post "abc-1" "dev1") Cases.fresh_store 0
                   (Scenario.unactivated "ABC-1" 30))
    by (exists "ABC-1"; repeat split; reflexivity).
  assert (H0 : 30 <> 0) by lia.
  assert (H1 : Z.abs (getDate Scenario.t0 + 30) <= two53)
    by (vm_compute; discriminate).
  assert (H2 : Z.abs (Scenario.t0 + 30 * msPerDay) <= maxTime)
    by (vm_compute; discriminate).
  assert (H3 : Scenario.t0 <= Scenario.t0 + 30 * msPerDay)
    by (vm_compute; discriminate).
  split.
  { split; [intros t _; apply epoch_roundtrip|].
    repeat split; try reflexivity; assumption. }
  exact (proj2 (proj2
           (first_activation_computes_the_expiry (P := EpochPlatform.platform)
              Scenario.env0 Scenario.online (Scenario.at_time Scenario.t0)
              (Scenario.post "abc-1" "dev1") Cases.fresh_store 0%nat
              (Scenario.unactivated "ABC-1" 30) 30
              (fun t _ => epoch_roundtrip t) Hs eq_refl Hsel eq_refl eq_refl
              H0 H1 H2 H3))).
Defined.
